(** * Frappe access layer: document operations, verification, schema, session

    A shallow embedding of the two modules that talk to the platform: the
    main API module (everything from [authenticateWithPassword] to
    [getFieldOptions]) and the document module that imports its client from
    [./api-client.js] (here [Module DocumentApi]).  Asynchronous functions
    become computations in a state-and-exception monad over a [World] that
    records every channel call and every timer wait, in order.  The upstream
    platform, the clock and the process environment are an [Env] the
    computations read; nothing about them is assumed. *)

From Stdlib Require Import ZArith List String Ascii Bool Lia DecimalString.
Import ListNotations.
Open Scope string_scope.
Open Scope Z_scope.
Set Warnings "-register-all".

(** ** JavaScript values

    Upstream data is JSON, so a value is one of the JSON shapes plus
    [undefined].  Numbers are the integers among the doubles (the program
    only compares flags with [1] and prints counts and names): every integer
    of magnitude up to 2^53, and above that those a double holds exactly;
    [JNum] of any other integer stands for no number of the program. *)

Inductive JS : Type :=
| JUndefined
| JNull
| JBool (b : bool)
| JNum (n : Z)
| JStr (s : string)
| JArr (items : list JS)
| JObj (props : list (string * JS)).

(** A text is a value. *)
Coercion JStr : string >-> JS.

(** A [Record<string, any>] or a document: its own properties in order. *)
Definition Obj : Type := list (string * JS).

(** ToBoolean. *)
Definition truthy (v : JS) : bool :=
  match v with
  | JUndefined | JNull => false
  | JBool b => b
  | JNum n => negb (n =? 0)
  | JStr s => negb (s =? "")%string
  | JArr _ | JObj _ => true
  end.

(** [!s] for a text. *)
Definition is_empty (s : string) : bool := (s =? "")%string.

(** [!v] for any value. *)
Definition falsy (v : JS) : bool :=
  match v with
  | JUndefined | JNull => true
  | JBool b => negb b
  | JNum n => n =? 0
  | JStr s => is_empty s
  | JArr _ | JObj _ => false
  end.

(** [o.k] for a [k] that is no member of [Object.prototype] (see
    [inherited] below): the own property, or [undefined]. *)
Fixpoint obj_get (o : Obj) (k : string) : JS :=
  match o with
  | [] => JUndefined
  | (k', v) :: rest => if (k' =? k)%string then v else obj_get rest k
  end.

(** [{...o, k: v}]: replaces the property in place, or appends it. *)
Fixpoint obj_set (o : Obj) (k : string) (v : JS) : Obj :=
  match o with
  | [] => [(k, v)]
  | (k', v') :: rest =>
      if (k' =? k)%string then (k, v) :: rest else (k', v') :: obj_set rest k v
  end.

(** [a === b].  Objects and arrays are equal only to themselves, and the
    program only ever compares a value with a literal or with a value taken
    from a different response, so two of them are never the same object. *)
Definition strict_eq (a b : JS) : bool :=
  match a, b with
  | JUndefined, JUndefined => true
  | JNull, JNull => true
  | JBool x, JBool y => Bool.eqb x y
  | JNum x, JNum y => x =? y
  | JStr x, JStr y => (x =? y)%string
  | _, _ => false
  end.

Definition string_of_Z (n : Z) : string := NilZero.string_of_int (Z.to_int n).

Definition string_of_nat (n : nat) : string := string_of_Z (Z.of_nat n).

(** The double nearest to a positive integer, ties to the even one. *)
Definition nearest_double (v : Z) : Z :=
  let sh := Z.log2 v + 1 - 53 in
  if sh <=? 0 then v
  else
    let q := Z.shiftr v sh in
    let r := v - Z.shiftl q sh in
    let half := Z.shiftl 1 (sh - 1) in
    Z.shiftl (if (half <? r) || ((r =? half) && Z.odd q) then q + 1 else q) sh.

Definition digits (v : Z) : nat := String.length (string_of_Z v).

(** The decimal with the fewest significant digits that reads back as the
    double [x], the one closest to [x] where there are two: [k] digits are
    tried first, then one more, [fuel] times.  Seventeen digits tell any two
    doubles apart. *)
Fixpoint shortest (x : Z) (k fuel : nat) : Z :=
  match fuel with
  | O => x
  | S fuel' =>
      let p := 10 ^ Z.of_nat (digits x - k) in
      let lo := x / p * p in
      let hi := lo + p in
      let ok_lo := nearest_double lo =? x in
      let ok_hi := nearest_double hi =? x in
      if ok_lo && ok_hi then
        if x - lo <? hi - x then lo
        else if hi - x <? x - lo then hi
        else if Z.even (x / p) then lo else hi
      else if ok_lo then lo
      else if ok_hi then hi
      else shortest x (S k) fuel'
  end.

Fixpoint strip_zeros (fuel : nat) (v : Z) : Z :=
  match fuel with
  | O => v
  | S fuel' => if v mod 10 =? 0 then strip_zeros fuel' (v / 10) else v
  end.

(** [d.ddde+x], the form of a number from 10^21 on. *)
Definition exponent_form (v : Z) : string :=
  let e := string_of_Z (Z.of_nat (digits v - 1)) in
  match string_of_Z (strip_zeros (digits v) v) with
  | String c EmptyString => String c ("e+" ++ e)
  | String c rest => String c ("." ++ rest ++ "e+" ++ e)
  | EmptyString => ""
  end.

(** Number::toString for an integer: its digits up to 2^53; above that the
    shortest decimal that reads back as the same double, in full below
    10^21 and in exponent form from there on. *)
Definition number_text (n : Z) : string :=
  if n =? 0 then "0"
  else
    let v := shortest (Z.abs n) 1 17 in
    let body := if v <? 10 ^ 21 then string_of_Z v else exponent_form v in
    if n <? 0 then "-" ++ body else body.

(** [Array.prototype.join]. *)
Fixpoint join (sep : string) (l : list string) : string :=
  match l with
  | [] => ""
  | [s] => s
  | s :: rest => s ++ sep ++ join sep rest
  end.

(** ToString, as a template literal applies it. *)
Fixpoint to_str (v : JS) : string :=
  match v with
  | JUndefined => "undefined"
  | JNull => "null"
  | JBool true => "true"
  | JBool false => "false"
  | JNum n => number_text n
  | JStr s => s
  | JArr l =>
      join "," (map (fun x => match x with
                              | JUndefined | JNull => ""
                              | _ => to_str x
                              end) l)
  | JObj _ => "[object Object]"
  end.

(** ** Strings *)

(** [s.endsWith(suffix)]. *)
Definition endsWith (s suffix : string) : bool :=
  let n := String.length s in
  let m := String.length suffix in
  if (m <=? n)%nat then (substring (n - m) m s =? suffix)%string else false.

(** [s.split(c)] for a one-character separator. *)
Fixpoint split (c : ascii) (s : string) : list string :=
  match s with
  | EmptyString => [""]
  | String a rest =>
      if Ascii.eqb a c then "" :: split c rest
      else match split c rest with
           | h :: t => String a h :: t
           | [] => [String a ""]
           end
  end.

(** White space and line terminators among the code units below 256. *)
Definition is_space (a : ascii) : bool :=
  let n := nat_of_ascii a in
  ((9 <=? n) && (n <=? 13) || (n =? 32) || (n =? 160))%nat.

Fixpoint trim_start (s : string) : string :=
  match s with
  | EmptyString => ""
  | String a rest => if is_space a then trim_start rest else s
  end.

Fixpoint trim_end (s : string) : string :=
  match s with
  | EmptyString => ""
  | String a rest =>
      let rest' := trim_end rest in
      if is_space a && (rest' =? "")%string then "" else String a rest'
  end.

(** [s.trim()]. *)
Definition trim (s : string) : string := trim_end (trim_start s).

Definition LF : ascii := "010"%char.
Definition SP : ascii := " "%char.

(** ** Errors

    What a [catch] can receive: a plain [Error] (also the engine's
    [TypeError]), a transport error of the HTTP client, or the structured
    error of this layer. *)

Inductive Exn : Type :=
| PlainError (message : string)
| AxiosError (message : string) (status : option Z) (url : option string)
             (data : JS)
| FrappeApiError (message : string) (statusCode : option Z)
                 (endpoint : option string) (details : JS).

Definition exn_message (e : Exn) : string :=
  match e with
  | PlainError m => m
  | AxiosError m _ _ _ => m
  | FrappeApiError m _ _ _ => m
  end.

(** [axios.isAxiosError(error)]. *)
Definition isAxiosError (e : Exn) : bool :=
  match e with AxiosError _ _ _ _ => true | _ => false end.

Definition is_FrappeApiError (e : Exn) : bool :=
  match e with FrappeApiError _ _ _ _ => true | _ => false end.

(** Reading a property of [undefined] or [null] raises a [TypeError]; the
    text is the engine's. *)
Definition TypeError_read (v : JS) (k : string) : Exn :=
  PlainError ("Cannot read properties of " ++ to_str v
              ++ " (reading '" ++ k ++ "')").

Definition TypeError_call (what : string) : Exn :=
  PlainError (what ++ " is not a function").

(** ** Channel calls and the world *)

(** The two clients: [frappe] (token) and [frappePassword]. *)
Inductive Channel : Type := TokenChannel | PasswordChannel.

Inductive Order : Type := asc | desc.

(** The argument object of [getDocList]. *)
Record ListArgs : Type := mkListArgs {
  la_fields : option (list JS);
  la_filters : JS;
  la_orderBy : option (string * Order);
  la_limit_start : option Z;
  la_limit : option Z
}.

Inductive Call : Type :=
| GetDoc (ch : Channel) (doctype : string) (name : JS)
| CreateDoc (ch : Channel) (doctype : string) (values : Obj)
| UpdateDoc (ch : Channel) (doctype : string) (name : string) (values : Obj)
| DeleteDoc (ch : Channel) (doctype : string) (name : string)
| GetDocList (ch : Channel) (doctype : JS) (args : ListArgs)
| CallGet (ch : Channel) (method : string) (params : Obj)
| CallPost (ch : Channel) (method : string) (params : JS)
| Login (username password : string).

Inductive Event : Type :=
| Called (c : Call)
| Slept (ms : Z).

(** The state behind [isAuthenticated], [authenticationInProgress] and
    [lastAuthAttempt]. *)
Record Session : Type := mkSession {
  isAuthenticated : bool;
  authenticationInProgress : bool;
  lastAuthAttempt : Z
}.

Record World : Type := mkWorld {
  trace : list Event;
  session : Session
}.

(** Everything outside the program.  An answer may depend on all that
    happened before.  [getDocList] answers an array of documents or nothing
    ([null] or [undefined], which its callers test for). *)
Record Env : Type := mkEnv {
  FRAPPE_USERNAME : option string;
  FRAPPE_PASSWORD : option string;
  JSON_parse : string -> option JS;
  Date_now : list Event -> Z;
  answer : list Event -> Call -> Exn + JS;
  answer_list : list Event -> Call -> Exn + option (list Obj)
}.

(** ** The monad of asynchronous functions *)

Inductive Res (A : Type) : Type :=
| Ok (a : A)
| Throw (e : Exn)
| Hang.

Arguments Ok {A} a.
Arguments Throw {A} e.
Arguments Hang {A}.

Definition M (A : Type) : Type := World -> Res A * World.

Definition ret {A} (a : A) : M A := fun w => (Ok a, w).

Definition throw {A} (e : Exn) : M A := fun w => (Throw e, w).

Definition bind {A B} (m : M A) (k : A -> M B) : M B :=
  fun w =>
    match m w with
    | (Ok a, w') => k a w'
    | (Throw e, w') => (Throw e, w')
    | (Hang, w') => (Hang, w')
    end.

Notation "x <- m ;; k" := (bind m (fun x => k))
  (at level 61, m at next level, right associativity).
Notation "m ;;; k" := (bind m (fun _ => k))
  (at level 61, right associativity).

(** [try { m } catch (e) { h e }]. *)
Definition try_catch {A} (m : M A) (h : Exn -> M A) : M A :=
  fun w =>
    match m w with
    | (Throw e, w') => h e w'
    | other => other
    end.

(** [try { m } finally { f }], for an [f] that only assigns. *)
Definition try_finally {A} (m : M A) (f : World -> World) : M A :=
  fun w =>
    match m w with
    | (Hang, w') => (Hang, w')
    | (r, w') => (r, f w')
    end.

Definition record (ev : Event) (w : World) : World :=
  mkWorld (trace w ++ [ev]) (session w).

(** The longest wait a timer takes. *)
Definition TIMEOUT_MAX : Z := 2 ^ 31 - 1.

(** The wait [setTimeout(f, ms)] makes: a delay above [TIMEOUT_MAX] (an
    infinite one too) or below 1 is set to 1. *)
Definition timer_delay (ms : Z) : Z :=
  if (1 <=? ms) && (ms <=? TIMEOUT_MAX) then ms else 1.

(** [await new Promise(resolve => setTimeout(resolve, ms))]. *)
Definition sleep (ms : Z) : M unit :=
  fun w => (Ok tt, record (Slept (timer_delay ms)) w).

Definition get_session : M Session := fun w => (Ok (session w), w).

Definition set_session (s : Session) : M unit :=
  fun w => (Ok tt, mkWorld (trace w) s).

(** [v.k]. *)
Definition prop (v : JS) (k : string) : M JS :=
  match v with
  | JUndefined | JNull => throw (TypeError_read v k)
  | JObj o => ret (obj_get o k)
  | _ => ret JUndefined
  end.

(** [v.k] for a [v] already known not to be [undefined] or [null]. *)
Definition get (v : JS) (k : string) : JS :=
  match v with
  | JObj o => obj_get o k
  | _ => JUndefined
  end.

(** An element as [join] prints it. *)
Definition join_item (v : JS) : string :=
  match v with
  | JUndefined | JNull => ""
  | _ => to_str v
  end.

(** [{...v}]: the own enumerable properties of any value. *)
Fixpoint index_from {A} (f : A -> JS) (i : nat) (l : list A) : Obj :=
  match l with
  | [] => []
  | x :: rest => (string_of_nat i, f x) :: index_from f (S i) rest
  end.

Definition spread (v : JS) : Obj :=
  match v with
  | JObj o => o
  | JArr l => index_from (fun x => x) 0 l
  | JStr s => index_from (fun c => JStr (String c "")) 0 (list_ascii_of_string s)
  | _ => []
  end.

(** The verification result [{success, message}]. *)
Record Report : Type := mkReport {
  success : bool;
  message : string
}.

Definition Report_js (r : Report) : JS :=
  JObj [("success", JBool (success r)); ("message", JStr (message r))].

Definition AUTH_TIMEOUT : Z := 1000 * 60 * 30.

Definition initial_session : Session := mkSession false false 0.

Definition initial_world : World := mkWorld [] initial_session.

(** The waits and the calls of a trace. *)
Definition delay_of (ev : Event) : list Z :=
  match ev with Slept ms => [ms] | Called _ => [] end.

Definition delays (t : list Event) : list Z := flat_map delay_of t.

Definition total_delay (t : list Event) : Z := fold_right Z.add 0 (delays t).

Definition call_of (ev : Event) : list Call :=
  match ev with Called c => [c] | Slept _ => [] end.

Definition calls (t : list Event) : list Call := flat_map call_of t.

Definition is_create (c : Call) : bool :=
  match c with CreateDoc _ _ _ => true | _ => false end.

Definition create_attempts (t : list Event) : nat :=
  List.length (filter is_create (calls t)).

Section Model.

Context (E : Env).

(** ** The channel *)

Definition call_upstream (c : Call) : M JS :=
  fun w =>
    match answer E (trace w) c with
    | inr v => (Ok v, record (Called c) w)
    | inl e => (Throw e, record (Called c) w)
    end.

Definition getDoc (ch : Channel) (doctype : string) (name : JS) : M JS :=
  call_upstream (GetDoc ch doctype name).

Definition createDoc (ch : Channel) (doctype : string) (values : Obj) : M JS :=
  call_upstream (CreateDoc ch doctype values).

Definition updateDoc (ch : Channel) (doctype name : string) (values : Obj)
  : M JS :=
  call_upstream (UpdateDoc ch doctype name values).

Definition deleteDoc (ch : Channel) (doctype name : string) : M JS :=
  call_upstream (DeleteDoc ch doctype name).

Definition getDocList (ch : Channel) (doctype : JS) (args : ListArgs)
  : M (option (list Obj)) :=
  fun w =>
    let c := GetDocList ch doctype args in
    match answer_list E (trace w) c with
    | inr v => (Ok v, record (Called c) w)
    | inl e => (Throw e, record (Called c) w)
    end.

Definition now : M Z := fun w => (Ok (Date_now E (trace w)), w).

(** ** FrappeApiError.fromAxiosError and handleApiError *)

(** The [try] block over [data._server_messages]; [None] when it throws. *)
Definition parsed_server_messages (sm : JS) : option (list JS) :=
  match JSON_parse E (to_str sm) with
  | None => None
  | Some (JArr l) =>
      Some (map (fun msg => match JSON_parse E (to_str msg) with
                            | Some v => v
                            | None => msg
                            end) l)
  | Some v => Some [v]
  end.

(** [parsedMessages.map(m => m.message || m)]; [None] on a [TypeError]. *)
Fixpoint message_or_self (l : list JS) : option (list JS) :=
  match l with
  | [] => Some []
  | JUndefined :: _ | JNull :: _ => None
  | m :: rest =>
      match message_or_self rest with
      | None => None
      | Some rest' =>
          Some ((if truthy (get m "message") then get m "message" else m)
                :: rest')
      end
  end.

Definition fromAxiosError (error : Exn) (operation : string) : Exn :=
  let '(emsg, statusCode, url, data) :=
    match error with
    | AxiosError m st u d => (m, st, u, d)
    | other => (exn_message other, None, None, JUndefined)
    end in
  let endpoint :=
    match url with
    | Some u => if (u =? "")%string then "unknown" else u
    | None => "unknown"
    end in
  let plain :=
    ("Frappe API error during " ++ operation ++ ": " ++ emsg, JNull) in
  let '(msg, details) :=
    if truthy data then
      if truthy (get data "exception") then
        ("Frappe exception during " ++ operation ++ ": "
           ++ to_str (get data "exception"), data)
      else if truthy (get data "_server_messages") then
        let sm := get data "_server_messages" in
        let raw :=
          ("Frappe server message during " ++ operation ++ ": " ++ to_str sm,
           JObj [("serverMessages", sm)]) in
        match parsed_server_messages sm with
        | None => raw
        | Some parsed =>
            match message_or_self parsed with
            | None => raw
            | Some shown =>
                ("Frappe server message during " ++ operation ++ ": "
                   ++ join "; " (map join_item shown),
                 JObj [("serverMessages", JArr parsed)])
            end
        end
      else if truthy (get data "message") then
        ("Frappe API error during " ++ operation ++ ": "
           ++ to_str (get data "message"), data)
      else plain
    else plain in
  FrappeApiError msg statusCode (Some endpoint) details.

Definition handleApiError {A} (error : Exn) (operation : string) : M A :=
  if isAxiosError error then throw (fromAxiosError error operation)
  else throw (FrappeApiError
                ("Error during " ++ operation ++ ": " ++ exn_message error)
                None None JUndefined).

(** ** authenticateWithPassword *)

Definition configured (v : option string) : bool :=
  match v with
  | Some s => negb (s =? "")%string
  | None => false
  end.

Definition set_isAuthenticated (b : bool) : M unit :=
  fun w =>
    let s := session w in
    (Ok tt, mkWorld (trace w)
              (mkSession b (authenticationInProgress s) (lastAuthAttempt s))).

Definition set_lastAuthAttempt (t : Z) : M unit :=
  fun w =>
    let s := session w in
    (Ok tt, mkWorld (trace w)
              (mkSession (isAuthenticated s) (authenticationInProgress s) t)).

Definition set_authenticationInProgress (b : bool) (w : World) : World :=
  let s := session w in
  mkWorld (trace w) (mkSession (isAuthenticated s) b (lastAuthAttempt s)).

(** One call runs at a time here, so a flag found set is never cleared by
    anyone: [while (authenticationInProgress) await sleep(100)] does not
    end. *)
Definition wait_for_authentication : M bool := fun w => (Hang, w).

Definition authenticateWithPassword : M bool :=
  s <- get_session ;;
  if authenticationInProgress s then wait_for_authentication
  else
    t <- now ;;
    if isAuthenticated s && (t - lastAuthAttempt s <? AUTH_TIMEOUT)
    then ret true
    else
      (fun w => (Ok tt, set_authenticationInProgress true w)) ;;;
      try_finally
        (try_catch
           (if negb (configured (FRAPPE_USERNAME E))
               || negb (configured (FRAPPE_PASSWORD E))
            then set_isAuthenticated false ;;; ret false
            else
              match FRAPPE_USERNAME E, FRAPPE_PASSWORD E with
              | Some username, Some password =>
                  _ <- call_upstream (Login username password) ;;
                  set_isAuthenticated true ;;;
                  set_lastAuthAttempt t ;;;
                  ret true
              | _, _ => set_isAuthenticated false ;;; ret false
              end)
           (fun _ => set_isAuthenticated false ;;; ret false))
        (set_authenticationInProgress false).

(** ** verifyDocumentCreation

    The function, and the copy of it that [createDocumentWithAuth] runs on
    the password channel with [" (password auth)"] added to its messages. *)

(** The filter object: the first of [name], [title], [description] that is
    truthy decides; [substring] exists on strings only. *)
Definition creation_filters (values : Obj) : M Obj :=
  if truthy (obj_get values "name") then
    ret [("name", JArr [JStr "="; obj_get values "name"])]
  else if truthy (obj_get values "title") then
    ret [("title", JArr [JStr "="; obj_get values "title"])]
  else if truthy (obj_get values "description") then
    match obj_get values "description" with
    | JStr d =>
        ret [("description",
              JArr [JStr "like"; JStr ("%" ++ substring 0 20 d ++ "%")])]
    | _ => throw (TypeError_call "values.description.substring")
    end
  else ret [].

Definition verification_query (filters : Obj) : ListArgs :=
  mkListArgs None (JObj filters) None None (Some 5).

(** [documents.find(doc => doc.name === expected)] found something. *)
Definition has_name (expected : JS) (doc : Obj) : bool :=
  strict_eq (obj_get doc "name") expected.

Definition verification (ch : Channel) (suffix : string)
    (doctype : string) (values : Obj) (creationResponse : JS) : M Report :=
  try_catch
    (name <- prop creationResponse "name" ;;
     if negb (truthy name) then
       ret (mkReport false "Response does not contain a document name")
     else
       fetched <-
         try_catch
           (document <- getDoc ch doctype name ;;
            if truthy document && strict_eq (get document "name") name
            then ret true else ret false)
           (fun _ => ret false) ;;
       if (fetched : bool) then
         ret (mkReport true ("Document verified by direct fetch" ++ suffix))
       else
         filters <- creation_filters values ;;
         match filters with
         | _ :: _ =>
             documents <- getDocList ch doctype (verification_query filters) ;;
             match documents with
             | Some (d :: ds) =>
                 if existsb (has_name name) (d :: ds) then
                   ret (mkReport true
                          ("Document verified by filter search" ++ suffix))
                 else
                   ret (mkReport false
                          ("Found " ++ string_of_nat (List.length (d :: ds))
                             ++ " documents matching filters, but none match the expected name "
                             ++ to_str name ++ suffix))
             | _ =>
                 ret (mkReport false
                        ("No documents found matching the creation filters"
                           ++ suffix))
             end
         | [] =>
             ret (mkReport false
                    ("Could not verify document creation - no suitable filters available"
                       ++ suffix))
         end)
    (fun verifyError =>
       ret (mkReport false
              ("Error during verification" ++ suffix ++ ": "
                 ++ exn_message verifyError))).

Definition verifyDocumentCreation
    (doctype : string) (values : Obj) (creationResponse : JS) : M Report :=
  verification TokenChannel "" doctype values creationResponse.

(** ** createDocumentWithRetry *)

(** [{ ...result, _verification: verificationResult }]. *)
Definition with_verification (result : JS) (r : Report) : JS :=
  JObj (obj_set (spread result) "_verification" (Report_js r)).

(** [Math.pow(2, attempt - 1) * 1000], for an [attempt] from 1 on.  The
    doubles of the program hold this product exactly as long as it is finite
    (up to attempt 1015) and are infinite after that; the only use of the
    value is as the delay of a timer, which takes neither a finite value
    above [TIMEOUT_MAX] nor an infinite one (see [timer_delay]), so the
    integer stands for both. *)
Definition backoff (attempt : Z) : Z := 2 ^ (attempt - 1) * 1000.

(** One turn of the loop: [inl] is the value the function returns, [inr] the
    new [lastError] the loop goes on with. *)
Definition create_attempt (doctype : string) (values : Obj) (attempt : Z)
  : M (JS + Exn) :=
  try_catch
    (result <- createDoc TokenChannel doctype values ;;
     verificationResult <- verifyDocumentCreation doctype values result ;;
     if success verificationResult then
       ret (inl (with_verification result verificationResult))
     else
       sleep (backoff attempt) ;;;
       ret (inr (PlainError ("Verification failed: "
                               ++ message verificationResult))))
    (fun error =>
       sleep (backoff attempt) ;;;
       ret (inr error)).

(** The [for] loop from [attempt], with [turns] turns left. *)
Fixpoint create_loop (doctype : string) (values : Obj) (maxRetries : Z)
    (turns : nat) (attempt : Z) (lastError : option Exn) : M JS :=
  match turns with
  | O =>
      match lastError with
      | Some e => throw e
      | None =>
          throw (PlainError ("Failed to create document after "
                               ++ number_text maxRetries ++ " attempts"))
      end
  | S turns' =>
      step <- create_attempt doctype values attempt ;;
      match step with
      | inl value => ret value
      | inr e =>
          create_loop doctype values maxRetries turns' (attempt + 1) (Some e)
      end
  end.

(** [maxRetries] is a whole number of magnitude below 2^53, one that
    [attempt++] can count up to. *)
Definition createDocumentWithRetry (doctype : string) (values : Obj)
    (maxRetries : Z) : M JS :=
  create_loop doctype values maxRetries (Z.to_nat maxRetries) 1 None.

(** ** Document operations of the main module *)

(** [const ok = await authenticateWithPassword(); if (!ok) throw ...]. *)
Definition ensure_authenticated : M unit :=
  authSuccess <- authenticateWithPassword ;;
  if (authSuccess : bool) then ret tt
  else throw (PlainError "Failed to authenticate with username/password").

(** The optional [fields] argument of [getDocument] only feeds a string that
    is never used, so it is left out.  [name] is declared a string, but
    [getDocTypeSchema] hands on what [getFieldOptions] found in
    [field.options], so it is read as any value here. *)
Definition getDocument (doctype : string) (name : JS) : M JS :=
  try_catch
    (if is_empty doctype then throw (PlainError "DocType is required")
     else if falsy name then throw (PlainError "Document name is required")
     else
       response <- getDoc TokenChannel doctype name ;;
       if negb (truthy response) then
         throw (PlainError ("Invalid response format for document "
                              ++ doctype ++ "/" ++ to_str name))
       else ret response)
    (fun error =>
       handleApiError error
         ("get_document(" ++ doctype ++ ", " ++ to_str name ++ ")")).

Definition getDocumentWithAuth (doctype name : string) : M JS :=
  try_catch
    (if is_empty doctype then throw (PlainError "DocType is required")
     else if is_empty name then throw (PlainError "Document name is required")
     else
       ensure_authenticated ;;;
       response <- getDoc PasswordChannel doctype (JStr name) ;;
       if negb (truthy response) then
         throw (PlainError ("Invalid response format for document "
                              ++ doctype ++ "/" ++ name))
       else ret response)
    (fun error =>
       handleApiError error
         ("get_document_with_auth(" ++ doctype ++ ", " ++ name ++ ")")).

(** [Object.keys(values).length === 0]. *)
Definition no_keys (values : Obj) : bool :=
  match values with [] => true | _ :: _ => false end.

Definition createDocument (doctype : string) (values : Obj) : M JS :=
  try_catch
    (if is_empty doctype then throw (PlainError "DocType is required")
     else if no_keys values then
       throw (PlainError "Document values are required")
     else
       response <- createDoc TokenChannel doctype values ;;
       if negb (truthy response) then
         throw (PlainError ("Invalid response format for creating " ++ doctype))
       else
         verificationResult <- verifyDocumentCreation doctype values response ;;
         if negb (success verificationResult) then
           ret (with_verification response verificationResult)
         else ret response)
    (fun error => handleApiError error ("create_document(" ++ doctype ++ ")")).

Definition createDocumentWithAuth (doctype : string) (values : Obj) : M JS :=
  try_catch
    (if is_empty doctype then throw (PlainError "DocType is required")
     else if no_keys values then
       throw (PlainError "Document values are required")
     else
       ensure_authenticated ;;;
       response <- createDoc PasswordChannel doctype values ;;
       if negb (truthy response) then
         throw (PlainError ("Invalid response format for creating " ++ doctype))
       else
         verificationResult <-
           verification PasswordChannel " (password auth)"
             doctype values response ;;
         if negb (success verificationResult) then
           ret (with_verification response verificationResult)
         else ret response)
    (fun error =>
       handleApiError error ("create_document_with_auth(" ++ doctype ++ ")")).

Definition updateDocument (doctype name : string) (values : Obj) : M JS :=
  try_catch
    (if is_empty doctype then throw (PlainError "DocType is required")
     else if is_empty name then throw (PlainError "Document name is required")
     else if no_keys values then throw (PlainError "Update values are required")
     else
       response <- updateDoc TokenChannel doctype name values ;;
       if negb (truthy response) then
         throw (PlainError ("Invalid response format for updating "
                              ++ doctype ++ "/" ++ name))
       else ret response)
    (fun error =>
       handleApiError error
         ("update_document(" ++ doctype ++ ", " ++ name ++ ")")).

Definition updateDocumentWithAuth (doctype name : string) (values : Obj)
  : M JS :=
  try_catch
    (if is_empty doctype then throw (PlainError "DocType is required")
     else if is_empty name then throw (PlainError "Document name is required")
     else if no_keys values then throw (PlainError "Update values are required")
     else
       ensure_authenticated ;;;
       response <- updateDoc PasswordChannel doctype name values ;;
       if negb (truthy response) then
         throw (PlainError ("Invalid response format for updating "
                              ++ doctype ++ "/" ++ name))
       else ret response)
    (fun error =>
       handleApiError error
         ("update_document_with_auth(" ++ doctype ++ ", " ++ name ++ ")")).

Definition deleteDocument (doctype name : string) : M JS :=
  try_catch
    (if is_empty doctype then throw (PlainError "DocType is required")
     else if is_empty name then throw (PlainError "Document name is required")
     else
       response <- deleteDoc TokenChannel doctype name ;;
       ret response)
    (fun error =>
       handleApiError error
         ("delete_document(" ++ doctype ++ ", " ++ name ++ ")")).

Definition deleteDocumentWithAuth (doctype name : string) : M JS :=
  try_catch
    (if is_empty doctype then throw (PlainError "DocType is required")
     else if is_empty name then throw (PlainError "Document name is required")
     else
       ensure_authenticated ;;;
       response <- deleteDoc PasswordChannel doctype name ;;
       ret response)
    (fun error =>
       handleApiError error
         ("delete_document_with_auth(" ++ doctype ++ ", " ++ name ++ ")")).

(** ** listDocuments *)

(** [order_by.split(" ")[0]]. *)
Definition first_word (s : string) : string := hd "" (split SP s).

(** The new [order_by] and [order_dir]. *)
Definition split_order (order_by : option string) : option string * Order :=
  match order_by with
  | Some ob =>
      if endsWith ob " desc" then (Some (first_word ob), desc)
      else if endsWith ob " asc" then (Some (first_word ob), asc)
      else (Some ob, asc)
  | None => (None, asc)
  end.

(** [order_by ? { field: order_by, order: order_dir } : undefined]. *)
Definition orderBy_of (order_by : option string) (order_dir : Order)
  : option (string * Order) :=
  match order_by with
  | Some f => if is_empty f then None else Some (f, order_dir)
  | None => None
  end.

Definition js_of_filters (filters : option Obj) : JS :=
  match filters with
  | Some o => JObj o
  | None => JUndefined
  end.

Definition list_query (filters : option Obj) (fields : option (list string))
    (limit : option Z) (order_by : option string) (limit_start : option Z)
  : ListArgs :=
  let '(field, order_dir) := split_order order_by in
  mkListArgs (option_map (map JStr) fields) (js_of_filters filters)
             (orderBy_of field order_dir) limit_start limit.

Definition listDocuments (doctype : string) (filters : option Obj)
    (fields : option (list string)) (limit : option Z)
    (order_by : option string) (limit_start : option Z) : M (list Obj) :=
  try_catch
    (if is_empty doctype then throw (PlainError "DocType is required")
     else
       response <- getDocList TokenChannel doctype
                     (list_query filters fields limit order_by limit_start) ;;
       match response with
       | None =>
           throw (PlainError ("Invalid response format for listing " ++ doctype))
       | Some documents => ret documents
       end)
    (fun error => handleApiError error ("list_documents(" ++ doctype ++ ")")).

Definition listDocumentsWithAuth (doctype : string) (filters : option Obj)
    (fields : option (list string)) (limit : option Z)
    (order_by : option string) (limit_start : option Z) : M (list Obj) :=
  try_catch
    (if is_empty doctype then throw (PlainError "DocType is required")
     else
       ensure_authenticated ;;;
       response <- getDocList PasswordChannel doctype
                     (list_query filters fields limit order_by limit_start) ;;
       match response with
       | None =>
           throw (PlainError ("Invalid response format for listing " ++ doctype))
       | Some documents => ret documents
       end)
    (fun error =>
       handleApiError error ("list_documents_with_auth(" ++ doctype ++ ")")).

(** ** getDocTypeSchema *)

(** [v.k === 1]. *)
Definition flag (v : JS) (k : string) : JS :=
  JBool (strict_eq (get v k) (JNum 1)).

(** [a || b]. *)
Definition or_else (a b : JS) : JS := if truthy a then a else b.

(** The callback of [(docTypeData.fields || []).map(...)]. *)
Definition field_descriptor (field : JS) : M JS :=
  match field with
  | JUndefined | JNull => throw (TypeError_read field "fieldname")
  | _ =>
      ret (JObj
        [("fieldname", get field "fieldname");
         ("label", get field "label");
         ("fieldtype", get field "fieldtype");
         ("required", flag field "reqd");
         ("description", get field "description");
         ("default", get field "default");
         ("options", get field "options");
         ("min_length", get field "min_length");
         ("max_length", get field "max_length");
         ("min_value", get field "min_value");
         ("max_value", get field "max_value");
         ("linked_doctype",
          if strict_eq (get field "fieldtype") (JStr "Link")
          then get field "options" else JNull);
         ("child_doctype",
          if strict_eq (get field "fieldtype") (JStr "Table")
          then get field "options" else JNull);
         ("in_list_view", flag field "in_list_view");
         ("in_standard_filter", flag field "in_standard_filter");
         ("in_global_search", flag field "in_global_search");
         ("bold", flag field "bold");
         ("hidden", flag field "hidden");
         ("read_only", flag field "read_only");
         ("allow_on_submit", flag field "allow_on_submit");
         ("set_only_once", flag field "set_only_once");
         ("allow_bulk_edit", flag field "allow_bulk_edit");
         ("translatable", flag field "translatable")])
  end.

(** [l.map(f)] for a callback that may throw. *)
Fixpoint mapM {A B} (f : A -> M B) (l : list A) : M (list B) :=
  match l with
  | [] => ret []
  | x :: rest =>
      y <- f x ;;
      ys <- mapM f rest ;;
      ret (y :: ys)
  end.

(** [(docTypeData.fields || []).map(...)]: only an array has [map]. *)
Definition described_fields (fields : JS) : M JS :=
  if truthy fields then
    match fields with
    | JArr l =>
        described <- mapM field_descriptor l ;;
        ret (JArr described)
    | _ => throw (TypeError_call "(docTypeData.fields || []).map")
    end
  else ret (JArr []).

(** The schema built from the answer of [frappe.get_meta]. *)
Definition schema_of_meta (doctype : JS) (docTypeData : JS) : M JS :=
  let doctypeInfo := or_else (get docTypeData "doctype") (JObj []) in
  fields <- described_fields (get docTypeData "fields") ;;
  ret (JObj
    [("name", doctype);
     ("label", or_else (get doctypeInfo "name") doctype);
     ("description", get doctypeInfo "description");
     ("module", get doctypeInfo "module");
     ("issingle", flag doctypeInfo "issingle");
     ("istable", flag doctypeInfo "istable");
     ("custom", flag doctypeInfo "custom");
     ("fields", fields);
     ("permissions", or_else (get docTypeData "permissions") (JArr []));
     ("autoname", get doctypeInfo "autoname");
     ("name_case", get doctypeInfo "name_case");
     ("workflow", or_else (get docTypeData "workflow") JNull);
     ("is_submittable", flag doctypeInfo "is_submittable");
     ("quick_entry", flag doctypeInfo "quick_entry");
     ("track_changes", flag doctypeInfo "track_changes");
     ("track_views", flag doctypeInfo "track_views");
     ("has_web_view", flag doctypeInfo "has_web_view");
     ("allow_rename", flag doctypeInfo "allow_rename");
     ("allow_copy", flag doctypeInfo "allow_copy");
     ("allow_import", flag doctypeInfo "allow_import");
     ("allow_events_in_timeline", flag doctypeInfo "allow_events_in_timeline");
     ("allow_auto_repeat", flag doctypeInfo "allow_auto_repeat");
     ("document_type", get doctypeInfo "document_type");
     ("icon", get doctypeInfo "icon");
     ("max_attachments", get doctypeInfo "max_attachments")]).

(** The schema built from the DocType document itself. *)
Definition schema_of_document (doctype : JS) (doctypeDoc : JS) : JS :=
  JObj
    [("name", doctype);
     ("label", or_else (get doctypeDoc "name") doctype);
     ("description", get doctypeDoc "description");
     ("module", get doctypeDoc "module");
     ("issingle", flag doctypeDoc "issingle");
     ("istable", flag doctypeDoc "istable");
     ("custom", flag doctypeDoc "custom");
     ("fields", or_else (get doctypeDoc "fields") (JArr []));
     ("permissions", or_else (get doctypeDoc "permissions") (JArr []));
     ("autoname", get doctypeDoc "autoname");
     ("name_case", get doctypeDoc "name_case");
     ("workflow", JNull);
     ("is_submittable", flag doctypeDoc "is_submittable");
     ("quick_entry", flag doctypeDoc "quick_entry");
     ("track_changes", flag doctypeDoc "track_changes");
     ("track_views", flag doctypeDoc "track_views");
     ("has_web_view", flag doctypeDoc "has_web_view");
     ("allow_rename", flag doctypeDoc "allow_rename");
     ("allow_copy", flag doctypeDoc "allow_copy");
     ("allow_import", flag doctypeDoc "allow_import");
     ("allow_events_in_timeline", flag doctypeDoc "allow_events_in_timeline");
     ("allow_auto_repeat", flag doctypeDoc "allow_auto_repeat");
     ("document_type", get doctypeDoc "document_type");
     ("icon", get doctypeDoc "icon");
     ("max_attachments", get doctypeDoc "max_attachments")].

Definition get_meta (doctype : JS) : Call :=
  CallGet TokenChannel "frappe.get_meta" [("doctype", doctype)].

(** [doctype] is declared a string; [getFieldOptions] passes the
    [field.options] of a Link field as it finds it, so it is read as any
    value here. *)
Definition getDocTypeSchema (doctype : JS) : M JS :=
  try_catch
    (if falsy doctype then throw (PlainError "DocType name is required")
     else
       response <- try_catch (call_upstream (get_meta doctype))
                             (fun _ => ret JUndefined) ;;
       let docTypeData := response in
       if truthy docTypeData then schema_of_meta doctype docTypeData
       else
         fallback <-
           try_catch
             (doctypeDoc <- getDocument "DocType" doctype ;;
              if negb (truthy doctypeDoc) then
                throw (PlainError ("DocType " ++ to_str doctype ++ " not found"))
              else ret (Some (schema_of_document doctype doctypeDoc)))
             (fun _ => ret None) ;;
         match fallback with
         | Some schema => ret schema
         | None =>
             throw (PlainError ("Could not retrieve schema for DocType "
                                  ++ to_str doctype
                                  ++ " using any available method"))
         end)
    (fun error =>
       handleApiError error ("get_doctype_schema(" ++ to_str doctype ++ ")")).

(** ** getFieldOptions *)

Record FieldOption : Type := mkOption {
  value : JS;
  label : JS
}.

(** [l.find(f => p f)] for a callback that reads [f.fieldname] first. *)
Fixpoint find_field (p : JS -> bool) (l : list JS) : M JS :=
  match l with
  | [] => ret JUndefined
  | f :: rest =>
      match f with
      | JUndefined | JNull => throw (TypeError_read f "fieldname")
      | _ => if p f then ret f else find_field p rest
      end
  end.

Definition named (fieldname : string) (f : JS) : bool :=
  strict_eq (get f "fieldname") (JStr fieldname).

(** [f.fieldname === "title" || f.bold === 1]. *)
Definition title_or_bold (f : JS) : bool :=
  strict_eq (get f "fieldname") (JStr "title")
  || strict_eq (get f "bold") (JNum 1).

(** [linkedSchema.fields.find(...)]. *)
Definition find_title_field (linkedSchema : JS) : M JS :=
  fields <- prop linkedSchema "fields" ;;
  match fields with
  | JArr l => find_field title_or_bold l
  | JUndefined | JNull => throw (TypeError_read fields "find")
  | _ => throw (TypeError_call "linkedSchema.fields.find")
  end.

Definition link_query (displayFields : list JS) (filters : option Obj)
  : ListArgs :=
  mkListArgs (Some displayFields) (js_of_filters filters) None None (Some 50).

(** The members of [Object.prototype], which every document inherits. *)
Definition Object_prototype : list string :=
  ["constructor"; "__defineGetter__"; "__defineSetter__"; "hasOwnProperty";
   "__lookupGetter__"; "__lookupSetter__"; "isPrototypeOf";
   "propertyIsEnumerable"; "toString"; "valueOf"; "__proto__";
   "toLocaleString"].

(** The text of the inherited member [k]: each is a built-in function but
    [__proto__], which is the prototype object; all of them are truthy. *)
Definition inherited (k : string) : option string :=
  if existsb (String.eqb k) Object_prototype then
    Some (if (k =? "__proto__")%string then "[object Object]"
          else if (k =? "constructor")%string
               then "function Object() { [native code] }"
               else "function " ++ k ++ "() { [native code] }")
  else None.

(** [item[k]] for any [k], as a label shows it: the text of the value when
    the value is truthy.  An own property hides an inherited one. *)
Fixpoint shown_text (item : Obj) (k : string) : option string :=
  match item with
  | [] => inherited k
  | (k', v) :: rest =>
      if (k' =? k)%string then (if truthy v then Some (to_str v) else None)
      else shown_text rest k
  end.

(** One linked document as an option; its label is
    [titleField && item[titleField.fieldname]
       ? `${item.name} - ${item[titleField.fieldname]}` : item.name]. *)
Definition link_option (titleField : JS) (item : Obj) : FieldOption :=
  mkOption (obj_get item "name")
    (match (if truthy titleField
            then shown_text item (to_str (get titleField "fieldname"))
            else None) with
     | Some shown => JStr (to_str (obj_get item "name") ++ " - " ++ shown)
     | None => obj_get item "name"
     end).

Definition name_option (item : Obj) : FieldOption :=
  mkOption (obj_get item "name") (obj_get item "name").

(** The options of a Link field.  [linkedDocType] is [field.options] as
    found, a string or not. *)
Definition link_options (linkedDocType : JS) (filters : option Obj)
  : M (list FieldOption) :=
  try_catch
    (linkedSchema <- getDocTypeSchema linkedDocType ;;
     titleField <- find_title_field linkedSchema ;;
     let displayFields :=
       if truthy titleField
       then [JStr "name"; get titleField "fieldname"]
       else [JStr "name"] in
     response <- getDocList TokenChannel linkedDocType
                   (link_query displayFields filters) ;;
     match response with
     | None =>
         throw (PlainError ("Invalid response for DocType "
                              ++ to_str linkedDocType))
     | Some items => ret (map (link_option titleField) items)
     end)
    (fun _ =>
       response <- getDocList TokenChannel linkedDocType
                     (link_query [JStr "name"] filters) ;;
       match response with
       | None =>
           throw (PlainError ("Invalid response for DocType "
                              ++ to_str linkedDocType))
       | Some items => ret (map name_option items)
       end).

Definition not_blank (option : string) : bool :=
  negb (trim option =? "")%string.

Definition select_option (option : string) : FieldOption :=
  mkOption (JStr (trim option)) (JStr (trim option)).

(** The options of a Select field with a truthy [field.options]. *)
Definition select_options (options : JS) : M (list FieldOption) :=
  match options with
  | JStr s => ret (map select_option (filter not_blank (split LF s)))
  | _ => throw (TypeError_call "field.options.split")
  end.

Definition getFieldOptions (doctype fieldname : string) (filters : option Obj)
  : M (list FieldOption) :=
  try_catch
    (if is_empty doctype then throw (PlainError "DocType name is required")
     else if is_empty fieldname then
       throw (PlainError "Field name is required")
     else
       schema <- getDocTypeSchema doctype ;;
       match (if truthy schema then get schema "fields" else JUndefined) with
       | JArr fields =>
           field <- find_field (named fieldname) fields ;;
           if negb (truthy field) then
             throw (PlainError ("Field " ++ fieldname ++ " not found in DocType "
                                  ++ doctype))
           else if strict_eq (get field "fieldtype") (JStr "Link") then
             let linkedDocType := get field "options" in
             if negb (truthy linkedDocType) then
               throw (PlainError ("Link field " ++ fieldname
                        ++ " has no options (linked DocType) specified"))
             else link_options linkedDocType filters
           else if strict_eq (get field "fieldtype") (JStr "Select") then
             if negb (truthy (get field "options")) then ret []
             else select_options (get field "options")
           else if strict_eq (get field "fieldtype") (JStr "Table") then ret []
           else ret []
       | _ =>
           throw (PlainError ("Invalid schema returned for DocType " ++ doctype))
       end)
    (fun error =>
       if isAxiosError error then
         throw (fromAxiosError error
                  ("get_field_options(" ++ doctype ++ ", " ++ fieldname ++ ")"))
       else
         throw (FrappeApiError
                  ("Error getting field options for " ++ doctype ++ "."
                     ++ fieldname ++ ": " ++ exn_message error)
                  None None JUndefined)).

(** ** callMethod, the DocType lists and the transaction-like create *)

Definition js_of_params (params : option Obj) : JS :=
  match params with
  | Some o => JObj o
  | None => JUndefined
  end.

Definition callMethod (method : string) (params : option Obj) : M JS :=
  try_catch
    (if is_empty method then throw (PlainError "Method name is required")
     else
       response <- call_upstream
                     (CallPost TokenChannel method (js_of_params params)) ;;
       if negb (truthy response) then
         throw (PlainError ("Invalid response format for method " ++ method))
       else ret response)
    (fun error => handleApiError error ("call_method(" ++ method ++ ")")).

Definition all_doctypes_query : ListArgs :=
  mkListArgs (Some [JStr "name"]) JUndefined None None (Some 1000).

Definition getAllDocTypes : M (list JS) :=
  try_catch
    (response <- getDocList TokenChannel "DocType" all_doctypes_query ;;
     match response with
     | None => throw (PlainError "Invalid response format for DocType list")
     | Some items => ret (map (fun item => obj_get item "name") items)
     end)
    (fun error => handleApiError error "get_all_doctypes").

Definition all_modules_query : ListArgs :=
  mkListArgs (Some [JStr "name"; JStr "module_name"]) JUndefined None None
             (Some 100).

Definition getAllModules : M (list JS) :=
  try_catch
    (response <- getDocList TokenChannel "Module Def" all_modules_query ;;
     match response with
     | None => throw (PlainError "Invalid response format for Module list")
     | Some items =>
         ret (map (fun item =>
                     or_else (obj_get item "name") (obj_get item "module_name"))
                  items)
     end)
    (fun error => handleApiError error "get_all_modules").

(** [logOperation] writes to the console and nothing else. *)
Definition logOperation : M unit := ret tt.

Definition createDocumentTransactional (doctype : string) (values : Obj)
  : M JS :=
  try_catch
    (logOperation ;;;
     result <- createDocumentWithRetry doctype values 3 ;;
     verificationResult <- verifyDocumentCreation doctype values result ;;
     logOperation ;;;
     ret (with_verification result verificationResult))
    (fun error =>
       logOperation ;;;
       throw error).

(** ** checkFrappeApiHealth *)

Record Health : Type := mkHealth {
  healthy : bool;
  tokenAuth : bool;
  passwordAuth : bool;
  health_message : string
}.

Definition health_query : ListArgs := mkListArgs None JUndefined None None (Some 1).

Definition string_of_bool (b : bool) : string :=
  if b then "true" else "false".

(** The outer [catch] starts from the [result] as first built: nothing
    inside the block changes it before something could throw past the two
    inner handlers. *)
Definition checkFrappeApiHealth : M Health :=
  try_catch
    (token <-
       try_catch
         (_ <- getDocList TokenChannel "DocType" health_query ;;
          ret true)
         (fun _ => ret false) ;;
     password <-
       try_catch
         (authSuccess <- authenticateWithPassword ;;
          if (authSuccess : bool) then
            _ <- getDocList PasswordChannel "DocType" health_query ;;
            ret true
          else ret false)
         (fun _ => ret false) ;;
     let ok := (token : bool) || (password : bool) in
     ret (mkHealth ok token password
            (if ok then
               "API connection healthy. Token auth: " ++ string_of_bool token
                 ++ ", Password auth: " ++ string_of_bool password
             else
               "API connection unhealthy. Both authentication methods failed.")))
    (fun error =>
       ret (mkHealth false false false
              ("Health check failed: " ++ exn_message error))).

End Model.

(** ** The document module

    The module that imports [frappe] from [./api-client.js] and
    [handleApiError] from [./errors.js] has its own [getDocument],
    [createDocument], [updateDocument], [deleteDocument] and [listDocuments]
    (its [verifyDocumentCreation] and [createDocumentWithRetry] are, word for
    word, the ones above).  [frappe] is taken to be the token client. *)

Module DocumentApi.
Section Api.

Context (E : Env).

(** [handleApiError] of [./errors.js] is not among the sources:
    [translate] stands for the error it raises for a raw error and an
    operation label. *)
Context (translate : Exn -> string -> Exn).

Definition handleApiError {A} (error : Exn) (operation : string) : M A :=
  throw (translate error operation).

Definition getDocument (doctype name : string) : M JS :=
  if is_empty doctype then throw (PlainError "DocType is required")
  else if is_empty name then throw (PlainError "Document name is required")
  else
    try_catch
      (response <- getDoc E TokenChannel doctype (JStr name) ;;
       if negb (truthy response) then
         throw (PlainError ("Invalid response format for document "
                              ++ doctype ++ "/" ++ name))
       else ret response)
      (fun error =>
         let customError :=
           PlainError ("Document fetch error: " ++ exn_message error) in
         handleApiError customError
           ("get_document(" ++ doctype ++ ", " ++ name ++ ")")).

Definition createDocument (doctype : string) (values : Obj) : M JS :=
  try_catch
    (if is_empty doctype then throw (PlainError "DocType is required")
     else if no_keys values then
       throw (PlainError "Document values are required")
     else
       response <- createDoc E TokenChannel doctype values ;;
       if negb (truthy response) then
         throw (PlainError ("Invalid response format for creating " ++ doctype))
       else
         verificationResult <-
           verifyDocumentCreation E doctype values response ;;
         if negb (success verificationResult) then
           ret (with_verification response verificationResult)
         else ret response)
    (fun error => handleApiError error ("create_document(" ++ doctype ++ ")")).

Definition updateDocument (doctype name : string) (values : Obj) : M JS :=
  try_catch
    (if is_empty doctype then throw (PlainError "DocType is required")
     else if is_empty name then throw (PlainError "Document name is required")
     else if no_keys values then throw (PlainError "Update values are required")
     else
       response <- updateDoc E TokenChannel doctype name values ;;
       if negb (truthy response) then
         throw (PlainError ("Invalid response format for updating "
                              ++ doctype ++ "/" ++ name))
       else ret response)
    (fun error =>
       handleApiError error
         ("update_document(" ++ doctype ++ ", " ++ name ++ ")")).

Definition deleteDocument (doctype name : string) : M JS :=
  try_catch
    (if is_empty doctype then throw (PlainError "DocType is required")
     else if is_empty name then throw (PlainError "Document name is required")
     else
       response <- deleteDoc E TokenChannel doctype name ;;
       ret response)
    (fun error =>
       handleApiError error
         ("delete_document(" ++ doctype ++ ", " ++ name ++ ")")).

(** Here [order_by] goes to the channel as it came, always ascending. *)
Definition list_query (filters : option Obj) (fields : option (list string))
    (limit : option Z) (order_by : option string) (limit_start : option Z)
  : ListArgs :=
  mkListArgs (option_map (map JStr) fields) (js_of_filters filters)
             (orderBy_of order_by asc) limit_start limit.

Definition listDocuments (doctype : string) (filters : option Obj)
    (fields : option (list string)) (limit : option Z)
    (order_by : option string) (limit_start : option Z) : M (list Obj) :=
  try_catch
    (if is_empty doctype then throw (PlainError "DocType is required")
     else
       response <- getDocList E TokenChannel doctype
                     (list_query filters fields limit order_by limit_start) ;;
       match response with
       | None =>
           throw (PlainError ("Invalid response format for listing " ++ doctype))
       | Some documents => ret documents
       end)
    (fun error => handleApiError error ("list_documents(" ++ doctype ++ ")")).

Definition callMethod (method : string) (params : option Obj) : M JS :=
  try_catch
    (if is_empty method then throw (PlainError "Method name is required")
     else
       response <- call_upstream E
                     (CallPost TokenChannel method (js_of_params params)) ;;
       if negb (truthy response) then
         throw (PlainError ("Invalid response format for method " ++ method))
       else ret response)
    (fun error => handleApiError error ("call_method(" ++ method ++ ")")).

End Api.
End DocumentApi.

(** The waits after [n] failed attempts in a row, the first numbered
    [attempt]. *)
Fixpoint schedule (attempt : Z) (n : nat) : list Z :=
  match n with
  | O => []
  | S k => timer_delay (backoff attempt) :: schedule (attempt + 1) k
  end.

(** What the loop throws when no turn is left. *)
Definition exhausted (maxRetries : Z) (lastError : option Exn) : Exn :=
  match lastError with
  | Some e => e
  | None => PlainError ("Failed to create document after "
                          ++ number_text maxRetries ++ " attempts")
  end.

(** ** The verification cascade in the specification's words *)

(** Step 2: the direct fetch found a document and its name matches. *)
Definition fetch_confirms (fetched : Exn + JS) (name : JS) : bool :=
  match fetched with
  | inr document => truthy document && strict_eq (get document "name") name
  | inl _ => false
  end.

(** Step 3: the filter from the first available of: exact [name], else
    exact [title], else a "contains" match on the first 20 characters of
    [description]. *)
Definition chosen_filter (values : Obj) : option Obj :=
  if truthy (obj_get values "name") then
    Some [("name", JArr [JStr "="; obj_get values "name"])]
  else if truthy (obj_get values "title") then
    Some [("title", JArr [JStr "="; obj_get values "title"])]
  else
    match obj_get values "description" with
    | JStr d =>
        if (d =? "")%string then None
        else Some [("description",
                    JArr [JStr "like"; JStr ("%" ++ substring 0 20 d ++ "%")])]
    | _ => None
    end.

(** A field name: no space in it. *)
Fixpoint no_space (s : string) : bool :=
  match s with
  | EmptyString => true
  | String a rest => negb (Ascii.eqb a SP) && no_space rest
  end.

(** What [handleApiError] makes of a plain error raised in [operation]. *)
Definition translated (operation message : string) : Exn :=
  FrappeApiError ("Error during " ++ operation ++ ": " ++ message)
    None None JUndefined.

(** The call is turned down in [w]: the translated error, and [w] as it
    was. *)
Definition rejected (w : World) (operation message : string)
  : Res JS * World :=
  (Throw (translated operation message), w).

(** ** The password session *)

(** The session is marked authenticated and its last successful login is
    younger than the window at time [t]. *)
Definition fresh (s : Session) (t : Z) : bool :=
  isAuthenticated s && (t - lastAuthAttempt s <? AUTH_TIMEOUT).

(** Both user name and password are configured. *)
Definition credentials (E : Env) : bool :=
  configured (FRAPPE_USERNAME E) && configured (FRAPPE_PASSWORD E).

(** What holds of the session between calls: no attempt is in flight, and
    without credentials it is not marked authenticated. *)
Definition session_ok (E : Env) (s : Session) : bool :=
  negb (authenticationInProgress s)
  && (credentials E || negb (isAuthenticated s)).

(** ** Field options in the specification's words *)

Definition nullish (v : JS) : bool :=
  match v with
  | JUndefined | JNull => true
  | _ => false
  end.

(** The error [getFieldOptions] raises for a failure that is not a transport
    error. *)
Definition field_options_error (doctype fieldname detail : string) : Exn :=
  FrappeApiError
    ("Error getting field options for " ++ doctype ++ "." ++ fieldname
       ++ ": " ++ detail)
    None None JUndefined.

Definition field_options_failure (E : Env) (doctype fieldname : string)
    (error : Exn) : Exn :=
  if isAxiosError error then
    fromAxiosError E error
      ("get_field_options(" ++ doctype ++ ", " ++ fieldname ++ ")")
  else field_options_error doctype fieldname (exn_message error).





(** ** Upstreams to run the code against *)

Definition no_JSON (_ : string) : option JS := None.

(** Credentials are configured and the platform accepts the login; a minute
    passes with every call made. *)
Definition env_accepting : Env :=
  mkEnv (Some "Administrator") (Some "secret") no_JSON
        (fun t => 1000000 + 60000 * Z.of_nat (List.length t))
        (fun _ c =>
           match c with
           | Login _ _ => inr (JObj [("message", JStr "Logged In")])
           | _ => inl (PlainError "Request failed with status code 403")
           end)
        (fun _ _ => inr (Some [])).

(** Credentials are configured and the platform rejects the login. *)
Definition env_rejecting : Env :=
  mkEnv (Some "Administrator") (Some "secret") no_JSON (fun _ => 5000)
        (fun _ _ => inl (PlainError "Request failed with status code 401"))
        (fun _ _ => inl (PlainError "Request failed with status code 401")).

(** A small site.  The ToDo DocType has a Select field [priority] and a
    Link field [customer] to Customer; the Customer DocType has a bold field
    [customer_name] before its field [title]; the Issue DocType has a Select
    field [status] whose options list Open twice. *)
Definition low_medium_high : string :=
  "Low" ++ String LF ("Medium" ++ String LF (String LF "High")).

Definition todo_fields : list JS :=
  [JObj [("fieldname", JStr "priority"); ("label", JStr "Priority");
         ("fieldtype", JStr "Select"); ("options", JStr low_medium_high);
         ("reqd", JNum 1)];
   JObj [("fieldname", JStr "customer"); ("label", JStr "Customer");
         ("fieldtype", JStr "Link"); ("options", JStr "Customer");
         ("reqd", JNum 0)]].

Definition customer_fields : list JS :=
  [JObj [("fieldname", JStr "customer_name"); ("fieldtype", JStr "Data");
         ("bold", JNum 1)];
   JObj [("fieldname", JStr "title"); ("fieldtype", JStr "Data");
         ("bold", JNum 0)]].

Definition open_open_closed : string :=
  "Open" ++ String LF ("Open" ++ String LF "Closed").

Definition issue_fields : list JS :=
  [JObj [("fieldname", JStr "status"); ("label", JStr "Status");
         ("fieldtype", JStr "Select"); ("options", JStr open_open_closed)]].

Definition doctype_info (name : string) : Obj :=
  [("name", JStr name); ("module", JStr "Desk"); ("issingle", JNum 0)].

Definition fields_of (doctype : string) : list JS :=
  if (doctype =? "ToDo")%string then todo_fields
  else if (doctype =? "Customer")%string then customer_fields
  else if (doctype =? "Issue")%string then issue_fields
  else [].

Definition customers : list Obj :=
  [[("name", JStr "CUST-0001"); ("customer_name", JStr "Acme");
    ("title", JStr "Acme Corporation")];
   [("name", JStr "CUST-0002")]].

Definition not_found : Exn :=
  PlainError "Request failed with status code 404".

(** The site's answers; [meta_up] tells whether [frappe.get_meta] works.
    The metadata endpoint and the DocType document carry the same data. *)
Definition site_answer (meta_up : bool) (c : Call) : Exn + JS :=
  match c with
  | CallGet TokenChannel method [("doctype", JStr d)] =>
      if meta_up && (method =? "frappe.get_meta")%string then
        inr (JObj [("doctype", JObj (doctype_info d));
                   ("fields", JArr (fields_of d))])
      else inl not_found
  | GetDoc TokenChannel doctype (JStr d) =>
      if (doctype =? "DocType")%string then
        inr (JObj (doctype_info d ++ [("fields", JArr (fields_of d))]))
      else inl not_found
  | _ => inl not_found
  end.

Definition site_list (c : Call) : Exn + option (list Obj) :=
  match c with
  | GetDocList TokenChannel doctype _ =>
      if strict_eq doctype (JStr "Customer") then inr (Some customers)
      else inr (Some [])
  | _ => inl not_found
  end.

Definition env_site (meta_up : bool) : Env :=
  mkEnv None None no_JSON (fun _ => 0)
        (fun _ c => site_answer meta_up c) (fun _ c => site_list c).

(** A site with one ToDo, TODO-0001; [fetch_up] tells whether fetching it by
    name works.  Listing ToDo documents always finds it. *)
Definition env_todo (fetch_up : bool) : Env :=
  mkEnv None None no_JSON (fun _ => 0)
        (fun _ c =>
           match c with
           | GetDoc TokenChannel _ (JStr n) =>
               if fetch_up && (n =? "TODO-0001")%string
               then inr (JObj [("name", JStr "TODO-0001")])
               else inl not_found
           | _ => inl not_found
           end)
        (fun _ c =>
           match c with
           | GetDocList TokenChannel _ _ =>
               inr (Some [[("name", JStr "TODO-0001")]])
           | _ => inl not_found
           end).

(** A site that creates TODO-0001 on request and serves it afterwards. *)
Definition env_created : Env :=
  mkEnv None None no_JSON (fun _ => 0)
        (fun _ c =>
           match c with
           | CreateDoc TokenChannel _ values =>
               inr (JObj (("name", JStr "TODO-0001") :: values))
           | GetDoc TokenChannel _ (JStr n) =>
               if (n =? "TODO-0001")%string
               then inr (JObj [("name", JStr "TODO-0001")])
               else inl not_found
           | _ => inl not_found
           end)
        (fun _ _ => inr (Some [])).

(** A site that acknowledges a create as TODO-0002 and then cannot find the
    document, neither by name nor by filter. *)
Definition env_forgetful : Env :=
  mkEnv None None no_JSON (fun _ => 0)
        (fun _ c =>
           match c with
           | CreateDoc TokenChannel _ _ =>
               inr (JObj [("name", JStr "TODO-0002")])
           | _ => inl not_found
           end)
        (fun _ _ => inr (Some [])).

(** A site whose metadata endpoint is down and whose Invoice DocType has a
    child table and a Link field without target. *)
Definition invoice_fields : list JS :=
  [JObj [("fieldname", JStr "items"); ("fieldtype", JStr "Table");
         ("options", JStr "Invoice Item")];
   JObj [("fieldname", JStr "customer"); ("fieldtype", JStr "Link")]].

Definition env_invoice : Env :=
  mkEnv None None no_JSON (fun _ => 0)
        (fun _ c =>
           match c with
           | GetDoc TokenChannel _ (JStr _) =>
               inr (JObj [("name", JStr "Invoice");
                          ("fields", JArr invoice_fields)])
           | _ => inl not_found
           end)
        (fun _ _ => inr (Some [])).

(** Every call is answered [false]. *)
Definition env_false : Env :=
  mkEnv None None no_JSON (fun _ => 0)
        (fun _ _ => inr (JBool false)) (fun _ _ => inr None).

(** Every call is refused at the transport. *)
Definition env_down : Env :=
  mkEnv None None no_JSON (fun _ => 0)
        (fun _ _ => inl (PlainError "connect ECONNREFUSED"))
        (fun _ _ => inl (PlainError "connect ECONNREFUSED")).

(** ** Words for the statements *)

(** [w'] is [w] after the events [evs], the session untouched. *)
Definition after (w : World) (evs : list Event) (w' : World) : Prop :=
  trace w' = (trace w ++ evs)%list /\ session w' = session w.

(** How the attempt that started in [w] failed with [e]: the create call was
    refused with [e], or it was answered and the verification reported no
    success, [e] being the error made from its message. *)
Definition failed_with (E : Env) (doctype : string) (values : Obj)
    (w : World) (e : Exn) : Prop :=
  let create := CreateDoc TokenChannel doctype values in
  answer E (trace w) create = inl e
  \/ exists result report w',
       answer E (trace w) create = inr result
       /\ verifyDocumentCreation E doctype values result
            (record (Called create) w) = (Ok report, w')
       /\ success report = false
       /\ e = PlainError ("Verification failed: " ++ message report).

(** The attempt that starts in [w] succeeds: the create call is answered,
    the verification run next reports success and leaves [w'], and [value]
    is the answer with that report attached. *)
Definition attempt_succeeds (E : Env) (doctype : string) (values : Obj)
    (w : World) (value : JS) (w' : World) : Prop :=
  let create := CreateDoc TokenChannel doctype values in
  exists result report,
    answer E (trace w) create = inr result
    /\ verifyDocumentCreation E doctype values result
         (record (Called create) w) = (Ok report, w')
    /\ success report = true
    /\ value = with_verification result report.

(** The attempt that starts in [w] fails with [e] and leaves [w'], the wait
    not yet made: the create call is refused with [e], or it is answered and
    the verification run next reports no success, [e] being the error made
    from its message. *)
Definition attempt_fails (E : Env) (doctype : string) (values : Obj)
    (w : World) (e : Exn) (w' : World) : Prop :=
  let create := CreateDoc TokenChannel doctype values in
  (answer E (trace w) create = inl e /\ w' = record (Called create) w)
  \/ exists result report,
       answer E (trace w) create = inr result
       /\ verifyDocumentCreation E doctype values result
            (record (Called create) w) = (Ok report, w')
       /\ success report = false
       /\ e = PlainError ("Verification failed: " ++ message report).

(** The error thrown is the one the last turn recorded. *)
Definition thrown_is_last (E : Env) (doctype : string) (values : Obj)
    (maxRetries : Z) (turns : nat) (attempt : Z) (lastError : option Exn)
    (w w' : World) (e : Exn) : Prop :=
  match turns with
  | O => e = exhausted maxRetries lastError
  | S k =>
      exists pre w3,
        after w pre w3
        /\ create_attempts pre = k
        /\ create_attempt E doctype values (attempt + Z.of_nat k) w3
           = (Ok (inr e), w')
        /\ failed_with E doctype values w3 e
  end.

(** The metadata endpoint gave nothing usable: it threw, or its answer is
    falsy. *)
Definition meta_unusable (a : Exn + JS) : bool :=
  match a with
  | inl _ => true
  | inr v => negb (truthy v)
  end.

(** ** Words for the further statements *)

(** The client a call goes through; a login goes through none of the two
    document clients. *)
Definition channel_of (c : Call) : option Channel :=
  match c with
  | GetDoc ch _ _ | CreateDoc ch _ _ | UpdateDoc ch _ _ _ | DeleteDoc ch _ _
  | GetDocList ch _ _ | CallGet ch _ _ | CallPost ch _ _ => Some ch
  | Login _ _ => None
  end.

Definition token_call (c : Call) : bool :=
  match channel_of c with
  | Some TokenChannel => true
  | _ => false
  end.

(** A login, or a call through the password client. *)
Definition password_call (c : Call) : bool :=
  match channel_of c with
  | Some TokenChannel => false
  | _ => true
  end.

(** A call that only reads documents. *)
Definition read_call (c : Call) : bool :=
  match c with
  | GetDoc _ _ _ | GetDocList _ _ _ => true
  | _ => false
  end.

Definition on_event (P : Call -> bool) (ev : Event) : bool :=
  match ev with
  | Called c => P c
  | Slept _ => true
  end.

(** Whatever the starting world, [m] only appends events whose calls
    satisfy [P], and takes the session from [s] to some [s'] with
    [R s s']. *)
Definition emits (R : Session -> Session -> Prop) (P : Call -> bool)
    {A} (m : M A) : Prop :=
  forall w, exists evs,
    trace (snd (m w)) = (trace w ++ evs)%list
    /\ forallb (on_event P) evs = true
    /\ R (session w) (session (snd (m w))).

(** The session invariant is not lost. *)
Definition keeps_session_ok (E : Env) (s s' : Session) : Prop :=
  session_ok E s = true -> session_ok E s' = true.

(** What reaches the caller, when it is an error, is the structured error of
    this layer. *)
Definition structured {A} (out : Res A * World) : Prop :=
  match fst out with
  | Throw e => is_FrappeApiError e = true
  | _ => True
  end.

(** [error.config?.url || "unknown"]. *)
Definition endpoint_of (url : option string) : string :=
  match url with
  | Some u => if (u =? "")%string then "unknown" else u
  | None => "unknown"
  end.

(** The evidence behind a verified creation: upstream itself returned a
    document whose name is the response's, to the direct fetch or to the
    one list query that follows it. *)
Definition confirmed_upstream (E : Env) (ch : Channel) (doctype : string)
    (name : JS) (w : World) : Prop :=
  let fetch := GetDoc ch doctype name in
  (exists document,
     answer E (trace w) fetch = inr document
     /\ truthy document = true
     /\ strict_eq (get document "name") name = true)
  \/ (exists filters documents,
        answer_list E (trace (record (Called fetch) w))
          (GetDocList ch doctype (verification_query filters))
        = inr (Some documents)
        /\ existsb (has_name name) documents = true).

(** A field record as the metadata path describes it. *)
Definition normalized (raw d : JS) : Prop :=
  get d "fieldname" = get raw "fieldname"
  /\ get d "label" = get raw "label"
  /\ get d "fieldtype" = get raw "fieldtype"
  /\ get d "options" = get raw "options"
  /\ get d "default" = get raw "default"
  /\ get d "required" = JBool (strict_eq (get raw "reqd") (JNum 1))
  /\ get d "bold" = JBool (strict_eq (get raw "bold") (JNum 1))
  /\ get d "hidden" = JBool (strict_eq (get raw "hidden") (JNum 1))
  /\ get d "read_only" = JBool (strict_eq (get raw "read_only") (JNum 1))
  /\ get d "linked_doctype"
     = (if strict_eq (get raw "fieldtype") (JStr "Link")
        then get raw "options" else JNull)
  /\ get d "child_doctype"
     = (if strict_eq (get raw "fieldtype") (JStr "Table")
        then get raw "options" else JNull).

(** [s] has the character [c]. *)
Fixpoint has_char (c : ascii) (s : string) : bool :=
  match s with
  | EmptyString => false
  | String a rest => Ascii.eqb a c || has_char c rest
  end.

(** Empty, or starting with something that is not white space. *)
Definition starts_clean (s : string) : bool :=
  match s with
  | EmptyString => true
  | String a _ => negb (is_space a)
  end.

(** An error the document module hands to its translator under the label
    [operation]. *)
Definition translation_of (translate : Exn -> string -> Exn)
    (operation : string) {A} (out : Res A * World) : Prop :=
  match fst out with
  | Throw e => exists raw, e = translate raw operation
  | _ => True
  end.

(** * Properties *)

(** ** Values *)

Lemma falsy_not_truthy v : falsy v = negb (truthy v).
Proof.
  destruct v; cbn; try reflexivity; symmetry; apply negb_involutive.
Qed.

(** ** Traces only grow *)

Lemma after_refl w : after w [] w.
Proof. split; [symmetry; apply app_nil_r | reflexivity]. Qed.

Lemma after_record w ev : after w [ev] (record ev w).
Proof. split; reflexivity. Qed.

Lemma after_trans w1 w2 w3 e1 e2 :
  after w1 e1 w2 -> after w2 e2 w3 -> after w1 (e1 ++ e2)%list w3.
Proof.
  intros [T1 S1] [T2 S2]. split.
  - rewrite T2, T1, app_assoc. reflexivity.
  - congruence.
Qed.

Lemma delays_app t1 t2 : delays (t1 ++ t2) = (delays t1 ++ delays t2)%list.
Proof. unfold delays. apply flat_map_app. Qed.

Lemma calls_app t1 t2 : calls (t1 ++ t2) = (calls t1 ++ calls t2)%list.
Proof. unfold calls. apply flat_map_app. Qed.

Lemma create_attempts_app t1 t2 :
  create_attempts (t1 ++ t2) = (create_attempts t1 + create_attempts t2)%nat.
Proof.
  unfold create_attempts. rewrite calls_app, filter_app, length_app.
  reflexivity.
Qed.

Lemma append_empty (s : string) : (s ++ "")%string = s.
Proof. induction s as [|a s IH]; simpl; [reflexivity | now rewrite IH]. Qed.

(** Case analysis on whatever the computation inspects next. *)
Ltac inspect :=
  match goal with
  | |- context [match ?x with _ => _ end] =>
      lazymatch x with
      | context [match _ with _ => _ end] => fail
      | _ => destruct x eqn:?
      end
  end.

Ltac run :=
  unfold bind, try_catch, ret, throw, sleep, getDoc, getDocList, createDoc,
    call_upstream; cbn.

Lemma bind_ok {A B} (m : M A) (k : A -> M B) w a w' :
  m w = (Ok a, w') -> bind m k w = k a w'.
Proof. intros H. unfold bind. rewrite H. reflexivity. Qed.

Lemma bind_throw {A B} (m : M A) (k : A -> M B) w e w' :
  m w = (Throw e, w') -> bind m k w = (Throw e, w').
Proof. intros H. unfold bind. rewrite H. reflexivity. Qed.

(** ** The verification always reports *)

Lemma creation_filters_pure values :
  (exists f, forall w, creation_filters values w = (Ok f, w))
  \/ (exists e, forall w, creation_filters values w = (Throw e, w)).
Proof.
  unfold creation_filters, ret, throw.
  repeat inspect; eauto.
Qed.

Ltac settle_after :=
  split;
  [ cbn; rewrite <- ?app_assoc;
    first [symmetry; apply app_nil_r | reflexivity]
  | reflexivity ].

Lemma verification_reports E ch suffix doctype values creationResponse w :
  exists r evs w',
    verification E ch suffix doctype values creationResponse w = (Ok r, w')
    /\ after w evs w'
    /\ delays evs = [] /\ create_attempts evs = 0%nat.
Proof.
  unfold verification, prop.
  destruct (creation_filters_pure values) as [[f Hf] | [e He]].
  all: destruct creationResponse; run.
  all: repeat (first [rewrite Hf | rewrite He | inspect]; run).
  all: do 3 eexists; (split; [reflexivity|]).
  all: (split; [settle_after|]).
  all: split; reflexivity.
Qed.

(** C9.  Whatever the document type, the values, the creation response and
    the upstream (a direct fetch or a list query that throws included),
    [verifyDocumentCreation] returns a report [{success, message}]: it never
    throws and never fails to return. *)
Theorem verifyDocumentCreation_never_throws
    E doctype values creationResponse w :
  exists report w',
    verifyDocumentCreation E doctype values creationResponse w
    = (Ok report, w').
Proof.
  destruct (verification_reports E TokenChannel "" doctype values
              creationResponse w) as (r & evs & w' & H & _).
  exists r, w'. exact H.
Qed.

(** ** The retry loop *)

Lemma create_attempt_step E doctype values attempt w :
  exists step evs w',
    create_attempt E doctype values attempt w = (Ok step, w')
    /\ after w evs w'
    /\ create_attempts evs = 1%nat
    /\ match step with
       | inl _ => delays evs = []
       | inr e => delays evs = [timer_delay (backoff attempt)]
                  /\ failed_with E doctype values w e
       end.
Proof.
  unfold create_attempt, failed_with. run.
  destruct (answer E (trace w) (CreateDoc TokenChannel doctype values))
    as [e | result] eqn:Hc.
  - cbn. do 3 eexists. split; [reflexivity|].
    split; [settle_after|]. split; [reflexivity|].
    split; [reflexivity | left; reflexivity].
  - destruct (verification_reports E TokenChannel "" doctype values result
                (record (Called (CreateDoc TokenChannel doctype values)) w))
      as (r & evs & w1 & Hv & [Ht Hs] & Hd & Hn).
    fold (verifyDocumentCreation E doctype values result) in Hv.
    rewrite Hv. destruct (success r) eqn:Hsucc; cbn.
    + exists (inl (with_verification result r)), (Called (CreateDoc TokenChannel doctype values) :: evs), w1.
      split; [reflexivity|]. split.
      { split; [rewrite Ht; cbn; rewrite <- app_assoc; reflexivity | exact Hs]. }
      split.
      { change (Called (CreateDoc TokenChannel doctype values) :: evs)
          with ([Called (CreateDoc TokenChannel doctype values)] ++ evs)%list.
        rewrite create_attempts_app, Hn. reflexivity. }
      change (Called (CreateDoc TokenChannel doctype values) :: evs)
        with ([Called (CreateDoc TokenChannel doctype values)] ++ evs)%list.
      rewrite delays_app, Hd. reflexivity.
    + eexists (inr _),
        ((Called (CreateDoc TokenChannel doctype values) :: evs)
           ++ [Slept (timer_delay (backoff attempt))])%list, _.
      split; [reflexivity|]. split.
      { split; [cbn; rewrite Ht; cbn; rewrite <- !app_assoc; reflexivity
               | exact Hs]. }
      change (Called (CreateDoc TokenChannel doctype values) :: evs)
        with ([Called (CreateDoc TokenChannel doctype values)] ++ evs)%list.
      split.
      { rewrite !create_attempts_app, Hn. reflexivity. }
      split.
      { rewrite !delays_app, Hd. reflexivity. }
      right. exists result, r, w1. auto.
Qed.

Lemma create_loop_spec E doctype values maxRetries :
  forall turns attempt lastError w,
  exists r evs w',
    create_loop E doctype values maxRetries turns attempt lastError w = (r, w')
    /\ after w evs w'
    /\ (create_attempts evs <= turns)%nat
    /\ match r with
       | Ok _ =>
           exists failed, (failed < turns)%nat
                          /\ delays evs = schedule attempt failed
       | Throw e =>
           create_attempts evs = turns
           /\ delays evs = schedule attempt turns
           /\ thrown_is_last E doctype values maxRetries turns attempt
                lastError w w' e
       | Hang => False
       end.
Proof.
  induction turns as [|k IH]; intros attempt lastError w.
  - exists (Throw (exhausted maxRetries lastError)), [], w.
    split; [destruct lastError; reflexivity|].
    split; [apply after_refl|]. split; [apply Nat.le_refl|].
    repeat split.
  - destruct (create_attempt_step E doctype values attempt w)
      as (step & evs1 & w1 & Hstep & Haft1 & Hn1 & Hkind).
    cbn [create_loop]. unfold bind at 1. rewrite Hstep.
    destruct step as [v | e1].
    + exists (Ok v), evs1, w1.
      split; [reflexivity|]. split; [exact Haft1|].
      split; [rewrite Hn1; apply le_n_S, Nat.le_0_l|].
      exists 0%nat. split; [apply Nat.lt_0_succ | exact Hkind].
    + destruct Hkind as [Hd1 Hfail].
      destruct (IH (attempt + 1) (Some e1) w1)
        as (r & evs2 & w2 & Hloop & Haft2 & Hle & Hr).
      exists r, (evs1 ++ evs2)%list, w2.
      split; [exact Hloop|].
      split; [eapply after_trans; eassumption|].
      split; [rewrite create_attempts_app, Hn1; apply le_n_S, Hle|].
      destruct r as [v | e |]; [ | | exact Hr].
      * destruct Hr as (failed & Hlt & Hd2).
        exists (S failed). split; [apply -> Nat.succ_lt_mono; exact Hlt|].
        rewrite delays_app, Hd1, Hd2. reflexivity.
      * destruct Hr as (Hn2 & Hd2 & Hlast).
        split; [rewrite create_attempts_app, Hn1, Hn2; reflexivity|].
        split; [rewrite delays_app, Hd1, Hd2; reflexivity|].
        destruct k as [|k'].
        -- cbn in Hlast, Hloop. unfold throw in Hloop.
           injection Hloop as _ Hw. subst w2 e.
           exists [], w. split; [apply after_refl|].
           split; [reflexivity|].
           rewrite Z.add_0_r. split; assumption.
        -- destruct Hlast as (pre & w3 & Hpre & Hnpre & Hthird & Hf3).
           exists (evs1 ++ pre)%list, w3.
           split; [eapply after_trans; eassumption|].
           split; [rewrite create_attempts_app, Hn1, Hnpre; reflexivity|].
           replace (attempt + Z.of_nat (S k'))
             with (attempt + 1 + Z.of_nat k') by lia.
           split; assumption.
Qed.

(** One turn of the loop is one attempt: it succeeds and the loop returns,
    or it fails, whichever way, and the wait for that turn follows. *)
Lemma create_attempt_outcome E doctype values attempt w :
  (exists value w',
     attempt_succeeds E doctype values w value w'
     /\ create_attempt E doctype values attempt w = (Ok (inl value), w'))
  \/ (exists e w',
        attempt_fails E doctype values w e w'
        /\ create_attempt E doctype values attempt w
           = (Ok (inr e), record (Slept (timer_delay (backoff attempt))) w')).
Proof.
  unfold create_attempt, attempt_succeeds, attempt_fails. run.
  destruct (answer E (trace w) (CreateDoc TokenChannel doctype values))
    as [e | result] eqn:Hc; cbn.
  - right. exists e, (record (Called (CreateDoc TokenChannel doctype values)) w).
    split; [left; split; reflexivity | reflexivity].
  - destruct (verification_reports E TokenChannel "" doctype values result
                (record (Called (CreateDoc TokenChannel doctype values)) w))
      as (r & evs & w1 & Hv & _).
    fold (verifyDocumentCreation E doctype values result) in Hv.
    rewrite Hv. destruct (success r) eqn:Hsucc; cbn.
    + left. exists (with_verification result r), w1.
      split; [exists result, r; auto | reflexivity].
    + right. eexists _, w1.
      split; [right; exists result, r; auto | reflexivity].
Qed.

(** C1, as the code has it.  [createDocumentWithRetry] with the default of 3
    makes at most 3 create attempts, one after the other.  An attempt fails
    when the create call is refused or when the verification reports no
    success; in both cases the error is kept as the last error, the same
    wait follows (1000 ms after the first failed attempt, 2000 ms after the
    second, 4000 ms after the third) and the next attempt, if one is left,
    is made.  The first attempt that is verified ends the loop, and its
    result is returned with the report attached.  When all three attempts
    fail the function throws the error of the third, after 7000 ms of
    waiting in all. *)
Theorem createDocumentWithRetry_policy E doctype values w :
  let out := createDocumentWithRetry E doctype values 3 w in
  let succeeds := attempt_succeeds E doctype values in
  let fails := attempt_fails E doctype values in
  ((exists value w', succeeds w value w' /\ out = (Ok value, w'))
   \/ exists e1 w1,
        fails w e1 w1
        /\ let w1' := record (Slept 1000) w1 in
           (exists value w', succeeds w1' value w' /\ out = (Ok value, w'))
           \/ exists e2 w2,
                fails w1' e2 w2
                /\ let w2' := record (Slept 2000) w2 in
                   (exists value w',
                      succeeds w2' value w' /\ out = (Ok value, w'))
                   \/ exists e3 w3,
                        fails w2' e3 w3
                        /\ out = (Throw e3, record (Slept 4000) w3))
  /\ exists evs,
       after w evs (snd out)
       /\ (create_attempts evs <= 3)%nat
       /\ match fst out with
          | Ok _ =>
              delays evs = [] \/ delays evs = [1000]
              \/ delays evs = [1000; 2000]
          | Throw e =>
              create_attempts evs = 3%nat
              /\ delays evs = [1000; 2000; 4000]
              /\ total_delay evs = 7000
              /\ exists pre w3,
                   after w pre w3
                   /\ create_attempts pre = 2%nat
                   /\ create_attempt E doctype values 3 w3
                      = (Ok (inr e), snd out)
                   /\ failed_with E doctype values w3 e
          | Hang => False
          end.
Proof.
  intros out succeeds fails. split.
  - subst out succeeds fails.
    unfold createDocumentWithRetry. change (Z.to_nat 3) with 3%nat.
    cbn [create_loop].
    destruct (create_attempt_outcome E doctype values 1 w)
      as [(v & w' & Hok & Hrun) | (e1 & w1 & Hfail1 & Hrun)];
      rewrite (bind_ok _ _ _ _ _ Hrun); [left; eauto|].
    right. exists e1, w1. split; [exact Hfail1|].
    change (timer_delay (backoff 1)) with 1000. cbv zeta.
    destruct (create_attempt_outcome E doctype values (1 + 1)
                (record (Slept 1000) w1))
      as [(v & w' & Hok & Hrun2) | (e2 & w2 & Hfail2 & Hrun2)];
      rewrite (bind_ok _ _ _ _ _ Hrun2); [left; eauto|].
    right. exists e2, w2. split; [exact Hfail2|].
    change (timer_delay (backoff (1 + 1))) with 2000.
    destruct (create_attempt_outcome E doctype values (1 + 1 + 1)
                (record (Slept 2000) w2))
      as [(v & w' & Hok & Hrun3) | (e3 & w3 & Hfail3 & Hrun3)];
      rewrite (bind_ok _ _ _ _ _ Hrun3); [left; eauto|].
    right. exists e3, w3. split; [exact Hfail3 | reflexivity].
  - subst out. unfold createDocumentWithRetry.
    destruct (create_loop_spec E doctype values 3 (Z.to_nat 3) 1 None w)
      as (r & evs & w' & Hloop & Haft & Hle & Hr).
    rewrite Hloop. cbn [fst snd].
    exists evs. split; [exact Haft|]. split; [exact Hle|].
    destruct r as [v | e |]; [ | | exact Hr].
    + destruct Hr as (failed & Hlt & Hd). rewrite Hd.
      change (Z.to_nat 3) with 3%nat in Hlt.
      destruct failed as [|[|[|n]]]; cbn; auto.
      exfalso. lia.
    + destruct Hr as (Hn & Hd & Hlast).
      split; [exact Hn|]. split; [exact Hd|].
      split; [unfold total_delay; rewrite Hd; reflexivity|].
      exact Hlast.
Qed.

(** An unverified result is retried like a refused call: the site
    acknowledges every create and never finds the document, so three create
    calls are made, with the three waits, and the error of the third
    verification is thrown. *)
Example unverified_result_is_retried :
  let out := createDocumentWithRetry env_forgetful "ToDo"
               [("priority", JStr "High")] 3 initial_world in
  fst out
  = Throw (PlainError
             "Verification failed: Could not verify document creation - no suitable filters available")
  /\ create_attempts (trace (snd out)) = 3%nat
  /\ delays (trace (snd out)) = [1000; 2000; 4000].
Proof.
  vm_compute. repeat split.
Qed.

(** C1 as stated fails: with an upstream that refuses every call, the three
    attempts are followed by waits of 1 s, 2 s and 4 s, so the error is
    thrown after 7 s of waiting, not 3 s. *)
Lemma createDocumentWithRetry_waits_seven_seconds :
  let out := createDocumentWithRetry env_down "ToDo"
               [("description", JStr "Call the supplier")] 3 initial_world in
  fst out = Throw (PlainError "connect ECONNREFUSED")
  /\ create_attempts (trace (snd out)) = 3%nat
  /\ delays (trace (snd out)) = [1000; 2000; 4000]
  /\ total_delay (trace (snd out)) = 7000
  /\ total_delay (trace (snd out)) <> 3000.
Proof.
  vm_compute. repeat split; discriminate.
Qed.

(** C2.  [verifyDocumentCreation] is the ordered cascade.  (1) A response
    without a name gives a failure, with no call made, whatever the values.
    (2) Else, when the direct fetch by that name returns a document of that
    name, success.  (3) Else the filter is the first available of exact name,
    exact title, contains-match on the first 20 characters of the
    description; one list query with that filter and a limit of 5 is made;
    success when a returned document has the expected name, a failure naming
    the count when documents came back and none has it, a not-found failure
    when none came back (a query that throws gives a failure too).  (4) With
    no discriminating field, the no-suitable-filters failure (a description
    that is not a text gives a failure as well). *)
Theorem verifyDocumentCreation_cascade E doctype values creationResponse w :
  let out := verifyDocumentCreation E doctype values creationResponse w in
  let name := get creationResponse "name" in
  let fetch := GetDoc TokenChannel doctype name in
  let w1 := record (Called fetch) w in
  if negb (truthy name) then
    snd out = w
    /\ fst out =
       Ok (mkReport false
             (if nullish creationResponse then
                "Error during verification: "
                  ++ exn_message (TypeError_read creationResponse "name")
              else "Response does not contain a document name"))
  else if fetch_confirms (answer E (trace w) fetch) name then
    out = (Ok (mkReport true "Document verified by direct fetch"), w1)
  else
    match chosen_filter values with
    | Some filters =>
        let query :=
          GetDocList TokenChannel doctype
            (mkListArgs None (JObj filters) None None (Some 5)) in
        snd out = record (Called query) w1
        /\ fst out =
           match answer_list E (trace w1) query with
           | inr (Some (d :: ds)) =>
               if existsb (has_name name) (d :: ds) then
                 Ok (mkReport true "Document verified by filter search")
               else
                 Ok (mkReport false
                       ("Found " ++ string_of_nat (List.length (d :: ds))
                          ++ " documents matching filters, but none match the expected name "
                          ++ to_str name))
           | inr _ =>
               Ok (mkReport false
                     "No documents found matching the creation filters")
           | inl e =>
               Ok (mkReport false
                     ("Error during verification: " ++ exn_message e))
           end
    | None =>
        snd out = w1
        /\ fst out =
           Ok (mkReport false
                 (if truthy (obj_get values "description") then
                    "Error during verification: "
                      ++ exn_message
                           (TypeError_call "values.description.substring")
                  else
                    "Could not verify document creation - no suitable filters available"))
    end.
Proof.
  unfold verifyDocumentCreation, verification, prop, fetch_confirms,
    chosen_filter, creation_filters, verification_query.
  destruct creationResponse; run; auto.
  all: repeat (inspect; run; try discriminate); rewrite ?append_empty.
  all: try (split; reflexivity); try reflexivity.
Qed.

(** The cascade on the site of the examples: a direct fetch that confirms; a
    failed direct fetch made good by the title filter; no usable field. *)
Example verify_by_direct_fetch :
  fst (verifyDocumentCreation (env_todo true) "ToDo"
         [("description", JStr "Call the supplier")]
         (JObj [("name", JStr "TODO-0001")]) initial_world)
  = Ok (mkReport true "Document verified by direct fetch").
Proof. reflexivity. Qed.

Example verify_by_filter_search :
  verifyDocumentCreation (env_todo false) "ToDo"
    [("title", JStr "Call the supplier")]
    (JObj [("name", JStr "TODO-0001")]) initial_world
  = (Ok (mkReport true "Document verified by filter search"),
     mkWorld
       [Called (GetDoc TokenChannel "ToDo" (JStr "TODO-0001"));
        Called (GetDocList TokenChannel "ToDo"
                  (mkListArgs None
                     (JObj [("title",
                             JArr [JStr "="; JStr "Call the supplier"])])
                     None None (Some 5)))]
       initial_session).
Proof. reflexivity. Qed.

Example verify_without_filters :
  fst (verifyDocumentCreation (env_todo false) "ToDo"
         [("priority", JStr "High")]
         (JObj [("name", JStr "TODO-0001")]) initial_world)
  = Ok (mkReport false
          "Could not verify document creation - no suitable filters available").
Proof. reflexivity. Qed.

Example verify_without_name :
  verifyDocumentCreation (env_todo true) "ToDo"
    [("name", JStr "TODO-0001")] (JObj [("docstatus", JNum 0)]) initial_world
  = (Ok (mkReport false "Response does not contain a document name"),
     initial_world).
Proof. reflexivity. Qed.

(** ** Ordering of a list call *)

Lemma length_append (s t : string) :
  String.length (s ++ t) = (String.length s + String.length t)%nat.
Proof. induction s as [|a s IH]; simpl; [reflexivity | now rewrite IH]. Qed.

Lemma substring_all (s : string) : substring 0 (String.length s) s = s.
Proof. induction s as [|a s IH]; simpl; [reflexivity | now rewrite IH]. Qed.

Lemma substring_skip (s t : string) (m : nat) :
  substring (String.length s) m (s ++ t) = substring 0 m t.
Proof. induction s as [|a s IH]; simpl; [reflexivity | exact IH]. Qed.

Lemma endsWith_append (s suffix : string) :
  endsWith (s ++ suffix) suffix = true.
Proof.
  unfold endsWith. rewrite length_append.
  replace (String.length suffix <=? String.length s + String.length suffix)%nat
    with true by (symmetry; apply Nat.leb_le; lia).
  replace (String.length s + String.length suffix - String.length suffix)%nat
    with (String.length s) by lia.
  rewrite substring_skip, substring_all. apply String.eqb_refl.
Qed.

Lemma first_word_append (f rest : string) :
  no_space f = true -> first_word (f ++ String SP rest) = f.
Proof.
  unfold first_word. induction f as [|a f IH]; intros H.
  - reflexivity.
  - simpl in H. apply andb_prop in H as [Ha Hf].
    specialize (IH Hf). simpl.
    destruct (Ascii.eqb a SP); [discriminate|].
    destruct (split SP (f ++ String SP rest)) as [|h t]; simpl in *.
    + subst f. reflexivity.
    + subst h. reflexivity.
Qed.

Lemma asc_is_not_desc (f : string) (a : ascii) :
  substring (String.length f) 5 (String a (f ++ " asc")) <> " desc".
Proof.
  revert a. induction f as [|b f IH]; intros a.
  - simpl. intros H. discriminate H.
  - simpl. apply IH.
Qed.

Lemma endsWith_asc_not_desc (f : string) :
  endsWith (f ++ " asc") " desc" = false.
Proof.
  unfold endsWith. rewrite length_append. simpl String.length.
  destruct f as [|a f].
  - reflexivity.
  - simpl String.length.
    replace (5 <=? S (String.length f) + 4)%nat with true
      by (symmetry; apply Nat.leb_le; lia).
    replace (S (String.length f) + 4 - 5)%nat with (String.length f) by lia.
    apply String.eqb_neq. apply (asc_is_not_desc f a).
Qed.

Lemma split_order_desc (f : string) :
  no_space f = true ->
  split_order (Some (f ++ " desc")) = (Some f, desc).
Proof.
  intros H. unfold split_order.
  rewrite endsWith_append.
  change (f ++ " desc")%string with (f ++ String SP "desc")%string.
  rewrite first_word_append by exact H. reflexivity.
Qed.

Lemma split_order_asc (f : string) :
  no_space f = true ->
  split_order (Some (f ++ " asc")) = (Some f, asc).
Proof.
  intros H. unfold split_order.
  rewrite endsWith_asc_not_desc, endsWith_append.
  change (f ++ " asc")%string with (f ++ String SP "asc")%string.
  rewrite first_word_append by exact H. reflexivity.
Qed.

(** In the main module a trailing [" desc"] or [" asc"] after a field name
    becomes the direction, and the field goes alone; without one, the
    direction is ascending and [order_by] goes as it is. *)
Lemma list_query_direction filters fields limit limit_start (f : string) :
  no_space f = true -> is_empty f = false ->
  list_query filters fields limit (Some (f ++ " desc")) limit_start
  = mkListArgs (option_map (map JStr) fields) (js_of_filters filters)
      (Some (f, desc)) limit_start limit
  /\ list_query filters fields limit (Some (f ++ " asc")) limit_start
     = mkListArgs (option_map (map JStr) fields) (js_of_filters filters)
         (Some (f, asc)) limit_start limit.
Proof.
  intros Hf Hne. unfold list_query.
  rewrite split_order_desc, split_order_asc by exact Hf.
  unfold orderBy_of. rewrite Hne. split; reflexivity.
Qed.

Lemma list_query_default filters fields limit limit_start (ob : string) :
  endsWith ob " desc" = false -> endsWith ob " asc" = false ->
  is_empty ob = false ->
  list_query filters fields limit (Some ob) limit_start
  = mkListArgs (option_map (map JStr) fields) (js_of_filters filters)
      (Some (ob, asc)) limit_start limit.
Proof.
  intros H1 H2 Hne. unfold list_query, split_order.
  rewrite H1, H2. unfold orderBy_of. rewrite Hne. reflexivity.
Qed.

(** Both variants of the main module hand [list_query] to their channel. *)
Lemma listDocuments_call E doctype filters fields limit order_by limit_start w :
  is_empty doctype = false ->
  trace (snd (listDocuments E doctype filters fields limit order_by
                limit_start w))
  = (trace w ++
     [Called (GetDocList TokenChannel doctype
                (list_query filters fields limit order_by limit_start))])%list.
Proof.
  intros H. unfold listDocuments, handleApiError. run. rewrite H.
  repeat (inspect; run); reflexivity.
Qed.

Lemma listDocumentsWithAuth_call
    E doctype filters fields limit order_by limit_start w w1 :
  is_empty doctype = false ->
  authenticateWithPassword E w = (Ok true, w1) ->
  trace (snd (listDocumentsWithAuth E doctype filters fields limit order_by
                limit_start w))
  = (trace w1 ++
     [Called (GetDocList PasswordChannel doctype
                (list_query filters fields limit order_by limit_start))])%list.
Proof.
  intros H Ha.
  assert (He : ensure_authenticated E w = (Ok tt, w1)).
  { unfold ensure_authenticated. rewrite (bind_ok _ _ _ _ _ Ha). reflexivity. }
  unfold listDocumentsWithAuth, try_catch. rewrite H.
  rewrite (bind_ok _ _ _ _ _ He). unfold handleApiError. run.
  repeat (inspect; run); reflexivity.
Qed.

(** C3 at the failing input.  [listDocuments] of the document API module,
    given [order_by = "creation desc"], asks the channel for the field
    ["creation desc"] in ascending order, where [listDocuments] of the main
    module asks for the field ["creation"] in descending order. *)
Theorem DocumentApi_listDocuments_ignores_direction E translate w :
  trace (snd (DocumentApi.listDocuments E translate "ToDo" None None None
                (Some "creation desc") None w))
  = (trace w ++
     [Called (GetDocList TokenChannel "ToDo"
                (mkListArgs None JUndefined (Some ("creation desc", asc))
                   None None))])%list
  /\ trace (snd (listDocuments E "ToDo" None None None
                   (Some "creation desc") None w))
     = (trace w ++
        [Called (GetDocList TokenChannel "ToDo"
                   (mkListArgs None JUndefined (Some ("creation", desc))
                      None None))])%list.
Proof.
  split.
  - unfold DocumentApi.listDocuments, DocumentApi.handleApiError. run.
    repeat (inspect; run); reflexivity.
  - rewrite listDocuments_call by reflexivity. reflexivity.
Qed.

(** ** Validation *)


(** C5, as the code has it.  In [getDocument], [createDocument],
    [updateDocument], [deleteDocument] and their password variants an empty
    document type, name or values map is refused before any channel call and
    before any login: the world is unchanged.  The refusal is raised inside
    the function's [try], so it reaches the caller through [handleApiError],
    as the structured error "Error during <operation>: <what is required>"
    without status or endpoint; validation failures are translated like
    every other failure. *)
Theorem validation_is_translated E doctype (name : string) values w :
  (forall operation message,
     @handleApiError E JS (PlainError message) operation w
     = rejected w operation message)
  /\ (is_empty doctype = true ->
      let what := "DocType is required" in
      getDocument E doctype name w
      = rejected w ("get_document(" ++ doctype ++ ", " ++ name ++ ")") what
      /\ getDocumentWithAuth E doctype name w
         = rejected w
             ("get_document_with_auth(" ++ doctype ++ ", " ++ name ++ ")") what
      /\ createDocument E doctype values w
         = rejected w ("create_document(" ++ doctype ++ ")") what
      /\ createDocumentWithAuth E doctype values w
         = rejected w ("create_document_with_auth(" ++ doctype ++ ")") what
      /\ updateDocument E doctype name values w
         = rejected w ("update_document(" ++ doctype ++ ", " ++ name ++ ")")
             what
      /\ updateDocumentWithAuth E doctype name values w
         = rejected w
             ("update_document_with_auth(" ++ doctype ++ ", " ++ name ++ ")")
             what
      /\ deleteDocument E doctype name w
         = rejected w ("delete_document(" ++ doctype ++ ", " ++ name ++ ")")
             what
      /\ deleteDocumentWithAuth E doctype name w
         = rejected w
             ("delete_document_with_auth(" ++ doctype ++ ", " ++ name ++ ")")
             what)
  /\ (is_empty doctype = false -> is_empty name = true ->
      let what := "Document name is required" in
      getDocument E doctype name w
      = rejected w ("get_document(" ++ doctype ++ ", " ++ name ++ ")") what
      /\ getDocumentWithAuth E doctype name w
         = rejected w
             ("get_document_with_auth(" ++ doctype ++ ", " ++ name ++ ")") what
      /\ updateDocument E doctype name values w
         = rejected w ("update_document(" ++ doctype ++ ", " ++ name ++ ")")
             what
      /\ updateDocumentWithAuth E doctype name values w
         = rejected w
             ("update_document_with_auth(" ++ doctype ++ ", " ++ name ++ ")")
             what
      /\ deleteDocument E doctype name w
         = rejected w ("delete_document(" ++ doctype ++ ", " ++ name ++ ")")
             what
      /\ deleteDocumentWithAuth E doctype name w
         = rejected w
             ("delete_document_with_auth(" ++ doctype ++ ", " ++ name ++ ")")
             what)
  /\ (is_empty doctype = false -> no_keys values = true ->
      let what := "Document values are required" in
      createDocument E doctype values w
      = rejected w ("create_document(" ++ doctype ++ ")") what
      /\ createDocumentWithAuth E doctype values w
         = rejected w ("create_document_with_auth(" ++ doctype ++ ")") what)
  /\ (is_empty doctype = false -> is_empty name = false ->
      no_keys values = true ->
      let what := "Update values are required" in
      updateDocument E doctype name values w
      = rejected w ("update_document(" ++ doctype ++ ", " ++ name ++ ")") what
      /\ updateDocumentWithAuth E doctype name values w
         = rejected w
             ("update_document_with_auth(" ++ doctype ++ ", " ++ name ++ ")")
             what).
Proof.
  unfold getDocument, getDocumentWithAuth, createDocument,
    createDocumentWithAuth, updateDocument, updateDocumentWithAuth,
    deleteDocument, deleteDocumentWithAuth, rejected, translated,
    handleApiError.
  split; [reflexivity|].
  split; [intros Hd; cbv zeta; repeat split; run; rewrite Hd; reflexivity|].
  split; [intros Hd Hn; cbv zeta; repeat split; run; rewrite Hd, Hn;
          reflexivity|].
  split; [intros Hd Hv; cbv zeta; repeat split; run; rewrite Hd, Hv;
          reflexivity|].
  intros Hd Hn Hv; cbv zeta; repeat split; run; rewrite Hd, Hn, Hv;
    reflexivity.
Qed.

(** C5 at work: a delete on the password channel without a document type is
    turned down before any login. *)
Lemma validation_is_translated_witness :
  is_empty "" = true
  /\ deleteDocumentWithAuth env_accepting "" "TODO-0001" initial_world
     = rejected initial_world "delete_document_with_auth(, TODO-0001)"
         "DocType is required".
Proof.
  split; [reflexivity|].
  destruct (validation_is_translated env_accepting "" "TODO-0001" []
              initial_world) as (_ & H & _).
  destruct (H eq_refl) as (_ & _ & _ & _ & _ & _ & _ & Hdelete).
  exact Hdelete.
Defined.

(** [getDocument] of the document module is the one function that checks its
    arguments before its [try]: there the plain error reaches the caller. *)
Lemma DocumentApi_getDocument_validation E translate doctype name w :
  is_empty doctype = true ->
  DocumentApi.getDocument E translate doctype name w
  = (Throw (PlainError "DocType is required"), w).
Proof.
  intros H. unfold DocumentApi.getDocument. rewrite H. reflexivity.
Qed.

(** C5 as stated fails: the error a caller of [getDocument] gets for an
    empty document type is not the plain validation error; it is the one
    [handleApiError] makes of it. *)
Lemma validation_error_goes_through_handleApiError :
  getDocument env_down "" "TODO-0001" initial_world
  = (Throw (FrappeApiError
              "Error during get_document(, TODO-0001): DocType is required"
              None None JUndefined),
     initial_world)
  /\ getDocument env_down "" "TODO-0001" initial_world
     = @handleApiError env_down JS (PlainError "DocType is required")
         "get_document(, TODO-0001)" initial_world
  /\ fst (getDocument env_down "" "TODO-0001" initial_world)
     <> Throw (PlainError "DocType is required").
Proof.
  repeat split. discriminate.
Qed.

(** ** The password session *)

(** C6.  Between calls the session has no attempt in flight and, without
    credentials, is not marked authenticated; [authenticateWithPassword]
    keeps it so.  From such a session: (a) when it is marked authenticated
    and its last successful login is younger than 30 minutes, the answer is
    [true] and nothing is called or changed; (b) when user name or password
    is not configured, the answer is [false], no login call is made and the
    session is left unauthenticated; (c) otherwise one login call is made,
    and when the platform rejects it the answer is [false], the session is
    marked unauthenticated and the time of the last success stays as it was,
    while on success the session is marked authenticated and the time is
    recorded. *)
Theorem authenticateWithPassword_session E w :
  session_ok E (session w) = true ->
  let s := session w in
  let t := Date_now E (trace w) in
  let out := authenticateWithPassword E w in
  let s' := session (snd out) in
  (fresh s t = true -> out = (Ok true, w))
  /\ (credentials E = false ->
      fst out = Ok false
      /\ trace (snd out) = trace w
      /\ isAuthenticated s' = false
      /\ lastAuthAttempt s' = lastAuthAttempt s)
  /\ (fresh s t = false -> credentials E = true ->
      exists username password,
        FRAPPE_USERNAME E = Some username
        /\ FRAPPE_PASSWORD E = Some password
        /\ trace (snd out) = (trace w ++ [Called (Login username password)])%list
        /\ match answer E (trace w) (Login username password) with
           | inl _ =>
               fst out = Ok false
               /\ isAuthenticated s' = false
               /\ lastAuthAttempt s' = lastAuthAttempt s
           | inr _ =>
               fst out = Ok true
               /\ isAuthenticated s' = true
               /\ lastAuthAttempt s' = t
           end)
  /\ session_ok E s' = true.
Proof.
  unfold session_ok, fresh, credentials, authenticateWithPassword,
    wait_for_authentication, now, get_session, try_finally, try_catch,
    set_isAuthenticated, set_lastAuthAttempt, set_authenticationInProgress,
    bind, ret, call_upstream, configured.
  destruct w as [tr [auth prog last]]. cbn.
  destruct prog; [discriminate|].
  destruct (FRAPPE_USERNAME E) as [u|], (FRAPPE_PASSWORD E) as [p|]; cbn.
  - destruct auth, (u =? "")%string, (p =? "")%string,
      (Date_now E tr - last <? 1800000); cbn.
    all: destruct (answer E tr (Login u p)) eqn:Hlogin; cbn.
    all: intros; repeat split; intros; try discriminate; try reflexivity.
    all: exists u, p; rewrite Hlogin; repeat split; reflexivity.
  - destruct auth, (u =? "")%string, (Date_now E tr - last <? 1800000); cbn.
    all: intros; repeat split; intros; try discriminate; reflexivity.
  - destruct auth, (p =? "")%string, (Date_now E tr - last <? 1800000); cbn.
    all: intros; repeat split; intros; try discriminate; reflexivity.
  - destruct auth, (Date_now E tr - last <? 1800000); cbn.
    all: intros; repeat split; intros; try discriminate; reflexivity.
Qed.

(** The session a process starts with is one of those. *)
Lemma initial_session_ok E : session_ok E initial_session = true.
Proof. unfold session_ok. cbn. apply orb_true_r. Qed.

(** A login that succeeded serves the next call: the second call answers
    [true] and the trace still holds the one login. *)
Example second_call_reuses_the_session :
  let w1 := snd (authenticateWithPassword env_accepting initial_world) in
  let out := authenticateWithPassword env_accepting w1 in
  session w1 = mkSession true false 1000000
  /\ out = (Ok true, w1)
  /\ calls (trace (snd out)) = [Login "Administrator" "secret"].
Proof. repeat split. Qed.

(** Without credentials nothing is called and the answer is [false]. *)
Example no_credentials_no_login :
  authenticateWithPassword env_down initial_world = (Ok false, initial_world).
Proof. reflexivity. Qed.

(** C6 at work: credentials configured, the platform rejects the login. *)
Lemma authenticateWithPassword_session_witness :
  let out := authenticateWithPassword env_rejecting initial_world in
  session_ok env_rejecting (session initial_world) = true
  /\ fst out = Ok false
  /\ isAuthenticated (session (snd out)) = false
  /\ lastAuthAttempt (session (snd out))
     = lastAuthAttempt (session initial_world).
Proof.
  split; [reflexivity|].
  pose proof (authenticateWithPassword_session env_rejecting initial_world
                eq_refl) as H.
  cbv zeta in H. destruct H as (_ & _ & H & _).
  destruct (H eq_refl eq_refl) as (u & p & _ & _ & _ & Hr).
  exact Hr.
Defined.

(** ** The two ways to a schema *)

(** The document fallback is taken exactly when the metadata endpoint gave
    nothing usable; its schema carries the DocType document's [fields] as
    they are. *)
Lemma getDocTypeSchema_fallback E doctype w doctypeDoc :
  is_empty doctype = false ->
  meta_unusable (answer E (trace w) (get_meta doctype)) = true ->
  let w1 := record (Called (get_meta doctype)) w in
  let fetch := GetDoc TokenChannel "DocType" (JStr doctype) in
  answer E (trace w1) fetch = inr doctypeDoc ->
  truthy doctypeDoc = true ->
  getDocTypeSchema E doctype w
  = (Ok (schema_of_document doctype doctypeDoc), record (Called fetch) w1)
  /\ get (schema_of_document doctype doctypeDoc) "fields"
     = or_else (get doctypeDoc "fields") (JArr []).
Proof.
  intros Hd Hmeta w1 fetch Hdoc Htruthy. split; [|reflexivity].
  unfold getDocTypeSchema, getDocument, handleApiError, meta_unusable in *.
  run. rewrite Hd. cbn.
  destruct (answer E (trace w) (get_meta doctype)) as [e | v]; cbn.
  - subst w1 fetch. cbn in Hdoc. rewrite Hdoc. cbn. rewrite Htruthy. cbn.
    rewrite Htruthy. reflexivity.
  - apply negb_true_iff in Hmeta. rewrite Hmeta. cbn.
    subst w1 fetch. cbn in Hdoc. rewrite Hdoc. cbn. rewrite Htruthy. cbn.
    rewrite Htruthy. reflexivity.
Qed.

(** The schema is unavailable only when both ways fail: with a usable
    metadata answer or a DocType document, no such error is raised. *)
Lemma getDocTypeSchema_unavailable E doctype w :
  is_empty doctype = false ->
  meta_unusable (answer E (trace w) (get_meta doctype)) = true ->
  let w1 := record (Called (get_meta doctype)) w in
  let fetch := GetDoc TokenChannel "DocType" (JStr doctype) in
  (forall doctypeDoc, answer E (trace w1) fetch = inr doctypeDoc ->
                      truthy doctypeDoc = false) ->
  getDocTypeSchema E doctype w
  = (Throw (translated ("get_doctype_schema(" ++ doctype ++ ")")
              ("Could not retrieve schema for DocType " ++ doctype
                 ++ " using any available method")),
     record (Called fetch) w1).
Proof.
  intros Hd Hmeta w1 fetch Hdoc.
  unfold getDocTypeSchema, getDocument, handleApiError, meta_unusable,
    translated in *.
  run. rewrite Hd. cbn.
  assert (Hfall :
    match answer E (trace w1) fetch with
    | inr v => truthy v = false
    | inl _ => True
    end).
  { destruct (answer E (trace w1) fetch) eqn:Ha; [exact I | auto]. }
  subst w1 fetch. cbn in Hfall.
  destruct (answer E (trace w) (get_meta doctype)) as [e | v]; cbn.
  - destruct (answer E (trace w ++ [Called (get_meta doctype)])
                (GetDoc TokenChannel "DocType" (JStr doctype)))
      as [e' | v']; cbn; [destruct (isAxiosError e'); reflexivity|].
    rewrite Hfall. reflexivity.
  - apply negb_true_iff in Hmeta. rewrite Hmeta. cbn.
    destruct (answer E (trace w ++ [Called (get_meta doctype)])
                (GetDoc TokenChannel "DocType" (JStr doctype)))
      as [e' | v']; cbn; [destruct (isAxiosError e'); reflexivity|].
    rewrite Hfall. reflexivity.
Qed.

(** The metadata path keeps the order and the number of the fields. *)
Lemma mapM_field_descriptor_length l : forall w r w',
  mapM field_descriptor l w = (Ok r, w') ->
  List.length r = List.length l /\ w' = w.
Proof.
  induction l as [|f l IH]; intros w r w' H.
  - cbn in H. injection H as <- <-. split; reflexivity.
  - cbn [mapM] in H. unfold bind in H.
    destruct (field_descriptor f w) as [[d | e |] w1] eqn:Hf;
      try discriminate.
    assert (w1 = w) by
      (destruct f; cbn in Hf; try discriminate; injection Hf; auto).
    subst w1.
    destruct (mapM field_descriptor l w) as [[ds | e |] w2] eqn:Hl;
      try discriminate.
    destruct (IH _ _ _ Hl) as [Hlen ->].
    cbn in H. injection H as <- <-. cbn. rewrite Hlen. split; reflexivity.
Qed.

(** C4 at the failing input.  The site serves the same ToDo data from the
    metadata endpoint and as a DocType document.  With the metadata endpoint
    down, [getDocTypeSchema] falls back to the document and returns its
    field records as they are ([reqd: 1], no [required], no
    [linked_doctype]); with the endpoint up it returns the normalized
    descriptors.  Every other property of the two schemas is the same; the
    [fields] differ. *)
Theorem getDocTypeSchema_fallback_keeps_raw_fields :
  exists by_meta by_document w1 w2 described,
    getDocTypeSchema (env_site true) "ToDo" initial_world = (Ok by_meta, w1)
    /\ getDocTypeSchema (env_site false) "ToDo" initial_world
       = (Ok by_document, w2)
    /\ calls (trace w2)
       = [get_meta "ToDo"; GetDoc TokenChannel "DocType" (JStr "ToDo")]
    /\ get by_document "fields" = JArr todo_fields
    /\ mapM field_descriptor todo_fields w1 = (Ok described, w1)
    /\ get by_meta "fields" = JArr described
    /\ JArr described <> JArr todo_fields
    /\ map (fun f => get f "required") described = [JBool true; JBool false]
    /\ map (fun f => get f "required") todo_fields
       = [JUndefined; JUndefined]
    /\ map (fun f => get f "linked_doctype") described
       = [JNull; JStr "Customer"]
    /\ map (fun f => get f "linked_doctype") todo_fields
       = [JUndefined; JUndefined]
    /\ forall k, k <> "fields" -> get by_meta k = get by_document k.
Proof.
  do 5 eexists.
  split; [vm_compute; reflexivity|].
  split; [vm_compute; reflexivity|].
  split; [reflexivity|]. split; [reflexivity|].
  split; [vm_compute; reflexivity|].
  split; [reflexivity|]. split; [discriminate|].
  split; [reflexivity|]. split; [reflexivity|].
  split; [reflexivity|]. split; [reflexivity|].
  intros k Hk. unfold get. cbn [obj_get].
  repeat match goal with
         | |- context [(?a =? k)%string] =>
             destruct (a =? k)%string eqn:?;
             [ first [ reflexivity
                     | exfalso; apply Hk; symmetry; apply String.eqb_eq;
                       assumption ]
             | ]
         end.
  reflexivity.
Qed.

(** ** Field options *)

Ltac inspect_in H :=
  match type of H with
  | context [match ?x with _ => _ end] =>
      lazymatch x with
      | context [match _ with _ => _ end] => fail
      | _ => destruct x eqn:?
      end
  end.

Lemma mapM_field_descriptor_result l : forall w,
  (exists r, mapM field_descriptor l w = (Ok r, w))
  \/ (exists e, mapM field_descriptor l w = (Throw e, w)).
Proof.
  induction l as [|f l IH]; intros w.
  - left. exists []. reflexivity.
  - cbn [mapM]. unfold bind.
    destruct f; cbn; try (right; eexists; reflexivity).
    all: destruct (IH w) as [[r ->] | [e ->]];
      [left | right]; eexists; reflexivity.
Qed.

Lemma schema_of_meta_object doctype docTypeData w r w' :
  schema_of_meta doctype docTypeData w = (r, w') ->
  (exists props, r = Ok (JObj props)) \/ (exists e, r = Throw e).
Proof.
  unfold schema_of_meta, described_fields, bind, ret, throw. intros H.
  destruct (truthy (get docTypeData "fields"));
    [destruct (get docTypeData "fields") |].
  all: try (injection H as <- _; eauto; fail).
  destruct (mapM_field_descriptor_result items w) as [[ds Hm] | [e Hm]];
    rewrite Hm in H; injection H as <- _; eauto.
Qed.

(** A schema that [getDocTypeSchema] returns is an object. *)
Lemma getDocTypeSchema_object E doctype w schema w1 :
  getDocTypeSchema E doctype w = (Ok schema, w1) ->
  exists props, schema = JObj props.
Proof.
  unfold getDocTypeSchema, getDocument, handleApiError, schema_of_document.
  unfold try_catch at 1. unfold bind at 1.
  destruct (falsy doctype); [discriminate|].
  destruct (try_catch (call_upstream E (get_meta doctype)) _ w)
    as [[docTypeData | e |] w0];
    [ | destruct (isAxiosError e); discriminate | discriminate].
  destruct (truthy docTypeData).
  - destruct (schema_of_meta doctype docTypeData w0) as [r w2] eqn:Hm.
    destruct (schema_of_meta_object _ _ _ _ _ Hm) as [[props ->] | [e ->]].
    + intros H. injection H as <- _. eauto.
    + destruct (isAxiosError e); discriminate.
  - run. repeat (inspect; run; try discriminate).
    all: intros H; injection H as <- _; eauto.
Qed.

Lemma find_field_state p l : forall w r w',
  find_field p l w = (r, w') -> w' = w.
Proof.
  induction l as [|f l IH]; intros w r w' H.
  - cbn in H. injection H as _ <-. reflexivity.
  - cbn in H. destruct f; cbn in H;
      try (injection H as _ <-; reflexivity);
      (destruct (p _); [injection H as _ <-; reflexivity | eapply IH, H]).
Qed.


Lemma find_field_absent p l w :
  existsb p l = false ->
  find_field p l w = (Ok JUndefined, w)
  \/ (exists e, find_field p l w = (Throw e, w)
                /\ existsb nullish l = true).
Proof.
  induction l as [|f l IH]; intros H; [left; reflexivity|].
  cbn in H. apply orb_false_iff in H as [Hf Hl].
  destruct (IH Hl) as [IH' | (e & IH' & Hn)].
  - destruct f; cbn; try (right; eexists; split; reflexivity);
      rewrite Hf; left; exact IH'.
  - right. destruct f; cbn; try (eexists; split; reflexivity);
      rewrite Hf; exists e; (split; [exact IH' | rewrite Hn; reflexivity]).
Qed.

Lemma find_field_throws_plain p l : forall w e w',
  find_field p l w = (Throw e, w') -> isAxiosError e = false.
Proof.
  induction l as [|f l IH]; intros w e w' H; [discriminate|].
  cbn in H. destruct f; cbn in H;
    try (injection H as <- _; reflexivity);
    (destruct (p _); [discriminate | eapply IH, H]).
Qed.

(** Up to the field: what [getFieldOptions] does once the schema is there. *)
Lemma getFieldOptions_with_schema
    E doctype fieldname filters w schema w1 fields :
  is_empty doctype = false -> is_empty fieldname = false ->
  getDocTypeSchema E doctype w = (Ok schema, w1) ->
  get schema "fields" = JArr fields ->
  getFieldOptions E doctype fieldname filters w
  = try_catch
      (field <- find_field (named fieldname) fields ;;
       if negb (truthy field) then
         throw (PlainError ("Field " ++ fieldname ++ " not found in DocType "
                              ++ doctype))
       else if strict_eq (get field "fieldtype") (JStr "Link") then
         let linkedDocType := get field "options" in
         if negb (truthy linkedDocType) then
           throw (PlainError ("Link field " ++ fieldname
                    ++ " has no options (linked DocType) specified"))
         else link_options E linkedDocType filters
       else if strict_eq (get field "fieldtype") (JStr "Select") then
         if negb (truthy (get field "options")) then ret []
         else select_options (get field "options")
       else if strict_eq (get field "fieldtype") (JStr "Table") then ret []
       else ret [])
      (fun error => throw (field_options_failure E doctype fieldname error))
      w1.
Proof.
  intros Hd Hf Hs Hfields.
  destruct (getDocTypeSchema_object _ _ _ _ _ Hs) as [props ->].
  unfold getFieldOptions, try_catch at 1. rewrite Hd, Hf.
  rewrite (bind_ok _ _ _ _ _ Hs).
  cbn [truthy]. rewrite Hfields.
  unfold try_catch, field_options_failure, field_options_error.
  destruct (bind _ _ w1) as [[r | e |] w2]; try reflexivity.
  destruct (isAxiosError e); reflexivity.
Qed.

(** C10.  When the schema resolved for the document type has no field with
    the requested name, [getFieldOptions] does not return an empty sequence:
    it throws the structured error whose message names the document type and
    the field, "Error getting field options for <doctype>.<fieldname>:
    Field <fieldname> not found in DocType <doctype>" (should the schema
    hold a null in place of a field record, the detail after the colon is
    the engine's complaint instead). *)
Theorem getFieldOptions_unknown_field
    E doctype fieldname filters w schema w1 fields :
  is_empty doctype = false -> is_empty fieldname = false ->
  getDocTypeSchema E doctype w = (Ok schema, w1) ->
  get schema "fields" = JArr fields ->
  existsb (named fieldname) fields = false ->
  exists detail,
    getFieldOptions E doctype fieldname filters w
    = (Throw (field_options_error doctype fieldname detail), w1)
    /\ (existsb nullish fields = false ->
        detail = "Field " ++ fieldname ++ " not found in DocType " ++ doctype).
Proof.
  intros Hd Hf Hs Hfields Habsent.
  rewrite (getFieldOptions_with_schema _ _ _ _ _ _ _ _ Hd Hf Hs Hfields).
  unfold try_catch.
  destruct (find_field_absent (named fieldname) fields w1 Habsent)
    as [Hfind | (e & Hfind & Hnull)].
  - rewrite (bind_ok _ _ _ _ _ Hfind). cbn.
    eexists. split; [reflexivity | intros _; reflexivity].
  - rewrite (bind_throw _ _ _ _ _ Hfind).
    pose proof (find_field_throws_plain _ _ _ _ _ Hfind) as He.
    unfold throw, field_options_failure. rewrite He.
    eexists. split; [reflexivity|]. rewrite Hnull. discriminate.
Qed.

(** C10 at work: ToDo has no field [status]. *)
Lemma getFieldOptions_unknown_field_witness :
  getFieldOptions (env_site false) "ToDo" "status" None initial_world
  = (Throw (FrappeApiError
              "Error getting field options for ToDo.status: Field status not found in DocType ToDo"
              None None JUndefined),
     snd (getDocTypeSchema (env_site false) "ToDo" initial_world)).
Proof.
  destruct (getFieldOptions_unknown_field (env_site false) "ToDo" "status"
              None initial_world
              (schema_of_document "ToDo"
                 (JObj (doctype_info "ToDo" ++ [("fields", JArr todo_fields)])))
              (snd (getDocTypeSchema (env_site false) "ToDo" initial_world))
              todo_fields eq_refl eq_refl eq_refl eq_refl eq_refl)
    as (detail & H & Hdetail).
  rewrite H, (Hdetail eq_refl). reflexivity.
Defined.

(** Splitting at newlines loses nothing: joining the lines with newlines
    gives the text back. *)
Lemma split_not_nil c s : split c s <> [].
Proof.
  destruct s as [|a s]; cbn; [discriminate|].
  destruct (Ascii.eqb a c); [discriminate|].
  destruct (split c s); discriminate.
Qed.

Lemma join_cons sep x l :
  l <> [] -> join sep (x :: l) = (x ++ sep ++ join sep l)%string.
Proof. destruct l; [contradiction | reflexivity]. Qed.

Lemma join_split c s : join (String c "") (split c s) = s.
Proof.
  induction s as [|a s IH]; [reflexivity|].
  pose proof (split_not_nil c s) as Hne.
  cbn [split]. destruct (Ascii.eqb a c) eqn:Ha.
  - apply Ascii.eqb_eq in Ha. subst a.
    rewrite join_cons by exact Hne. rewrite IH. reflexivity.
  - destruct (split c s) as [|h t]; [contradiction|].
    destruct t as [|h' t'].
    + rewrite <- IH. reflexivity.
    + rewrite join_cons in * by discriminate. rewrite <- IH. reflexivity.
Qed.

(** C8, as the code has it.  For a Select field, [getFieldOptions] splits
    the options text at newlines, drops the lines that are blank once
    trimmed, and returns every remaining line, trimmed, as both value and
    label, in source order (no line is merged with another or removed for
    being equal to another).  For "Low\nMedium\n\nHigh" that is exactly
    Low, Medium, High. *)
Theorem getFieldOptions_select
    E doctype fieldname filters w schema w1 fields field options :
  is_empty doctype = false -> is_empty fieldname = false ->
  getDocTypeSchema E doctype w = (Ok schema, w1) ->
  get schema "fields" = JArr fields ->
  find_field (named fieldname) fields w1 = (Ok field, w1) ->
  get field "fieldtype" = JStr "Select" ->
  get field "options" = JStr options ->
  let lines :=
    filter (fun line => negb (trim line =? "")%string) (split LF options) in
  getFieldOptions E doctype fieldname filters w
  = (Ok (map (fun line => mkOption (JStr (trim line)) (JStr (trim line)))
           lines), w1)
  /\ join (String LF "") (split LF options) = options
  /\ (options = low_medium_high ->
      fst (getFieldOptions E doctype fieldname filters w)
      = Ok [mkOption (JStr "Low") (JStr "Low");
            mkOption (JStr "Medium") (JStr "Medium");
            mkOption (JStr "High") (JStr "High")]).
Proof.
  intros Hd Hf Hs Hfields Hfind Htype Hopt lines.
  assert (Hrun :
    getFieldOptions E doctype fieldname filters w
    = (Ok (map select_option (filter not_blank (split LF options))), w1)).
  { rewrite (getFieldOptions_with_schema _ _ _ _ _ _ _ _ Hd Hf Hs Hfields).
    unfold try_catch. rewrite (bind_ok _ _ _ _ _ Hfind).
    destruct field; cbn in Htype; try discriminate.
    cbn in Hopt. cbn. rewrite Htype, Hopt. cbn.
    destruct (options =? "")%string eqn:He; cbn; [|reflexivity].
    apply String.eqb_eq in He. subst options. reflexivity. }
  split; [exact Hrun|]. split; [apply join_split|].
  intros ->. rewrite Hrun. reflexivity.
Qed.

(** Lines that are equal are all returned, each in its place. *)
Example select_keeps_every_line :
  map select_option
    (filter not_blank (split LF ("Open" ++ String LF (" Open " ++ String LF "Closed"))))
  = [mkOption (JStr "Open") (JStr "Open");
     mkOption (JStr "Open") (JStr "Open");
     mkOption (JStr "Closed") (JStr "Closed")].
Proof. reflexivity. Qed.

(** C8 as stated fails: the options of [status] list Open twice, and Open
    is returned twice; the distinct lines are Open and Closed. *)
Lemma select_returns_equal_lines :
  let out := getFieldOptions (env_site true) "Issue" "status" None
               initial_world in
  nodup string_dec (filter not_blank (split LF open_open_closed))
  = ["Open"; "Closed"]
  /\ fst out
     = Ok [mkOption (JStr "Open") (JStr "Open");
           mkOption (JStr "Open") (JStr "Open");
           mkOption (JStr "Closed") (JStr "Closed")]
  /\ fst out
     <> Ok [mkOption (JStr "Open") (JStr "Open");
           mkOption (JStr "Closed") (JStr "Closed")].
Proof.
  vm_compute. repeat split. discriminate.
Qed.

(** C8 at work: the [priority] field of ToDo. *)
Lemma getFieldOptions_select_witness :
  getFieldOptions (env_site true) "ToDo" "priority" None initial_world
  = (Ok [mkOption (JStr "Low") (JStr "Low");
         mkOption (JStr "Medium") (JStr "Medium");
         mkOption (JStr "High") (JStr "High")],
     snd (getDocTypeSchema (env_site true) "ToDo" initial_world)).
Proof.
  exact (proj1
    (getFieldOptions_select (env_site true) "ToDo" "priority" None
       initial_world
       (match fst (getDocTypeSchema (env_site true) "ToDo" initial_world)
        with Ok schema => schema | _ => JNull end)
       (snd (getDocTypeSchema (env_site true) "ToDo" initial_world))
       _ _ low_medium_high
       eq_refl eq_refl eq_refl eq_refl eq_refl eq_refl eq_refl)).
Defined.

Lemma find_field_result p l w :
  (exists f, find_field p l w = (Ok f, w))
  \/ (exists e, find_field p l w = (Throw e, w)).
Proof.
  induction l as [|f l IH]; [left; eexists; reflexivity|].
  cbn. destruct f; try (right; eexists; reflexivity);
    (destruct (p _); [left; eexists; reflexivity | exact IH]).
Qed.

Lemma find_title_field_result linkedSchema w :
  (exists f, find_title_field linkedSchema w = (Ok f, w))
  \/ (exists e, find_title_field linkedSchema w = (Throw e, w)).
Proof.
  unfold find_title_field, prop.
  destruct linkedSchema; run; try (right; eexists; reflexivity).
  destruct (obj_get props "fields"); try (right; eexists; reflexivity).
  apply find_field_result.
Qed.










(** * Further properties *)

(** ** What a computation emits *)

Section Emits.

Context (R : Session -> Session -> Prop) (P : Call -> bool).
Hypothesis R_refl : forall s, R s s.
Hypothesis R_trans : forall s1 s2 s3, R s1 s2 -> R s2 s3 -> R s1 s3.

Lemma emits_ret {A} (a : A) : emits R P (ret a).
Proof.
  intros w. exists []. cbn. rewrite app_nil_r. auto.
Qed.

Lemma emits_throw {A} (e : Exn) : emits R P (@throw A e).
Proof.
  intros w. exists []. cbn. rewrite app_nil_r. auto.
Qed.

Lemma emits_sleep ms : emits R P (sleep ms).
Proof.
  intros w. exists [Slept (timer_delay ms)]. cbn. auto.
Qed.

Lemma emits_bind {A B} (m : M A) (k : A -> M B) :
  emits R P m -> (forall a, emits R P (k a)) -> emits R P (bind m k).
Proof.
  intros Hm Hk w. unfold bind.
  destruct (Hm w) as (e1 & T1 & F1 & S1).
  destruct (m w) as [[a | e |] w1]; cbn in *.
  - destruct (Hk a w1) as (e2 & T2 & F2 & S2).
    exists (e1 ++ e2)%list. rewrite T2, T1, app_assoc, forallb_app, F1, F2.
    eauto.
  - exists e1. auto.
  - exists e1. auto.
Qed.

Lemma emits_try_catch {A} (m : M A) (h : Exn -> M A) :
  emits R P m -> (forall e, emits R P (h e)) -> emits R P (try_catch m h).
Proof.
  intros Hm Hh w. unfold try_catch.
  destruct (Hm w) as (e1 & T1 & F1 & S1).
  destruct (m w) as [[a | e |] w1]; cbn in *.
  - exists e1. auto.
  - destruct (Hh e w1) as (e2 & T2 & F2 & S2).
    exists (e1 ++ e2)%list. rewrite T2, T1, app_assoc, forallb_app, F1, F2.
    eauto.
  - exists e1. auto.
Qed.

Lemma emits_call E c : P c = true -> emits R P (call_upstream E c).
Proof.
  intros Hc w. exists [Called c]. unfold call_upstream.
  destruct (answer E (trace w) c); cbn; rewrite Hc; auto.
Qed.

Lemma emits_getDocList E ch doctype args :
  P (GetDocList ch doctype args) = true ->
  emits R P (getDocList E ch doctype args).
Proof.
  intros Hc w. exists [Called (GetDocList ch doctype args)].
  unfold getDocList.
  destruct (answer_list E (trace w) _); cbn; rewrite Hc; auto.
Qed.

Lemma emits_prop v k : emits R P (prop v k).
Proof.
  destruct v; cbn; first [apply emits_ret | apply emits_throw].
Qed.

Lemma emits_handleApiError E {A} error operation :
  emits R P (@handleApiError E A error operation).
Proof.
  unfold handleApiError. destruct (isAxiosError error); apply emits_throw.
Qed.

Lemma emits_mapM {A B} (f : A -> M B) l :
  (forall a, emits R P (f a)) -> emits R P (mapM f l).
Proof.
  intros Hf. induction l as [|x l IH]; cbn [mapM].
  - apply emits_ret.
  - apply emits_bind; [apply Hf|]. intros y.
    apply emits_bind; [exact IH|]. intros ys. apply emits_ret.
Qed.

Lemma emits_find_field p l : emits R P (find_field p l).
Proof.
  induction l as [|f l IH]; cbn [find_field]; [apply emits_ret|].
  destruct f; try apply emits_throw;
    (destruct (p _); [apply emits_ret | exact IH]).
Qed.

End Emits.

(** The two relations on sessions in use are reflexive and transitive. *)
Ltac rel := solve [unfold keeps_session_ok; intros; subst; auto].

(** Taking a computation apart along its binds, handlers and branches. *)
Ltac emit_step :=
  first
    [ apply emits_ret; rel
    | apply emits_throw; rel
    | apply emits_sleep; rel
    | apply emits_prop; rel
    | apply emits_handleApiError; rel
    | apply emits_find_field; rel
    | apply emits_call; [ rel .. | reflexivity ]
    | apply emits_getDocList; [ rel .. | reflexivity ]
    | apply emits_bind; [ rel .. | | intros ? ]
    | apply emits_try_catch; [ rel .. | | intros ? ]
    | match goal with
      | |- emits _ _ (if ?c then _ else _) => destruct c
      | |- emits _ _ (match ?x with _ => _ end) => destruct x
      end ].

Ltac emit := repeat emit_step.

Section TokenOperations.

Context (E : Env).

Lemma emits_verification ch P suffix doctype values creationResponse :
  (forall c, channel_of c = Some ch -> P c = true) ->
  emits eq P (verification E ch suffix doctype values creationResponse).
Proof.
  intros HP.
  assert (Hc : forall c, channel_of c = Some ch ->
                         emits eq P (call_upstream E c))
    by (intros c Hc; apply emits_call; [rel | auto]).
  assert (Hl : forall d a, emits eq P (getDocList E ch d a))
    by (intros d a; apply emits_getDocList; [rel | auto]).
  unfold verification, getDoc, creation_filters.
  repeat first [ apply Hl | apply Hc; reflexivity | emit_step ].
Qed.

Lemma emits_create_loop doctype values maxRetries turns :
  forall attempt lastError,
  emits eq token_call
    (create_loop E doctype values maxRetries turns attempt lastError).
Proof.
  induction turns as [|k IH]; intros attempt lastError; cbn [create_loop].
  - emit.
  - apply emits_bind; [rel .. | | intros [v | e]; [emit | apply IH]].
    unfold create_attempt, createDoc, verifyDocumentCreation.
    repeat first [ apply emits_verification;
                   intros c Hc; unfold token_call; rewrite Hc; reflexivity
                 | emit_step ].
Qed.

Lemma emits_verifyDocumentCreation doctype values creationResponse :
  emits eq token_call
    (verifyDocumentCreation E doctype values creationResponse).
Proof.
  apply emits_verification.
  intros c Hc. unfold token_call. rewrite Hc. reflexivity.
Qed.

Lemma emits_getDocument doctype name :
  emits eq token_call (getDocument E doctype name).
Proof. unfold getDocument, getDoc. emit. Qed.

Lemma emits_getDocTypeSchema doctype :
  emits eq token_call (getDocTypeSchema E doctype).
Proof.
  unfold getDocTypeSchema, get_meta, schema_of_meta, described_fields.
  repeat first
    [ apply emits_getDocument
    | apply emits_mapM;
      [ rel ..
      | intros f; unfold field_descriptor; destruct f; emit ]
    | emit_step ].
Qed.

Lemma emits_getFieldOptions doctype fieldname filters :
  emits eq token_call (getFieldOptions E doctype fieldname filters).
Proof.
  unfold getFieldOptions, link_options, find_title_field, select_options.
  repeat first [ apply emits_getDocTypeSchema | emit_step ].
Qed.

(** X1.  The operations on the token client never log in, never call through
    the password client and leave the session as it was: every event they
    add to the trace is a wait or a call through the token client. *)
Theorem token_operations_stay_on_the_token_client :
  (forall doctype values creationResponse,
     emits eq token_call
       (verifyDocumentCreation E doctype values creationResponse))
  /\ (forall doctype values maxRetries,
        emits eq token_call
          (createDocumentWithRetry E doctype values maxRetries))
  /\ (forall doctype values,
        emits eq token_call (createDocumentTransactional E doctype values))
  /\ (forall doctype name, emits eq token_call (getDocument E doctype name))
  /\ (forall doctype values,
        emits eq token_call (createDocument E doctype values))
  /\ (forall doctype name values,
        emits eq token_call (updateDocument E doctype name values))
  /\ (forall doctype name,
        emits eq token_call (deleteDocument E doctype name))
  /\ (forall doctype filters fields limit order_by limit_start,
        emits eq token_call
          (listDocuments E doctype filters fields limit order_by limit_start))
  /\ (forall method params, emits eq token_call (callMethod E method params))
  /\ (forall doctype, emits eq token_call (getDocTypeSchema E doctype))
  /\ (forall doctype fieldname filters,
        emits eq token_call (getFieldOptions E doctype fieldname filters))
  /\ emits eq token_call (getAllDocTypes E)
  /\ emits eq token_call (getAllModules E).
Proof.
  assert (Hretry : forall doctype values maxRetries,
            emits eq token_call
              (createDocumentWithRetry E doctype values maxRetries))
    by (intros; apply emits_create_loop).
  repeat split; intros.
  - apply emits_verifyDocumentCreation.
  - apply Hretry.
  - unfold createDocumentTransactional, logOperation.
    repeat first [ apply Hretry | apply emits_verifyDocumentCreation
                 | emit_step ].
  - apply emits_getDocument.
  - unfold createDocument, createDoc.
    repeat first [ apply emits_verifyDocumentCreation | emit_step ].
  - unfold updateDocument, updateDoc. emit.
  - unfold deleteDocument, deleteDoc. emit.
  - unfold listDocuments. emit.
  - unfold callMethod. emit.
  - apply emits_getDocTypeSchema.
  - apply emits_getFieldOptions.
  - unfold getAllDocTypes. emit.
  - unfold getAllModules. emit.
Qed.

End TokenOperations.

(** ** The password client *)

Ltac unfold_authenticate :=
  unfold authenticateWithPassword, wait_for_authentication, now, get_session,
    try_finally, try_catch, set_isAuthenticated, set_lastAuthAttempt,
    set_authenticationInProgress, bind, ret, call_upstream, configured.

Lemma authenticateWithPassword_returns E w :
  authenticationInProgress (session w) = false ->
  exists b w',
    authenticateWithPassword E w = (Ok b, w')
    /\ isAuthenticated (session w') = b
    /\ authenticationInProgress (session w') = false
    /\ (trace w' = trace w
        \/ exists username password,
             FRAPPE_USERNAME E = Some username
             /\ FRAPPE_PASSWORD E = Some password
             /\ trace w' = (trace w ++ [Called (Login username password)])%list)
    /\ (lastAuthAttempt (session w') = lastAuthAttempt (session w)
        \/ (b = true
            /\ lastAuthAttempt (session w') = Date_now E (trace w))).
Proof.
  unfold_authenticate.
  destruct w as [tr [auth prog last]]. cbn. intros ->.
  destruct (FRAPPE_USERNAME E) as [u|], (FRAPPE_PASSWORD E) as [p|]; cbn.
  - destruct auth, (u =? "")%string, (p =? "")%string,
      (Date_now E tr - last <? 1800000); cbn.
    all: try (do 2 eexists; repeat split; auto; fail).
    all: destruct (answer E tr (Login u p)); cbn.
    all: do 2 eexists; repeat split; eauto 7.
  - destruct auth, (u =? "")%string, (Date_now E tr - last <? 1800000); cbn.
    all: do 2 eexists; repeat split; auto.
  - destruct auth, (p =? "")%string, (Date_now E tr - last <? 1800000); cbn.
    all: do 2 eexists; repeat split; auto.
  - destruct auth, (Date_now E tr - last <? 1800000); cbn.
    all: do 2 eexists; repeat split; auto.
Qed.

(** X2.  A call of [authenticateWithPassword] that finds no attempt in
    flight never throws: it answers a boolean, and that boolean is the
    session's authenticated mark afterwards.  It leaves no attempt marked in
    flight, makes no call or exactly one login call with the configured
    user name and password, and the time of the last success either stays
    or, when the answer is [true], becomes the time read at entry. *)
Theorem authenticateWithPassword_outcome E w :
  authenticationInProgress (session w) = false ->
  exists b w',
    authenticateWithPassword E w = (Ok b, w')
    /\ isAuthenticated (session w') = b
    /\ authenticationInProgress (session w') = false
    /\ (trace w' = trace w
        \/ exists username password,
             FRAPPE_USERNAME E = Some username
             /\ FRAPPE_PASSWORD E = Some password
             /\ trace w' = (trace w ++ [Called (Login username password)])%list)
    /\ (lastAuthAttempt (session w') = lastAuthAttempt (session w)
        \/ (b = true
            /\ lastAuthAttempt (session w') = Date_now E (trace w))).
Proof. apply authenticateWithPassword_returns. Qed.

(** X2 at work: the first login on a platform that accepts it. *)
Lemma authenticateWithPassword_outcome_witness :
  authenticationInProgress (session initial_world) = false
  /\ exists w',
       authenticateWithPassword env_accepting initial_world = (Ok true, w')
       /\ isAuthenticated (session w') = true.
Proof.
  split; [reflexivity|].
  destruct (authenticateWithPassword_outcome env_accepting initial_world
              eq_refl) as (b & w' & Hrun & Hmark & _).
  exists w'. cbn in Hrun. injection Hrun as <- <-. split; reflexivity.
Defined.

Lemma authenticateWithPassword_waits E w :
  authenticationInProgress (session w) = true ->
  authenticateWithPassword E w = (Hang, w).
Proof.
  unfold_authenticate. intros ->. reflexivity.
Qed.

Lemma emits_authenticateWithPassword E :
  emits (keeps_session_ok E) password_call (authenticateWithPassword E).
Proof.
  intros w. unfold keeps_session_ok, session_ok, credentials.
  unfold_authenticate.
  destruct w as [tr [auth prog last]]. cbn.
  destruct prog; cbn; [exists []; rewrite app_nil_r; auto|].
  destruct (FRAPPE_USERNAME E) as [u|], (FRAPPE_PASSWORD E) as [p|]; cbn.
  - destruct auth, (u =? "")%string, (p =? "")%string,
      (Date_now E tr - last <? 1800000); cbn.
    all: try (exists []; rewrite app_nil_r; auto; fail).
    all: destruct (answer E tr (Login u p)); cbn.
    all: exists [Called (Login u p)]; auto.
  - destruct auth, (u =? "")%string, (Date_now E tr - last <? 1800000); cbn.
    all: exists []; rewrite app_nil_r; auto.
  - destruct auth, (p =? "")%string, (Date_now E tr - last <? 1800000); cbn.
    all: exists []; rewrite app_nil_r; auto.
  - destruct auth, (Date_now E tr - last <? 1800000); cbn.
    all: exists []; rewrite app_nil_r; auto.
Qed.

Lemma emits_ensure_authenticated E :
  emits (keeps_session_ok E) password_call (ensure_authenticated E).
Proof.
  unfold ensure_authenticated.
  repeat first [ apply emits_authenticateWithPassword | emit_step ].
Qed.

Lemma emits_weaken (R R' : Session -> Session -> Prop) (P P' : Call -> bool)
    {A} (m : M A) :
  (forall s s', R s s' -> R' s s') ->
  (forall c, P c = true -> P' c = true) ->
  emits R P m -> emits R' P' m.
Proof.
  intros HR HP Hm w. destruct (Hm w) as (evs & T & F & S).
  exists evs. split; [exact T|]. split; [|auto].
  rewrite forallb_forall in *. intros [c|ms] Hin; [|reflexivity].
  apply HP. exact (F _ Hin).
Qed.

(** X3.  The operations on the password client never call through the token
    client: every event they add is a wait, a login or a call through the
    password client, the verification after [createDocumentWithAuth]
    included.  They keep the session invariant (no attempt left in flight,
    no authenticated mark without credentials). *)
Theorem password_operations_stay_on_the_password_client E :
  emits (keeps_session_ok E) password_call (authenticateWithPassword E)
  /\ (forall doctype name,
        emits (keeps_session_ok E) password_call
          (getDocumentWithAuth E doctype name))
  /\ (forall doctype values,
        emits (keeps_session_ok E) password_call
          (createDocumentWithAuth E doctype values))
  /\ (forall doctype name values,
        emits (keeps_session_ok E) password_call
          (updateDocumentWithAuth E doctype name values))
  /\ (forall doctype name,
        emits (keeps_session_ok E) password_call
          (deleteDocumentWithAuth E doctype name))
  /\ (forall doctype filters fields limit order_by limit_start,
        emits (keeps_session_ok E) password_call
          (listDocumentsWithAuth E doctype filters fields limit order_by
             limit_start)).
Proof.
  repeat split; intros.
  - apply emits_authenticateWithPassword.
  - unfold getDocumentWithAuth, getDoc.
    repeat first [ apply emits_ensure_authenticated | emit_step ].
  - unfold createDocumentWithAuth, createDoc.
    repeat first
      [ apply emits_ensure_authenticated
      | apply (emits_weaken eq (keeps_session_ok E) password_call
                 password_call);
        [ intros ? ? ->; unfold keeps_session_ok; auto
        | auto
        | apply emits_verification; intros c Hc; unfold password_call;
          rewrite Hc; reflexivity ]
      | emit_step ].
  - unfold updateDocumentWithAuth, updateDoc.
    repeat first [ apply emits_ensure_authenticated | emit_step ].
  - unfold deleteDocumentWithAuth, deleteDoc.
    repeat first [ apply emits_ensure_authenticated | emit_step ].
  - unfold listDocumentsWithAuth.
    repeat first [ apply emits_ensure_authenticated | emit_step ].
Qed.

(** X4.  When the authentication answers [false], an operation on the
    password client whose arguments passed validation throws the translated
    error "Failed to authenticate with username/password" and calls nothing
    more: the world is the one the authentication left. *)
Theorem unauthenticated_password_operations_call_nothing
    E doctype name values filters fields limit order_by limit_start w w1 :
  is_empty doctype = false -> is_empty name = false ->
  no_keys values = false ->
  authenticateWithPassword E w = (Ok false, w1) ->
  let what := "Failed to authenticate with username/password" in
  getDocumentWithAuth E doctype name w
  = rejected w1 ("get_document_with_auth(" ++ doctype ++ ", " ++ name ++ ")")
      what
  /\ createDocumentWithAuth E doctype values w
     = rejected w1 ("create_document_with_auth(" ++ doctype ++ ")") what
  /\ updateDocumentWithAuth E doctype name values w
     = rejected w1
         ("update_document_with_auth(" ++ doctype ++ ", " ++ name ++ ")") what
  /\ deleteDocumentWithAuth E doctype name w
     = rejected w1
         ("delete_document_with_auth(" ++ doctype ++ ", " ++ name ++ ")") what
  /\ fst (listDocumentsWithAuth E doctype filters fields limit order_by
            limit_start w)
     = Throw (translated ("list_documents_with_auth(" ++ doctype ++ ")") what)
  /\ snd (listDocumentsWithAuth E doctype filters fields limit order_by
            limit_start w) = w1.
Proof.
  intros Hd Hn Hv Ha what.
  assert (He : ensure_authenticated E w
               = (Throw (PlainError what), w1)).
  { unfold ensure_authenticated. rewrite (bind_ok _ _ _ _ _ Ha). reflexivity. }
  unfold getDocumentWithAuth, createDocumentWithAuth, updateDocumentWithAuth,
    deleteDocumentWithAuth, listDocumentsWithAuth, try_catch.
  rewrite Hd, Hn, Hv, !(bind_throw _ _ _ _ _ He).
  repeat split.
Qed.

(** X4 at work: the platform rejects the login. *)
Lemma unauthenticated_password_operations_call_nothing_witness :
  getDocumentWithAuth env_rejecting "ToDo" "TODO-0001" initial_world
  = (Throw (FrappeApiError
              "Error during get_document_with_auth(ToDo, TODO-0001): Failed to authenticate with username/password"
              None None JUndefined),
     mkWorld [Called (Login "Administrator" "secret")] initial_session).
Proof.
  exact (proj1
    (unauthenticated_password_operations_call_nothing env_rejecting
       "ToDo" "TODO-0001" [("status", JStr "Closed")] None None None None None
       initial_world
       (mkWorld [Called (Login "Administrator" "secret")] initial_session)
       eq_refl eq_refl eq_refl eq_refl)).
Defined.

(** ** Errors that reach the caller *)

Lemma fromAxiosError_structured E error operation :
  is_FrappeApiError (fromAxiosError E error operation) = true.
Proof.
  unfold fromAxiosError.
  repeat match goal with
         | |- context [let '(_, _) := ?x in _] => destruct x
         | |- context [match ?x with _ => _ end] => destruct x
         end; reflexivity.
Qed.

Lemma handled_is_structured E {A} (m : M A) operation w :
  structured
    (try_catch m (fun error => handleApiError E error operation) w).
Proof.
  unfold structured, try_catch, handleApiError.
  destruct (m w) as [[a | e |] w1]; cbn; auto.
  destruct (isAxiosError e); cbn; [apply fromAxiosError_structured | auto].
Qed.

(** X5.  No raw error escapes an exported operation of the main module:
    whatever the arguments and whatever the upstream does, an operation that
    throws, throws a [FrappeApiError]. *)
Theorem exported_operations_throw_structured_errors
    E doctype (name : string) fieldname method values params filters fields
    limit order_by limit_start w :
  structured (getDocument E doctype name w)
  /\ structured (getDocumentWithAuth E doctype name w)
  /\ structured (createDocument E doctype values w)
  /\ structured (createDocumentWithAuth E doctype values w)
  /\ structured (updateDocument E doctype name values w)
  /\ structured (updateDocumentWithAuth E doctype name values w)
  /\ structured (deleteDocument E doctype name w)
  /\ structured (deleteDocumentWithAuth E doctype name w)
  /\ structured
       (listDocuments E doctype filters fields limit order_by limit_start w)
  /\ structured
       (listDocumentsWithAuth E doctype filters fields limit order_by
          limit_start w)
  /\ structured (callMethod E method params w)
  /\ structured (getDocTypeSchema E doctype w)
  /\ structured (getFieldOptions E doctype fieldname filters w)
  /\ structured (getAllDocTypes E w)
  /\ structured (getAllModules E w).
Proof.
  repeat split; try apply handled_is_structured.
  unfold structured, getFieldOptions, try_catch.
  match goal with
  | |- context [match ?m w with _ => _ end] =>
      destruct (m w) as [[a | e |] w1]
  end; cbn; auto.
  destruct (isAxiosError e); cbn; [apply fromAxiosError_structured | auto].
Qed.

(** X6.  The error [handleApiError] raises always names the operation: its
    message reads "<kind> during <operation>: <detail>".  For a transport
    error the status code is the response's and the endpoint is the request
    URL, or "unknown" without one; an upstream exception text, when there is
    one, is the detail whatever else the response carries; without response
    data the detail is the transport message and the details are [null].
    For any other error the kind is "Error", the detail is the error's
    message, and there is no status, endpoint or details. *)
Theorem handleApiError_names_the_operation E error operation w :
  exists kind detail status endpoint details,
    @handleApiError E JS error operation w
    = (Throw (FrappeApiError (kind ++ " during " ++ operation ++ ": " ++ detail)
                status endpoint details), w)
    /\ In kind ["Error"; "Frappe API error"; "Frappe exception";
                "Frappe server message"]
    /\ match error with
       | AxiosError emsg st url data =>
           status = st
           /\ endpoint = Some (endpoint_of url)
           /\ (truthy data = true -> truthy (get data "exception") = true ->
               kind = "Frappe exception"
               /\ detail = to_str (get data "exception")
               /\ details = data)
           /\ (truthy data = false ->
               kind = "Frappe API error" /\ detail = emsg
               /\ details = JNull)
       | _ =>
           kind = "Error" /\ detail = exn_message error
           /\ status = None /\ endpoint = None /\ details = JUndefined
       end.
Proof.
  unfold handleApiError, throw. destruct error as [m | m st url data | m st ep d];
    cbn [isAxiosError].
  - exists "Error", m, None, None, JUndefined. cbn. intuition.
  - unfold fromAxiosError, endpoint_of.
    destruct (truthy data) eqn:Hdata.
    + destruct (truthy (get data "exception")) eqn:Hex.
      * exists "Frappe exception", (to_str (get data "exception")), st.
        do 2 eexists. split; [reflexivity|]. cbn. intuition; discriminate.
      * destruct (truthy (get data "_server_messages")) eqn:Hsm.
        -- destruct (parsed_server_messages E (get data "_server_messages"))
             as [parsed|];
             [destruct (message_or_self parsed) as [shown|] |].
           all: exists "Frappe server message"; do 4 eexists;
             (split; [reflexivity|]); cbn; intuition; discriminate.
        -- destruct (truthy (get data "message")).
           all: exists "Frappe API error"; do 4 eexists;
             (split; [reflexivity|]); cbn; intuition; discriminate.
    + exists "Frappe API error", m, st. do 2 eexists.
      split; [reflexivity|]. cbn. intuition; discriminate.
  - exists "Error", m, None, None, JUndefined. cbn. intuition.
Qed.

(** ** What a verified creation means *)

Lemma verification_sound E ch suffix doctype values creationResponse w r w' :
  verification E ch suffix doctype values creationResponse w = (Ok r, w') ->
  success r = true ->
  exists o,
    creationResponse = JObj o
    /\ truthy (obj_get o "name") = true
    /\ confirmed_upstream E ch doctype (obj_get o "name") w.
Proof.
  unfold verification, prop, creation_filters, confirmed_upstream.
  destruct creationResponse; run.
  all: repeat (inspect; run).
  all: intros H Hs; injection H as <- <-; cbn in Hs; try discriminate.
  all: eexists; split; [reflexivity|].
  all: match goal with
       | Hn : negb (truthy ?n) = false |- _ =>
           apply negb_false_iff in Hn; split; [exact Hn|]
       end.
  all: try match goal with
       | Hf : truthy ?d && strict_eq _ _ = true |- _ =>
           apply andb_prop in Hf as [? ?]; left; eauto; fail
       end.
  all: right; unfold verification_query; eauto.
Qed.

Lemma obj_get_set_same o k v : obj_get (obj_set o k v) k = v.
Proof.
  induction o as [|[k' v'] o IH]; cbn.
  - rewrite String.eqb_refl. reflexivity.
  - destruct (k' =? k)%string eqn:Hk; cbn.
    + rewrite String.eqb_refl. reflexivity.
    + rewrite Hk. exact IH.
Qed.

Lemma obj_get_set_other o k v k0 :
  k0 <> k -> obj_get (obj_set o k v) k0 = obj_get o k0.
Proof.
  intros Hne. induction o as [|[k' v'] o IH]; cbn.
  - destruct (k =? k0)%string eqn:Hk; [|reflexivity].
    apply String.eqb_eq in Hk. congruence.
  - destruct (k' =? k)%string eqn:Hk; cbn.
    + apply String.eqb_eq in Hk. subst k'.
      destruct (k =? k0)%string eqn:Hk0; [|reflexivity].
      apply String.eqb_eq in Hk0. congruence.
    + destruct (k' =? k0)%string; [reflexivity | exact IH].
Qed.

(** X7.  [verifyDocumentCreation] reports success only on evidence from
    upstream: the creation response is an object with a truthy name, and a
    document of exactly that name came back from the direct fetch or from
    the list query.  Nothing in the submitted values can produce a success
    on its own. *)
Theorem verifyDocumentCreation_success_is_evidence
    E doctype values creationResponse w report w' :
  verifyDocumentCreation E doctype values creationResponse w
  = (Ok report, w') ->
  success report = true ->
  exists o,
    creationResponse = JObj o
    /\ truthy (obj_get o "name") = true
    /\ confirmed_upstream E TokenChannel doctype (obj_get o "name") w.
Proof.
  apply verification_sound.
Qed.

(** X7 at work: the direct fetch confirms TODO-0001. *)
Lemma verifyDocumentCreation_success_is_evidence_witness :
  confirmed_upstream (env_todo true) TokenChannel "ToDo" (JStr "TODO-0001")
    initial_world.
Proof.
  destruct (verifyDocumentCreation_success_is_evidence (env_todo true) "ToDo"
              [("description", JStr "Call the supplier")]
              (JObj [("name", JStr "TODO-0001")]) initial_world
              (mkReport true "Document verified by direct fetch")
              (mkWorld [Called (GetDoc TokenChannel "ToDo" (JStr "TODO-0001"))]
                 initial_session)
              eq_refl eq_refl) as (o & Ho & _ & Hc).
  injection Ho as <-. exact Hc.
Defined.

(** ** The retry loop for any number of attempts *)

(** Up to the 22nd attempt the timer takes the delay as computed. *)
Lemma timer_delay_backoff attempt :
  1 <= attempt <= 22 -> timer_delay (backoff attempt) = backoff attempt.
Proof.
  intros Ha. unfold timer_delay, backoff, TIMEOUT_MAX.
  assert (H1 : 0 < 2 ^ (attempt - 1)) by (apply Z.pow_pos_nonneg; lia).
  assert (H2 : 2 ^ (attempt - 1) <= 2 ^ 21)
    by (apply Z.pow_le_mono_r; lia).
  change (2 ^ 21) with 2097152 in H2. change (2 ^ 31 - 1) with 2147483647.
  destruct (1 <=? 2 ^ (attempt - 1) * 1000) eqn:Hlo;
    [| apply Z.leb_gt in Hlo; lia].
  destruct (2 ^ (attempt - 1) * 1000 <=? 2147483647) eqn:Hhi;
    [reflexivity | apply Z.leb_gt in Hhi; lia].
Qed.

Lemma schedule_total k : forall attempt,
  1 <= attempt -> attempt + Z.of_nat k <= 23 ->
  fold_right Z.add 0 (schedule attempt k)
  = 2 ^ (attempt - 1) * (2 ^ Z.of_nat k - 1) * 1000.
Proof.
  induction k as [|k IH]; intros attempt Ha Hk.
  - cbn [schedule fold_right]. change (Z.of_nat 0) with 0.
    rewrite Z.pow_0_r. ring.
  - cbn [schedule fold_right].
    rewrite IH, timer_delay_backoff by lia. unfold backoff.
    replace (attempt + 1 - 1) with (Z.succ (attempt - 1)) by lia.
    rewrite Nat2Z.inj_succ, !Z.pow_succ_r by lia. ring.
Qed.

(** X8.  For a whole [maxRetries] of at most 22 (as far as the timer takes
    the delays computed), [createDocumentWithRetry] makes at most that many
    create attempts and none at all when [maxRetries] is zero or negative,
    where it throws "Failed to create document after <maxRetries> attempts"
    at once.  After [k] failed attempts it has waited (2^k - 1) seconds in
    all; when every attempt fails, that is (2^maxRetries - 1) seconds before
    the last error is thrown. *)
Theorem createDocumentWithRetry_budget E doctype values maxRetries w :
  - 9007199254740992 <= maxRetries <= 22 ->
  exists r evs w',
    createDocumentWithRetry E doctype values maxRetries w = (r, w')
    /\ after w evs w'
    /\ (create_attempts evs <= Z.to_nat maxRetries)%nat
    /\ match r with
       | Ok _ =>
           exists failed,
             (failed < Z.to_nat maxRetries)%nat
             /\ create_attempts evs = S failed
             /\ total_delay evs = (2 ^ Z.of_nat failed - 1) * 1000
       | Throw e =>
           create_attempts evs = Z.to_nat maxRetries
           /\ total_delay evs = (2 ^ Z.of_nat (Z.to_nat maxRetries) - 1) * 1000
           /\ (maxRetries <= 0 ->
               evs = []
               /\ e = PlainError ("Failed to create document after "
                                    ++ number_text maxRetries ++ " attempts"))
       | Hang => False
       end.
Proof.
  intros Hmax. unfold createDocumentWithRetry.
  assert (Hgen : forall turns attempt lastError w0,
    exists r evs w',
      create_loop E doctype values maxRetries turns attempt lastError w0
      = (r, w')
      /\ after w0 evs w'
      /\ (create_attempts evs <= turns)%nat
      /\ match r with
         | Ok _ =>
             exists failed,
               (failed < turns)%nat
               /\ create_attempts evs = S failed
               /\ delays evs = schedule attempt failed
         | Throw e =>
             create_attempts evs = turns
             /\ delays evs = schedule attempt turns
             /\ (turns = O ->
                 evs = [] /\ e = exhausted maxRetries lastError)
         | Hang => False
         end).
  { induction turns as [|k IH]; intros attempt lastError w0.
    - exists (Throw (exhausted maxRetries lastError)), [], w0.
      split; [destruct lastError; reflexivity|].
      split; [apply after_refl|]. split; [apply Nat.le_refl|].
      repeat split.
    - destruct (create_attempt_step E doctype values attempt w0)
        as (step & evs1 & w1 & Hstep & Haft1 & Hn1 & Hkind).
      cbn [create_loop]. unfold bind at 1. rewrite Hstep.
      destruct step as [v | e1].
      + exists (Ok v), evs1, w1.
        split; [reflexivity|]. split; [exact Haft1|].
        split; [rewrite Hn1; apply le_n_S, Nat.le_0_l|].
        exists 0%nat. split; [apply Nat.lt_0_succ|]. split; assumption.
      + destruct Hkind as [Hd1 _].
        destruct (IH (attempt + 1) (Some e1) w1)
          as (r & evs2 & w2 & Hloop & Haft2 & Hle & Hr).
        exists r, (evs1 ++ evs2)%list, w2.
        split; [exact Hloop|].
        split; [eapply after_trans; eassumption|].
        split; [rewrite create_attempts_app, Hn1; apply le_n_S, Hle|].
        destruct r as [v | e |]; [ | | exact Hr].
        * destruct Hr as (failed & Hlt & Hn2 & Hd2).
          exists (S failed). split; [apply -> Nat.succ_lt_mono; exact Hlt|].
          split; [rewrite create_attempts_app, Hn1, Hn2; reflexivity|].
          rewrite delays_app, Hd1, Hd2. reflexivity.
        * destruct Hr as (Hn2 & Hd2 & _).
          split; [rewrite create_attempts_app, Hn1, Hn2; reflexivity|].
          split; [rewrite delays_app, Hd1, Hd2; reflexivity|].
          discriminate. }
  destruct (Hgen (Z.to_nat maxRetries) 1 None w)
    as (r & evs & w' & Hloop & Haft & Hle & Hr).
  exists r, evs, w'. split; [exact Hloop|]. split; [exact Haft|].
  split; [exact Hle|].
  destruct r as [v | e |]; [ | | exact Hr].
  - destruct Hr as (failed & Hlt & Hn & Hd).
    exists failed. split; [exact Hlt|]. split; [exact Hn|].
    unfold total_delay. rewrite Hd, schedule_total by lia.
    change (1 - 1) with 0. rewrite Z.pow_0_r. ring.
  - destruct Hr as (Hn & Hd & Hzero).
    split; [exact Hn|]. split.
    + unfold total_delay. rewrite Hd, schedule_total by lia.
      change (1 - 1) with 0. rewrite Z.pow_0_r. ring.
    + intros Hneg. apply Hzero. lia.
Qed.

(** X8 at work: five attempts against an upstream that is down take 31
    seconds of waiting. *)
Lemma createDocumentWithRetry_budget_witness :
  exists evs w',
    createDocumentWithRetry env_down "ToDo"
      [("description", JStr "Call the supplier")] 5 initial_world
    = (Throw (PlainError "connect ECONNREFUSED"), w')
    /\ after initial_world evs w'
    /\ create_attempts evs = 5%nat
    /\ total_delay evs = 31000.
Proof.
  destruct (createDocumentWithRetry_budget env_down "ToDo"
              [("description", JStr "Call the supplier")] 5 initial_world)
    as (r & evs & w' & Hrun & Haft & _ & Hr); [lia|].
  vm_compute in Hrun. injection Hrun as <- <-.
  exists evs. eexists. split; [reflexivity|]. split; [exact Haft|].
  destruct Hr as (Hn & Hd & _). split; [exact Hn | exact Hd].
Defined.

Lemma create_attempt_success E doctype values attempt w value w' :
  create_attempt E doctype values attempt w = (Ok (inl value), w') ->
  exists result report w0,
    verifyDocumentCreation E doctype values result w0 = (Ok report, w')
    /\ success report = true
    /\ value = with_verification result report.
Proof.
  unfold create_attempt. run.
  destruct (answer E (trace w) (CreateDoc TokenChannel doctype values))
    as [e | result]; cbn; [discriminate|].
  destruct (verification_reports E TokenChannel "" doctype values result
              (record (Called (CreateDoc TokenChannel doctype values)) w))
    as (r & evs & w1 & Hv & _).
  fold (verifyDocumentCreation E doctype values result) in Hv.
  rewrite Hv. destruct (success r) eqn:Hs; cbn; [|discriminate].
  intros H. injection H as <- <-.
  exists result, r,
    (record (Called (CreateDoc TokenChannel doctype values)) w).
  split; [exact Hv|]. auto.
Qed.

Lemma create_loop_success E doctype values maxRetries turns :
  forall attempt lastError w value w',
  create_loop E doctype values maxRetries turns attempt lastError w
  = (Ok value, w') ->
  exists result report w0,
    verifyDocumentCreation E doctype values result w0 = (Ok report, w')
    /\ success report = true
    /\ value = with_verification result report.
Proof.
  induction turns as [|k IH]; intros attempt lastError w value w' H.
  - cbn in H. destruct lastError; discriminate.
  - cbn [create_loop] in H. unfold bind in H.
    destruct (create_attempt E doctype values attempt w)
      as [[[v | e] | e |] w1] eqn:Hstep; try discriminate.
    + injection H as <- <-. eapply create_attempt_success, Hstep.
    + eapply IH, H.
Qed.

(** A value the loop returns comes from an attempt of this run that
    succeeded. *)
Lemma create_loop_returns E doctype values maxRetries turns :
  forall attempt lastError w value w',
  create_loop E doctype values maxRetries turns attempt lastError w
  = (Ok value, w') ->
  exists pre w0,
    after w pre w0
    /\ (create_attempts pre < turns)%nat
    /\ attempt_succeeds E doctype values w0 value w'.
Proof.
  induction turns as [|k IH]; intros attempt lastError w value w' H.
  - cbn in H. destruct lastError; discriminate.
  - cbn [create_loop] in H.
    destruct (create_attempt_step E doctype values attempt w)
      as (step & evs1 & w1 & Hstep & Haft1 & Hn1 & _).
    rewrite (bind_ok _ _ _ _ _ Hstep) in H.
    destruct step as [v | e1].
    + injection H as <- <-. exists [], w.
      split; [apply after_refl|]. split; [apply Nat.lt_0_succ|].
      destruct (create_attempt_outcome E doctype values attempt w)
        as [(v' & w2 & Hok & Hrun) | (e & w2 & _ & Hrun)];
        rewrite Hrun in Hstep; [|discriminate].
      injection Hstep as <- <-. exact Hok.
    + destruct (IH _ _ _ _ _ H) as (pre & w0 & Hpre & Hlt & Hok).
      exists (evs1 ++ pre)%list, w0.
      split; [eapply after_trans; eassumption|].
      split; [|exact Hok].
      rewrite create_attempts_app, Hn1. apply -> Nat.succ_lt_mono. exact Hlt.
Qed.

(** X9.  What [createDocumentWithRetry] returns is always a verified
    document of this run.  After fewer than [maxRetries] earlier attempts
    the function made a create call that upstream answered with an object;
    the verification that followed that call is the last thing the run did,
    and it reported success; the value returned is that object with the
    report under [_verification] ([success: true]) and its other properties
    untouched.  In particular it has a truthy [name], and upstream returned
    a document of that name to that verification. *)
Theorem createDocumentWithRetry_returns_verified
    E doctype values maxRetries w value w' :
  createDocumentWithRetry E doctype values maxRetries w = (Ok value, w') ->
  let create := CreateDoc TokenChannel doctype values in
  exists pre w0 o report post,
    after w pre w0
    /\ (create_attempts pre < Z.to_nat maxRetries)%nat
    /\ answer E (trace w0) create = inr (JObj o)
    /\ verifyDocumentCreation E doctype values (JObj o)
         (record (Called create) w0) = (Ok report, w')
    /\ after w (pre ++ Called create :: post)%list w'
    /\ create_attempts post = 0%nat
    /\ success report = true
    /\ value = JObj (obj_set o "_verification" (Report_js report))
    /\ get value "_verification" = Report_js report
    /\ (forall k, k <> "_verification" -> get value k = obj_get o k)
    /\ truthy (get value "name") = true
    /\ confirmed_upstream E TokenChannel doctype (obj_get o "name")
         (record (Called create) w0).
Proof.
  intros H create. unfold createDocumentWithRetry in H.
  destruct (create_loop_returns _ _ _ _ _ _ _ _ _ _ H)
    as (pre & w0 & Hpre & Hlt & result & report & Hc & Hv & Hs & ->).
  fold create in Hc, Hv.
  destruct (verification_sound _ _ _ _ _ _ _ _ _ Hv Hs)
    as (o & -> & Hname & Hev).
  destruct (verification_reports E TokenChannel "" doctype values (JObj o)
              (record (Called create) w0))
    as (r & post & w2 & Hv2 & [Ht Hsess] & _ & Hn).
  fold (verifyDocumentCreation E doctype values (JObj o)) in Hv2.
  rewrite Hv in Hv2. injection Hv2 as <- <-.
  exists pre, w0, o, report, post. unfold with_verification, spread, get.
  split; [exact Hpre|]. split; [exact Hlt|]. split; [exact Hc|].
  split; [exact Hv|]. split.
  { destruct Hpre as [Tpre Spre]. split.
    - rewrite Ht. cbn. rewrite Tpre, <- !app_assoc. reflexivity.
    - rewrite Hsess. exact Spre. }
  split; [exact Hn|]. split; [exact Hs|]. split; [reflexivity|].
  split; [apply obj_get_set_same|].
  split; [intros k Hk; apply obj_get_set_other, Hk|].
  split; [|exact Hev].
  rewrite obj_get_set_other by discriminate. exact Hname.
Qed.

(** X9 at work: the first attempt on the ToDo site is verified. *)
Lemma createDocumentWithRetry_returns_verified_witness :
  exists value w',
    createDocumentWithRetry env_created "ToDo"
      [("description", JStr "Call the supplier")] 3 initial_world
    = (Ok value, w')
    /\ truthy (get value "name") = true
    /\ exists document,
         In (Called (CreateDoc TokenChannel "ToDo"
                       [("description", JStr "Call the supplier")]))
            (trace w')
         /\ value = with_verification document
                      (mkReport true "Document verified by direct fetch").
Proof.
  do 2 eexists. split; [reflexivity|].
  destruct (createDocumentWithRetry_returns_verified env_created "ToDo"
              [("description", JStr "Call the supplier")] 3 initial_world
              _ _ eq_refl)
    as (pre & w0 & o & r & post & _ & _ & _ & _ & [Ht _] & _ & _ & _ & _ & _
        & Hname & _).
  split; [exact Hname|].
  eexists. split; [|reflexivity].
  rewrite Ht. apply in_or_app. right. apply in_or_app. right. left.
  reflexivity.
Defined.

(** ** The health check *)

(** X10.  From a session with no attempt in flight, [checkFrappeApiHealth]
    never throws.  It reports the token client as working exactly when its
    one-document list call was answered, the password client as working
    only when the authentication answered [true] (the session is then
    marked authenticated) and its list call was answered, and the
    connection as healthy exactly when one of the two works; the message
    for an unhealthy connection is fixed.  The list call through the token
    client comes first, and no attempt is left in flight. *)
Theorem checkFrappeApiHealth_report E w :
  authenticationInProgress (session w) = false ->
  let probe := GetDocList TokenChannel "DocType" health_query in
  exists h w',
    checkFrappeApiHealth E w = (Ok h, w')
    /\ healthy h = tokenAuth h || passwordAuth h
    /\ tokenAuth h
       = match answer_list E (trace w) probe with
         | inr _ => true
         | inl _ => false
         end
    /\ (passwordAuth h = true -> isAuthenticated (session w') = true)
    /\ (healthy h = false ->
        health_message h
        = "API connection unhealthy. Both authentication methods failed.")
    /\ (exists rest, trace w' = (trace w ++ Called probe :: rest)%list)
    /\ authenticationInProgress (session w') = false.
Proof.
  intros Hp probe.
  destruct (authenticateWithPassword_returns E (record (Called probe) w) Hp)
    as (b & w2 & Hauth & Hmark & Hflag & Htrace & _).
  assert (Hgrow :
    exists rest, trace w2 = (trace w ++ Called probe :: rest)%list).
  { destruct Htrace as [Ht | (u & p & _ & _ & Ht)]; rewrite Ht; cbn.
    - exists []. reflexivity.
    - eexists. rewrite <- app_assoc. reflexivity. }
  destruct Hgrow as [rest Hrest].
  unfold checkFrappeApiHealth, try_catch, bind, getDocList, ret.
  fold probe.
  destruct (answer_list E (trace w) probe) as [e | v];
    cbv beta iota zeta; rewrite Hauth; cbv beta iota zeta.
  all: destruct b; cbv beta iota zeta.
  all: try destruct (answer_list E (trace w2) _); cbv beta iota zeta.
  all: do 2 eexists; split; [reflexivity|]; cbn.
  all: repeat split; auto; try discriminate.
  all: eexists; first [ exact Hrest | rewrite Hrest, <- app_assoc; reflexivity ].
Qed.

(** X10 at work: no credentials, every call refused: unhealthy. *)
Lemma checkFrappeApiHealth_report_witness :
  fst (checkFrappeApiHealth env_down initial_world)
  = Ok (mkHealth false false false
          "API connection unhealthy. Both authentication methods failed.").
Proof.
  destruct (checkFrappeApiHealth_report env_down initial_world eq_refl)
    as (h & w' & Hrun & _).
  reflexivity.
Defined.

(** ** Acknowledged writes and empty answers *)

(** X11.  Once the create call is answered with a truthy response,
    [createDocument] never throws, whatever the verification finds: a
    verified response is returned as it is, an unverified one with the
    report added under [_verification] ([success: false] and the reason)
    and every other property of the response unchanged. *)
Theorem createDocument_returns_acknowledged_writes
    E doctype values w response :
  is_empty doctype = false -> no_keys values = false ->
  let create := CreateDoc TokenChannel doctype values in
  answer E (trace w) create = inr response ->
  truthy response = true ->
  exists report w',
    verifyDocumentCreation E doctype values response
      (record (Called create) w) = (Ok report, w')
    /\ createDocument E doctype values w
       = (Ok (if success report then response
              else with_verification response report), w')
    /\ get (with_verification response report) "_verification"
       = JObj [("success", JBool (success report));
               ("message", JStr (message report))]
    /\ (forall o k, response = JObj o -> k <> "_verification" ->
        get (with_verification response report) k = obj_get o k).
Proof.
  intros Hd Hv create Ha Ht.
  destruct (verification_reports E TokenChannel "" doctype values response
              (record (Called create) w)) as (r & evs & w' & Hrun & _).
  fold (verifyDocumentCreation E doctype values response) in Hrun.
  exists r, w'. split; [exact Hrun|]. split.
  - unfold createDocument, try_catch, createDoc. rewrite Hd, Hv.
    unfold bind at 1, call_upstream. fold create. rewrite Ha, Ht.
    cbn [negb]. cbv beta iota. rewrite (bind_ok _ _ _ _ _ Hrun).
    destruct (success r); reflexivity.
  - split.
    + unfold with_verification, get. apply obj_get_set_same.
    + intros o k -> Hk. unfold with_verification, get, spread.
      apply obj_get_set_other, Hk.
Qed.

(** X11 at work: the site creates the document but cannot find it again. *)
Lemma createDocument_returns_acknowledged_writes_witness :
  fst (createDocument env_forgetful "ToDo" [("priority", JStr "High")]
         initial_world)
  = Ok (JObj [("name", JStr "TODO-0002");
              ("_verification",
               JObj [("success", JBool false);
                     ("message",
                      JStr "Could not verify document creation - no suitable filters available")])]).
Proof.
  destruct (createDocument_returns_acknowledged_writes env_forgetful "ToDo"
              [("priority", JStr "High")] initial_world
              (JObj [("name", JStr "TODO-0002")])
              eq_refl eq_refl eq_refl eq_refl)
    as (report & w' & Hv & Hrun & _).
  rewrite Hrun. cbn in Hv. injection Hv as <- <-. reflexivity.
Defined.

(** X12.  An empty answer is an error everywhere but in [deleteDocument]:
    for valid arguments, a falsy response makes [getDocument],
    [updateDocument], [createDocument] and [callMethod] throw the translated
    "Invalid response format ..." naming the document type (and name, or the
    method), and a missing list does the same in [listDocuments], while
    [deleteDocument] returns whatever the channel answered, falsy or not.
    An empty array is a valid list. *)
Theorem empty_answers
    E doctype name method values params filters fields limit order_by
    limit_start w response :
  is_empty doctype = false -> is_empty name = false ->
  is_empty method = false -> no_keys values = false ->
  truthy response = false ->
  let said c := answer E (trace w) c = inr response in
  let w' c := record (Called c) w in
  (said (GetDoc TokenChannel doctype (JStr name)) ->
   getDocument E doctype name w
   = rejected (w' (GetDoc TokenChannel doctype (JStr name)))
       ("get_document(" ++ doctype ++ ", " ++ name ++ ")")
       ("Invalid response format for document " ++ doctype ++ "/" ++ name))
  /\ (said (UpdateDoc TokenChannel doctype name values) ->
      updateDocument E doctype name values w
      = rejected (w' (UpdateDoc TokenChannel doctype name values))
          ("update_document(" ++ doctype ++ ", " ++ name ++ ")")
          ("Invalid response format for updating " ++ doctype ++ "/" ++ name))
  /\ (said (CreateDoc TokenChannel doctype values) ->
      createDocument E doctype values w
      = rejected (w' (CreateDoc TokenChannel doctype values))
          ("create_document(" ++ doctype ++ ")")
          ("Invalid response format for creating " ++ doctype))
  /\ (said (CallPost TokenChannel method (js_of_params params)) ->
      callMethod E method params w
      = rejected (w' (CallPost TokenChannel method (js_of_params params)))
          ("call_method(" ++ method ++ ")")
          ("Invalid response format for method " ++ method))
  /\ (forall acknowledgement,
        answer E (trace w) (DeleteDoc TokenChannel doctype name)
        = inr acknowledgement ->
        deleteDocument E doctype name w
        = (Ok acknowledgement, w' (DeleteDoc TokenChannel doctype name)))
  /\ (let query :=
        GetDocList TokenChannel doctype
          (list_query filters fields limit order_by limit_start) in
      (answer_list E (trace w) query = inr None ->
       fst (listDocuments E doctype filters fields limit order_by
              limit_start w)
       = Throw (translated ("list_documents(" ++ doctype ++ ")")
                  ("Invalid response format for listing " ++ doctype)))
      /\ (answer_list E (trace w) query = inr (Some []) ->
          fst (listDocuments E doctype filters fields limit order_by
                 limit_start w) = Ok [])).
Proof.
  intros Hd Hn Hm Hv Hf said w'. subst said w'. cbv beta.
  unfold getDocument, updateDocument, createDocument, callMethod,
    deleteDocument, listDocuments, rejected, translated, handleApiError,
    try_catch, bind, getDoc, updateDoc, createDoc, deleteDoc, call_upstream,
    getDocList.
  cbn [falsy to_str]. rewrite Hd, Hn, Hm, Hv.
  repeat split; intros; rewrite H; cbn; rewrite ?Hf; reflexivity.
Qed.

(** X12 at work: a remote method that answers [false]. *)
Lemma empty_answers_witness :
  callMethod env_false "frappe.ping" None initial_world
  = (Throw (FrappeApiError
              "Error during call_method(frappe.ping): Invalid response format for method frappe.ping"
              None None JUndefined),
     mkWorld [Called (CallPost TokenChannel "frappe.ping" JUndefined)]
       initial_session).
Proof.
  destruct (empty_answers env_false "ToDo" "TODO-0001" "frappe.ping"
              [("status", JStr "Closed")] None None None None None None
              initial_world (JBool false)
              eq_refl eq_refl eq_refl eq_refl eq_refl)
    as (_ & _ & _ & H & _).
  exact (H eq_refl).
Defined.

(** ** The schema *)

Lemma field_descriptor_normalized f :
  nullish f = false ->
  exists d, (forall w, field_descriptor f w = (Ok d, w)) /\ normalized f d.
Proof.
  intros Hf. destruct f; try discriminate.
  all: eexists; split; [intros w; reflexivity|].
  all: unfold normalized, flag; cbn; repeat split; reflexivity.
Qed.

Lemma mapM_field_descriptor_normalized l :
  existsb nullish l = false ->
  exists ds,
    (forall w, mapM field_descriptor l w = (Ok ds, w))
    /\ Forall2 normalized l ds.
Proof.
  induction l as [|f l IH]; intros H.
  - exists []. split; [reflexivity | constructor].
  - cbn in H. apply orb_false_iff in H as [Hf Hl].
    destruct (field_descriptor_normalized f Hf) as (d & Hd & Hnd).
    destruct (IH Hl) as (ds & Hds & Hnds).
    exists (d :: ds). split; [|constructor; assumption].
    intros w. cbn [mapM]. unfold bind. rewrite Hd, Hds. reflexivity.
Qed.

(** X13.  When the metadata endpoint answers with a list of field records,
    [getDocTypeSchema] makes that one call and returns a schema named after
    the requested document type whose [fields] are the records in the same
    order and number, each one described: name, label, type, options and
    default as received, [required], [bold], [hidden] and [read_only] true
    exactly when the raw flag is the number 1, [linked_doctype] the options
    of a Link field and [child_doctype] the options of a Table field
    ([null] otherwise). *)
Theorem getDocTypeSchema_describes_fields E doctype w docTypeData raw :
  is_empty doctype = false ->
  answer E (trace w) (get_meta doctype) = inr docTypeData ->
  truthy docTypeData = true ->
  get docTypeData "fields" = JArr raw ->
  existsb nullish raw = false ->
  exists schema described,
    getDocTypeSchema E doctype w
    = (Ok schema, record (Called (get_meta doctype)) w)
    /\ get schema "name" = JStr doctype
    /\ get schema "fields" = JArr described
    /\ Forall2 normalized raw described.
Proof.
  intros Hd Ha Ht Hfields Hraw.
  destruct (mapM_field_descriptor_normalized raw Hraw) as (ds & Hds & Hn).
  eexists _, ds.
  split; [|split; [|split; [|exact Hn]]].
  - unfold getDocTypeSchema, try_catch, bind, call_upstream, ret.
    cbn [falsy]. rewrite Hd, Ha. cbv beta iota. rewrite Ht.
    unfold schema_of_meta, described_fields, bind, ret.
    rewrite Hfields. cbn [truthy]. rewrite Hds. reflexivity.
  - reflexivity.
  - reflexivity.
Qed.

(** X13 at work: the ToDo fields of the site. *)
Lemma getDocTypeSchema_describes_fields_witness :
  exists described,
    Forall2 normalized todo_fields described
    /\ map (fun d => get d "required") described = [JBool true; JBool false].
Proof.
  destruct (getDocTypeSchema_describes_fields (env_site true) "ToDo"
              initial_world
              (JObj [("doctype", JObj (doctype_info "ToDo"));
                     ("fields", JArr todo_fields)])
              todo_fields eq_refl eq_refl eq_refl eq_refl eq_refl)
    as (schema & described & Hrun & _ & Hf & Hn).
  exists described. split; [exact Hn|].
  cbn in Hrun. injection Hrun as <-. cbn in Hf. injection Hf as <-.
  reflexivity.
Defined.

(** X14.  [getDocTypeSchema] never changes the session and calls upstream at
    most twice: nothing for an empty document type (the translated
    "DocType name is required"), the metadata endpoint alone when it gives
    a truthy answer (even if the schema cannot be built from it), and the
    metadata endpoint followed by the fetch of the DocType document
    otherwise. *)
Theorem getDocTypeSchema_calls E (doctype : string) w :
  let out := getDocTypeSchema E doctype w in
  let meta := get_meta doctype in
  session (snd out) = session w
  /\ fst out <> Hang
  /\ if is_empty doctype then
       out = rejected w ("get_doctype_schema(" ++ doctype ++ ")")
               "DocType name is required"
     else if meta_unusable (answer E (trace w) meta) then
       trace (snd out)
       = (trace w ++ [Called meta;
                      Called (GetDoc TokenChannel "DocType" (JStr doctype))])%list
     else trace (snd out) = (trace w ++ [Called meta])%list.
Proof.
  unfold getDocTypeSchema, getDocument, handleApiError, meta_unusable,
    schema_of_meta, described_fields, rejected, translated.
  run. destruct (is_empty doctype) eqn:Hd; cbn.
  - repeat split. discriminate.
  - destruct (answer E (trace w) (get_meta doctype)) as [e | v]; cbn.
    + rewrite ?Hd. cbn.
      repeat (inspect; cbn); repeat split;
        rewrite <- ?app_assoc; try reflexivity; discriminate.
    + destruct (truthy v) eqn:Hv; cbn.
      * destruct (truthy (get v "fields")); cbn;
          [destruct (get v "fields"); cbn|].
        all: try (repeat split; try reflexivity; discriminate).
        all: try (repeat (inspect; cbn); repeat split;
                  try reflexivity; discriminate).
        unfold bind, ret.
        destruct (mapM_field_descriptor_result items
                    (record (Called (get_meta doctype)) w))
          as [[r Hr] | [e He]]; [rewrite Hr | rewrite He]; cbn.
        -- repeat split; try reflexivity; discriminate.
        -- destruct (isAxiosError e); cbn;
             repeat split; try reflexivity; discriminate.
      * rewrite ?Hd. cbn.
        repeat (inspect; cbn); repeat split;
          rewrite <- ?app_assoc; try reflexivity; discriminate.
Qed.

(** ** Field options beyond Link and Select lists *)

(** X15.  Once the schema is resolved and holds the field,
    [getFieldOptions] calls nothing more and returns the empty sequence for
    a Table field, for a field of any other type that is neither Link nor
    Select, and for a Select field without options; for a Link field
    without a linked document type it throws the structured error naming
    the field. *)
Theorem getFieldOptions_without_lookup
    E doctype fieldname filters w schema w1 fields field :
  is_empty doctype = false -> is_empty fieldname = false ->
  getDocTypeSchema E doctype w = (Ok schema, w1) ->
  get schema "fields" = JArr fields ->
  find_field (named fieldname) fields w1 = (Ok field, w1) ->
  truthy field = true ->
  let fieldtype := get field "fieldtype" in
  let out := getFieldOptions E doctype fieldname filters w in
  (strict_eq fieldtype (JStr "Link") = false ->
   strict_eq fieldtype (JStr "Select") = false ->
   out = (Ok [], w1))
  /\ (strict_eq fieldtype (JStr "Select") = true ->
      truthy (get field "options") = false ->
      out = (Ok [], w1))
  /\ (strict_eq fieldtype (JStr "Link") = true ->
      truthy (get field "options") = false ->
      out = (Throw (field_options_error doctype fieldname
                      ("Link field " ++ fieldname
                         ++ " has no options (linked DocType) specified")),
             w1)).
Proof.
  intros Hd Hf Hs Hfields Hfind Htruthy fieldtype out. subst fieldtype out.
  rewrite (getFieldOptions_with_schema _ _ _ _ _ _ _ _ Hd Hf Hs Hfields).
  unfold try_catch. rewrite (bind_ok _ _ _ _ _ Hfind), Htruthy.
  cbn [negb].
  repeat split.
  - intros Hl Hsel. rewrite Hl, Hsel.
    destruct (strict_eq (get field "fieldtype") (JStr "Table")); reflexivity.
  - intros Hsel Ho.
    assert (Hl : strict_eq (get field "fieldtype") (JStr "Link") = false).
    { destruct (get field "fieldtype"); try reflexivity.
      cbn in Hsel. apply String.eqb_eq in Hsel. subst. reflexivity. }
    rewrite Hl, Hsel, Ho. reflexivity.
  - intros Hl Ho. rewrite Hl, Ho. reflexivity.
Qed.

(** X15 at work: a Table field and a Link field without target. *)
Lemma getFieldOptions_without_lookup_witness :
  fst (getFieldOptions env_invoice "Invoice" "items" None initial_world)
  = Ok []
  /\ fst (getFieldOptions env_invoice "Invoice" "customer" None initial_world)
     = Throw (FrappeApiError
                "Error getting field options for Invoice.customer: Link field customer has no options (linked DocType) specified"
                None None JUndefined).
Proof.
  pose proof (fun f field =>
    getFieldOptions_without_lookup env_invoice "Invoice" f None
      initial_world
      (match fst (getDocTypeSchema env_invoice "Invoice" initial_world)
       with Ok schema => schema | _ => JNull end)
      (snd (getDocTypeSchema env_invoice "Invoice" initial_world))
      invoice_fields field eq_refl) as H.
  split.
  - destruct (H "items" (JObj [("fieldname", JStr "items");
                                ("fieldtype", JStr "Table");
                                ("options", JStr "Invoice Item")])
                eq_refl eq_refl eq_refl eq_refl eq_refl) as (H1 & _).
    rewrite (H1 eq_refl eq_refl). reflexivity.
  - destruct (H "customer" (JObj [("fieldname", JStr "customer");
                                   ("fieldtype", JStr "Link")])
                eq_refl eq_refl eq_refl eq_refl eq_refl) as (_ & _ & H3).
    rewrite (H3 eq_refl eq_refl). reflexivity.
Defined.

(** ** Select options are clean lines *)

Lemma trim_end_idem s : trim_end (trim_end s) = trim_end s.
Proof.
  induction s as [|a s IH]; [reflexivity|].
  cbn [trim_end].
  destruct (is_space a && (trim_end s =? "")%string) eqn:H; [reflexivity|].
  cbn [trim_end]. rewrite IH, H. reflexivity.
Qed.

Lemma trim_start_clean s : starts_clean (trim_start s) = true.
Proof.
  induction s as [|a s IH]; [reflexivity|].
  cbn [trim_start]. destruct (is_space a) eqn:Ha; [exact IH|].
  cbn. rewrite Ha. reflexivity.
Qed.

Lemma trim_start_of_clean s : starts_clean s = true -> trim_start s = s.
Proof.
  destruct s as [|a s]; [reflexivity|]. cbn.
  destruct (is_space a); [discriminate | reflexivity].
Qed.

Lemma trim_end_clean s :
  starts_clean s = true -> starts_clean (trim_end s) = true.
Proof.
  destruct s as [|a s]; [reflexivity|].
  cbn [starts_clean trim_end].
  destruct (is_space a) eqn:Ha; cbn; [discriminate|].
  intros _. rewrite Ha. reflexivity.
Qed.

Lemma trim_idem s : trim (trim s) = trim s.
Proof.
  unfold trim.
  rewrite (trim_start_of_clean (trim_end (trim_start s))).
  - apply trim_end_idem.
  - apply trim_end_clean, trim_start_clean.
Qed.

Lemma has_char_trim_start c s :
  has_char c s = false -> has_char c (trim_start s) = false.
Proof.
  induction s as [|a s IH]; [reflexivity|].
  cbn. intros H. apply orb_false_iff in H as [Ha Hs].
  destruct (is_space a); [auto|]. cbn. rewrite Ha, Hs. reflexivity.
Qed.

Lemma has_char_trim_end c s :
  has_char c s = false -> has_char c (trim_end s) = false.
Proof.
  induction s as [|a s IH]; [reflexivity|].
  cbn. intros H. apply orb_false_iff in H as [Ha Hs].
  destruct (is_space a && (trim_end s =? "")%string); [reflexivity|].
  cbn. rewrite Ha, (IH Hs). reflexivity.
Qed.

Lemma split_lines_have_no_separator c s :
  Forall (fun line => has_char c line = false) (split c s).
Proof.
  induction s as [|a s IH]; cbn [split].
  - constructor; [reflexivity | constructor].
  - destruct (Ascii.eqb a c) eqn:Ha.
    + constructor; [reflexivity | exact IH].
    + destruct (split c s) as [|h t].
      * constructor; [cbn; rewrite Ha; reflexivity | constructor].
      * inversion IH as [|? ? Hh Ht]; subst.
        constructor; [cbn; rewrite Ha, Hh; reflexivity | exact Ht].
Qed.

Lemma getFieldOptions_select_run
    E doctype fieldname filters w schema w1 fields field options :
  is_empty doctype = false -> is_empty fieldname = false ->
  getDocTypeSchema E doctype w = (Ok schema, w1) ->
  get schema "fields" = JArr fields ->
  find_field (named fieldname) fields w1 = (Ok field, w1) ->
  get field "fieldtype" = JStr "Select" ->
  get field "options" = JStr options ->
  getFieldOptions E doctype fieldname filters w
  = (Ok (map select_option (filter not_blank (split LF options))), w1).
Proof.
  intros Hd Hf Hs Hfields Hfind Htype Hopt.
  rewrite (getFieldOptions_with_schema _ _ _ _ _ _ _ _ Hd Hf Hs Hfields).
  unfold try_catch. rewrite (bind_ok _ _ _ _ _ Hfind).
  destruct field; cbn in Htype; try discriminate.
  cbn in Hopt. cbn. rewrite Htype, Hopt. cbn.
  destruct (options =? "")%string eqn:He; cbn; [|reflexivity].
  apply String.eqb_eq in He. subst options. reflexivity.
Qed.

(** X16.  Every option [getFieldOptions] returns for a Select field is a
    clean line: value and label are the same text, which is not empty, has
    no newline, and is already trimmed (trimming it again changes nothing).
    There are never more options than lines in the options text. *)
Theorem select_options_are_clean_lines
    E doctype fieldname filters w schema w1 fields field options :
  is_empty doctype = false -> is_empty fieldname = false ->
  getDocTypeSchema E doctype w = (Ok schema, w1) ->
  get schema "fields" = JArr fields ->
  find_field (named fieldname) fields w1 = (Ok field, w1) ->
  get field "fieldtype" = JStr "Select" ->
  get field "options" = JStr options ->
  exists opts,
    getFieldOptions E doctype fieldname filters w = (Ok opts, w1)
    /\ (List.length opts <= List.length (split LF options))%nat
    /\ Forall (fun o => exists t,
                  value o = JStr t /\ label o = JStr t
                  /\ t <> "" /\ trim t = t /\ has_char LF t = false)
         opts.
Proof.
  intros Hd Hf Hs Hfields Hfind Htype Hopt.
  eexists. split; [eapply getFieldOptions_select_run; eassumption|].
  split.
  - rewrite length_map. apply filter_length_le.
  - apply Forall_forall. intros o Hin.
    apply in_map_iff in Hin as (line & <- & Hin).
    apply filter_In in Hin as [Hin Hnb].
    exists (trim line). unfold select_option. cbn.
    repeat split.
    + unfold not_blank in Hnb. apply negb_true_iff in Hnb.
      apply String.eqb_neq in Hnb. exact Hnb.
    + apply trim_idem.
    + unfold trim. apply has_char_trim_end, has_char_trim_start.
      pose proof (split_lines_have_no_separator LF options) as Hall.
      rewrite Forall_forall in Hall. apply Hall, Hin.
Qed.

(** X16 at work: the priority field of ToDo. *)
Lemma select_options_are_clean_lines_witness :
  exists opts,
    getFieldOptions (env_site true) "ToDo" "priority" None initial_world
    = (Ok opts, snd (getDocTypeSchema (env_site true) "ToDo" initial_world))
    /\ (List.length opts <= 4)%nat.
Proof.
  destruct (select_options_are_clean_lines (env_site true) "ToDo" "priority"
              None initial_world
              (match fst (getDocTypeSchema (env_site true) "ToDo" initial_world)
               with Ok schema => schema | _ => JNull end)
              (snd (getDocTypeSchema (env_site true) "ToDo" initial_world))
              _ _ low_medium_high
              eq_refl eq_refl eq_refl eq_refl eq_refl eq_refl eq_refl)
    as (opts & Hrun & Hlen & _).
  exists opts. split; [exact Hrun | exact Hlen].
Defined.

(** ** What a list call does with [order_by] *)

Lemma substring_cut s : forall k,
  (k <= String.length s)%nat ->
  s = (substring 0 k s ++ substring k (String.length s - k) s)%string.
Proof.
  induction s as [|a s IH]; intros k Hk.
  - destruct k; [reflexivity | cbn in Hk; lia].
  - destruct k as [|k].
    + cbn [substring append]. rewrite Nat.sub_0_r.
      change (String a s = substring 0 (String.length (String a s)) (String a s)).
      symmetry. apply substring_all.
    + cbn in Hk. cbn. f_equal. apply IH. lia.
Qed.

Lemma endsWith_elim s suffix :
  endsWith s suffix = true -> exists p, s = (p ++ suffix)%string.
Proof.
  unfold endsWith.
  remember (String.length suffix) as m eqn:Hm.
  destruct (m <=? String.length s)%nat eqn:Hle; [|discriminate].
  apply Nat.leb_le in Hle. intros H. apply String.eqb_eq in H.
  exists (substring 0 (String.length s - m) s).
  pose proof (substring_cut s (String.length s - m)) as Hc.
  replace (String.length s - (String.length s - m))%nat with m in Hc by lia.
  rewrite H in Hc. apply Hc. lia.
Qed.

Lemma no_space_append p rest : no_space (p ++ String SP rest) = false.
Proof.
  induction p as [|a p IH]; [reflexivity|].
  cbn. rewrite IH. apply andb_false_r.
Qed.

Lemma first_word_no_space s : no_space (first_word s) = true.
Proof.
  unfold first_word. induction s as [|a s IH]; [reflexivity|].
  cbn [split]. destruct (Ascii.eqb a SP) eqn:Ha; [reflexivity|].
  destruct (split SP s) as [|h t]; cbn in *; rewrite Ha; [reflexivity|].
  exact IH.
Qed.

Lemma first_word_cut s :
  no_space s = false ->
  exists rest, s = (first_word s ++ String SP rest)%string.
Proof.
  unfold first_word. induction s as [|a s IH]; [discriminate|].
  cbn [no_space split]. destruct (Ascii.eqb a SP) eqn:Ha; cbn [negb andb].
  - intros _. apply Ascii.eqb_eq in Ha. subst a. exists s. reflexivity.
  - intros H. destruct (IH H) as [rest Hrest].
    pose proof (split_not_nil SP s) as Hne.
    destruct (split SP s) as [|h t]; [contradiction|].
    exists rest. cbn in *. rewrite Hrest at 1. reflexivity.
Qed.

(** X17.  [listDocuments] and [listDocumentsWithAuth] forward filters,
    fields, limit and offset as given.  When they pass an ordering, its
    field is never empty and the direction is descending exactly when
    [order_by] ends in [" desc"].  When [order_by] ends in [" desc"] or
    [" asc"], the field is only the text before the first space of
    [order_by] (it has no space; anything between it and the direction
    token is dropped), and no ordering at all is passed when [order_by]
    begins with a space.  Without such an ending [order_by] is the field,
    as it is. *)
Theorem list_query_ordering filters fields limit limit_start order_by :
  let args :=
    list_query filters fields limit (Some order_by) limit_start in
  let directed :=
    endsWith order_by " desc" || endsWith order_by " asc" in
  (forall E doctype w,
     is_empty doctype = false ->
     trace (snd (listDocuments E doctype filters fields limit
                   (Some order_by) limit_start w))
     = (trace w ++ [Called (GetDocList TokenChannel doctype args)])%list)
  /\ la_filters args = js_of_filters filters
  /\ la_fields args = option_map (map JStr) fields
  /\ la_limit args = limit
  /\ la_limit_start args = limit_start
  /\ (forall field direction,
        la_orderBy args = Some (field, direction) ->
        field <> ""
        /\ (direction = desc <-> endsWith order_by " desc" = true)
        /\ (directed = true ->
            no_space field = true
            /\ exists rest, order_by = (field ++ String SP rest)%string)
        /\ (directed = false -> field = order_by))
  /\ (la_orderBy args = None <->
      (if directed then first_word order_by = "" else order_by = "")).
Proof.
  intros args directed. subst args directed.
  split; [intros E doctype w Hd; apply listDocuments_call, Hd|].
  assert (Hsp : endsWith order_by " desc" || endsWith order_by " asc" = true
                -> no_space order_by = false).
  { intros H. apply orb_prop in H as [H | H];
      destruct (endsWith_elim _ _ H) as [p Hp]; rewrite Hp;
      apply no_space_append. }
  pose proof (first_word_no_space order_by) as Hns.
  unfold list_query, split_order, orderBy_of, is_empty.
  destruct (endsWith order_by " desc") eqn:Hdesc;
    [| destruct (endsWith order_by " asc") eqn:Hasc]; cbn in *.
  1,2: destruct (first_word_cut order_by (Hsp eq_refl)) as [rest Hrest];
       destruct (String.eqb_spec (first_word order_by) "") as [He | He];
       cbn.
  5: destruct (String.eqb_spec order_by "") as [He | He]; cbn.
  all: repeat split; try discriminate; try reflexivity; intros;
       repeat match goal with
              | H : Some _ = Some _ |- _ => injection H as <- <-
              end;
       try discriminate; try congruence; eauto.
Qed.

(** ** The transaction-like create *)

(** X18.  [createDocumentTransactional] throws exactly what the retry loop
    throws, as it is (no translation), in the world the loop left.  When
    the loop returns a document it verifies it once more and returns it
    with this second report under [_verification], whatever the report
    says: a failed second verification is returned, not thrown.  The
    document returned has a truthy name. *)
Theorem createDocumentTransactional_outcome E doctype values w :
  match createDocumentWithRetry E doctype values 3 w with
  | (Ok result, w1) =>
      exists report w2,
        verifyDocumentCreation E doctype values result w1 = (Ok report, w2)
        /\ createDocumentTransactional E doctype values w
           = (Ok (with_verification result report), w2)
        /\ get (with_verification result report) "_verification"
           = Report_js report
        /\ truthy (get (with_verification result report) "name") = true
  | (Throw e, w1) =>
      createDocumentTransactional E doctype values w = (Throw e, w1)
  | (Hang, _) => False
  end.
Proof.
  destruct (createDocumentWithRetry E doctype values 3 w)
    as [[result | e |] w1] eqn:Hloop.
  - destruct (verification_reports E TokenChannel "" doctype values result w1)
      as (r & evs & w2 & Hv & _).
    fold (verifyDocumentCreation E doctype values result) in Hv.
    exists r, w2. split; [exact Hv|]. split.
    + unfold createDocumentTransactional, logOperation, try_catch.
      unfold bind at 1. unfold ret at 1.
      rewrite (bind_ok _ _ _ _ _ Hloop), (bind_ok _ _ _ _ _ Hv).
      reflexivity.
    + split; [unfold with_verification, get; apply obj_get_set_same|].
      unfold createDocumentWithRetry in Hloop.
      destruct (create_loop_success _ _ _ _ _ _ _ _ _ _ Hloop)
        as (created & r0 & w0 & Hv0 & Hs0 & ->).
      destruct (verification_sound _ _ _ _ _ _ _ _ _ Hv0 Hs0)
        as (o & -> & Hname & _).
      unfold with_verification, spread, get.
      rewrite !obj_get_set_other by discriminate. exact Hname.
  - unfold createDocumentTransactional, logOperation, try_catch.
    unfold bind at 1. unfold ret at 1.
    rewrite (bind_throw _ _ _ _ _ Hloop). reflexivity.
  - unfold createDocumentWithRetry in Hloop.
    destruct (create_loop_spec E doctype values 3 (Z.to_nat 3) 1 None w)
      as (r & evs & w' & Hrun & _ & _ & Hr).
    rewrite Hloop in Hrun. injection Hrun as <- <-. exact Hr.
Qed.

(** ** The document module *)

Lemma translated_by_handler translate {A} (m : M A) operation w :
  translation_of translate operation
    (try_catch m
       (fun error => DocumentApi.handleApiError translate error operation) w).
Proof.
  unfold translation_of, try_catch, DocumentApi.handleApiError, throw.
  destruct (m w) as [[a | e |] w1]; cbn; eauto.
Qed.

(** X19.  In the document module every error of [createDocument],
    [updateDocument], [deleteDocument], [listDocuments] and [callMethod],
    validation errors included, is one its [handleApiError] made under the
    operation's label.  [getDocument] differs on both ends: an empty
    document type or name is thrown as the plain error, before anything is
    called, and every later failure is first rewrapped as "Document fetch
    error: <message>" and only then handed to [handleApiError]. *)
Theorem DocumentApi_errors E translate
    doctype name method values params filters fields limit order_by
    limit_start w :
  translation_of translate ("create_document(" ++ doctype ++ ")")
    (DocumentApi.createDocument E translate doctype values w)
  /\ translation_of translate
       ("update_document(" ++ doctype ++ ", " ++ name ++ ")")
       (DocumentApi.updateDocument E translate doctype name values w)
  /\ translation_of translate
       ("delete_document(" ++ doctype ++ ", " ++ name ++ ")")
       (DocumentApi.deleteDocument E translate doctype name w)
  /\ translation_of translate ("list_documents(" ++ doctype ++ ")")
       (DocumentApi.listDocuments E translate doctype filters fields limit
          order_by limit_start w)
  /\ translation_of translate ("call_method(" ++ method ++ ")")
       (DocumentApi.callMethod E translate method params w)
  /\ (is_empty doctype || is_empty name = true ->
      DocumentApi.getDocument E translate doctype name w
      = (Throw (PlainError (if is_empty doctype then "DocType is required"
                            else "Document name is required")), w))
  /\ (is_empty doctype || is_empty name = false ->
      match fst (DocumentApi.getDocument E translate doctype name w) with
      | Throw e =>
          exists raw,
            e = translate
                  (PlainError ("Document fetch error: " ++ exn_message raw))
                  ("get_document(" ++ doctype ++ ", " ++ name ++ ")")
      | _ => True
      end).
Proof.
  repeat split; try apply translated_by_handler.
  - unfold DocumentApi.getDocument.
    destruct (is_empty doctype); [reflexivity|].
    destruct (is_empty name); [reflexivity | discriminate].
  - unfold DocumentApi.getDocument, DocumentApi.handleApiError, try_catch,
      throw.
    destruct (is_empty doctype); [discriminate|].
    destruct (is_empty name); [discriminate|]. intros _.
    match goal with
    | |- context [match ?m w with _ => _ end] =>
        destruct (m w) as [[a | e |] w1]
    end; cbn; eauto.
Qed.

(** X20.  The two [listDocuments] hand the same query to the channel exactly
    when [order_by] carries no trailing [" asc"] or [" desc"] (or is not
    given): with such an ending the one of the document module keeps the
    whole text as field, ascending, and the one of the main module never
    does. *)
Theorem listDocuments_agree_without_direction
    filters fields limit limit_start order_by :
  DocumentApi.list_query filters fields limit None limit_start
  = list_query filters fields limit None limit_start
  /\ (DocumentApi.list_query filters fields limit (Some order_by) limit_start
      = list_query filters fields limit (Some order_by) limit_start
      <-> endsWith order_by " desc" || endsWith order_by " asc" = false).
Proof.
  split; [reflexivity|].
  assert (Hsp : endsWith order_by " desc" || endsWith order_by " asc" = true
                -> no_space order_by = false).
  { intros H. apply orb_prop in H as [H | H];
      destruct (endsWith_elim _ _ H) as [p Hp]; rewrite Hp;
      apply no_space_append. }
  pose proof (first_word_no_space order_by) as Hns.
  unfold DocumentApi.list_query, list_query, split_order, orderBy_of, is_empty.
  destruct (endsWith order_by " desc") eqn:Hdesc;
    [| destruct (endsWith order_by " asc") eqn:Hasc]; cbn in *.
  3: split; reflexivity.
  all: specialize (Hsp eq_refl); split; [|discriminate]; intros H;
       exfalso.
  all: destruct (String.eqb_spec order_by "") as [He | He];
       [subst order_by; discriminate|].
  all: destruct (String.eqb_spec (first_word order_by) "") as [Hf | Hf];
       [discriminate|].
  all: injection H as H; rewrite <- H in Hns; congruence.
Qed.
